(** * Data-quality checks of [DQ/dq_checks.py]

    A shallow embedding of the class [DQ]: its findings accumulator
    [data_quality_output], the three checkers, the hierarchy formatter and
    the summary reporter, together with the properties the design
    document states about them.

    Conventions of the embedding.
    - A pandas [DataFrame] is its ordered list of column labels and its
      list of rows; a row is a finite map from column label to cell, and a
      label absent from a row reads as the missing cell (pandas' NaN).
    - A numeric cell or threshold (a Python int or a finite float) is the
      rational number it denotes: the embedding does not tell an int64
      from the float64 of the same value.  pandas converts an int64 to
      float64 when it compares it with a float, when [pd.concat] or
      [merge] meets the column with another dtype or with missing cells;
      the conversion changes nothing for the numbers binary64 holds
      exactly (see [binary64]), and a statement that depends on the value
      of a compared or converted number assumes such numbers.  The only
      arithmetic of the code, the percentage
      [missing_count / total_records * 100], is computed in binary64 with
      the kernel's primitive floats.
    - Statements inside [try: ... except Exception: continue] run in a
      state-and-exception monad over the object [self]; an exception keeps
      the state reached when it was raised.
    - What belongs to Python or pandas and not to this repository (the
      iteration order of a [set], [str.upper], number formatting, dtype
      validation of merge keys, the cast to [Int64], the file system
      behind [read_csv]) is gathered in the class [Platform]. *)

From Stdlib Require Import PrimFloat FloatOps Uint63 QArith Qcanon Ascii String.
From stdpp Require Import gmap strings list fin_maps numbers countable sorting pretty.

Local Open Scope string_scope.
Local Open Scope list_scope.
Local Open Scope nat_scope.
Local Open Scope stdpp_scope.

(** ** Strings *)

Module Str.

(** A string is a Python [str] in UTF-8; its ASCII characters are the
    bytes below 128. *)
Fixpoint ascii_only (s : string) : bool :=
  match s with
  | EmptyString => true
  | String a s' => (N_of_ascii a <? 128)%N && ascii_only s'
  end.

(** What [str.upper()] does to ASCII text: the letters a-z become A-Z.
    Python's [upper] on other characters is the platform's [str_upper]. *)
Definition upper_ascii (a : ascii) : ascii :=
  let n := N_of_ascii a in
  if ((97 <=? n) && (n <=? 122))%N then ascii_of_N (n - 32) else a.

Fixpoint upper (s : string) : string :=
  match s with
  | EmptyString => EmptyString
  | String a s' => String (upper_ascii a) (upper s')
  end.

(** [sub in s]. *)
Fixpoint contains (sub s : string) : bool :=
  String.prefix sub s ||
  match s with
  | EmptyString => false
  | String _ s' => contains sub s'
  end.

(** [s.endswith(suf)]. *)
Fixpoint endswith (suf s : string) : bool :=
  bool_decide (suf = s) ||
  match s with
  | EmptyString => false
  | String _ s' => endswith suf s'
  end.

(** The last character of a string, if any. *)
Fixpoint last_char (s : string) : option ascii :=
  match s with
  | EmptyString => None
  | String a EmptyString => Some a
  | String _ s' => last_char s'
  end.

End Str.

(** ** Cells, rows and frames *)

Inductive value : Type :=
| VNull                (* NaN / <NA> *)
| VNum (q : Qc)        (* int64 or float64 cell, as the number it denotes *)
| VStr (s : string).   (* object cell read from text *)

#[global] Instance value_eq_dec : EqDecision value.
Proof. solve_decision. Defined.

#[global] Instance value_countable : Countable value.
Proof.
  refine (inj_countable'
    (λ v, match v with
          | VNull => inl ()
          | VNum q => inr (inl q)
          | VStr s => inr (inr s)
          end)
    (λ x, match x with
          | inl _ => VNull
          | inr (inl q) => VNum q
          | inr (inr s) => VStr s
          end) _).
  by intros [].
Defined.

Abbreviation row := (gmap string value).

Record DataFrame : Type := mkFrame {
  columns : list string;
  rows : list row
}.

#[global] Instance DataFrame_eq_dec : EqDecision DataFrame.
Proof. solve_decision. Defined.

(** [pd.DataFrame()] *)
Definition empty_frame : DataFrame := mkFrame [] [].

(** The cell of a row under a label. *)
Definition cell (r : row) (c : string) : value := default VNull (r !! c).

(** [len(df)] *)
Definition df_len (df : DataFrame) : nat := length (rows df).

(** [df.empty]: some axis has length 0. *)
Definition df_empty (df : DataFrame) : bool :=
  bool_decide (columns df = []) || bool_decide (rows df = []).

(** [df[c]] as the list of its cells. *)
Definition series (df : DataFrame) (c : string) : list value :=
  (λ r, cell r c) <$> rows df.

(** The tuple of cells of a row under a list of labels. *)
Definition key_of (cols : list string) (r : row) : list value :=
  (cell r) <$> cols.

(** The row of [df[cols]] made from a row of [df]. *)
Definition row_project (cols : list string) (r : row) : row :=
  list_to_map ((λ c, (c, cell r c)) <$> cols).

(** [df[cols]] for a list of labels of [df]. *)
Definition df_select (cols : list string) (df : DataFrame) : DataFrame :=
  mkFrame cols (row_project cols <$> rows df).

(** Keep the first occurrence of every element. *)
Fixpoint dedup_from {A} `{EqDecision A} (seen l : list A) : list A :=
  match l with
  | [] => []
  | x :: l' =>
      if decide (x ∈ seen) then dedup_from seen l'
      else x :: dedup_from (x :: seen) l'
  end.

(** [df.drop_duplicates()] (keep='first'; missing cells compare equal). *)
Definition drop_duplicates (df : DataFrame) : DataFrame :=
  mkFrame (columns df) (dedup_from [] (rows df)).

(** [df[pred]]: boolean selection of rows. *)
Definition df_filter (p : row → bool) (df : DataFrame) : DataFrame :=
  mkFrame (columns df) (List.filter p (rows df)).

(** [df[mask]] for a boolean series [mask] aligned with the rows. *)
Definition df_mask (df : DataFrame) (mask : list bool) : DataFrame :=
  mkFrame (columns df) ((List.filter snd (zip (rows df) mask)).*1).

(** [df[c] = v] for a scalar [v]. *)
Definition df_assign (c : string) (v : value) (df : DataFrame) : DataFrame :=
  mkFrame (if decide (c ∈ columns df) then columns df else columns df ++ [c])
          ((λ r, <[c := v]> r) <$> rows df).

(** [df[c] = s] for a series [s] aligned with the rows. *)
Definition df_assign_series (c : string) (s : list value) (df : DataFrame)
  : DataFrame :=
  mkFrame (if decide (c ∈ columns df) then columns df else columns df ++ [c])
          (zip_with (λ r v, <[c := v]> r) (rows df) s).

(** [df.drop(c, axis=1)] for a label of [df]. *)
Definition df_drop (c : string) (df : DataFrame) : DataFrame :=
  mkFrame (List.filter (λ c', negb (bool_decide (c' = c))) (columns df))
          (delete c <$> rows df).

(** [pd.concat([a, b], ignore_index=True)]: the labels of [a], then the new
    labels of [b]; the rows of [a], then the rows of [b].  pandas converts
    an int64 column to float64 when the other frame lacks it or holds it
    as float64; a number keeps its value under that conversion when
    binary64 represents it, which the statements about the cells of a
    concatenated table assume ([binary64_frame]). *)
Definition pd_concat (a b : DataFrame) : DataFrame :=
  mkFrame (columns a ++ List.filter (λ c, negb (bool_decide (c ∈ columns a))) (columns b))
          (rows a ++ rows b).

(** [series < th]: a string cell raises TypeError, a missing cell is False.
    Numbers are compared as the numbers they denote; pandas compares an
    int64 cell with a float threshold, or a float64 cell with an int
    threshold, after converting it to binary64, which is the same
    comparison when binary64 represents both ([binary64]). *)
Definition lt_scalar (th : Qc) (v : value) : option bool :=
  match v with
  | VNull => Some false
  | VNum q => Some (bool_decide (q < th)%Qc)
  | VStr _ => None
  end.

(** [series <= th], likewise. *)
Definition le_scalar (th : Qc) (v : value) : option bool :=
  match v with
  | VNull => Some false
  | VNum q => Some (bool_decide (q ≤ th)%Qc)
  | VStr _ => None
  end.

(** [df[cmp(df[c])]] for an elementwise comparison [cmp] that may raise. *)
Definition df_where (cmp : value → option bool) (c : string) (df : DataFrame)
  : option DataFrame :=
  mask ← mapM cmp (series df c);
  Some (df_mask df mask).

(** [series.iloc[0]] *)
Definition iloc0 (s : list value) : option value := head s.

(** [series.nunique()]: the number of distinct cells, missing ones apart. *)
Definition nunique (s : list value) : nat :=
  length (dedup_from [] (List.filter (λ v, negb (bool_decide (v = VNull))) s)).

(** [series.value_counts().to_dict()]: occurrences of every cell, missing
    ones apart. *)
Definition value_counts (s : list value) : gmap value nat :=
  foldr (λ v m, match v with
                | VNull => m
                | _ => <[v := S (default 0 (m !! v))]> m
                end) ∅ s.

(** The order in which [groupby] lists its groups: numbers before text,
    each in its own order, tuples lexicographically. *)
Definition value_leb (a b : value) : bool :=
  match a, b with
  | VNull, _ => true
  | _, VNull => false
  | VNum p, VNum q => bool_decide (p ≤ q)%Qc
  | VNum _, VStr _ => true
  | VStr _, VNum _ => false
  | VStr s, VStr t => String.leb s t
  end.

Fixpoint key_leb (k1 k2 : list value) : bool :=
  match k1, k2 with
  | [], _ => true
  | _ :: _, [] => false
  | a :: k1', b :: k2' =>
      if decide (a = b) then key_leb k1' k2' else value_leb a b
  end.

Definition key_le (k1 k2 : list value) : Prop := key_leb k1 k2 = true.

#[global] Instance key_le_dec : RelDecision key_le.
Proof. intros k1 k2. unfold key_le. apply _. Defined.

(** The group keys of [df.groupby(ids)]: the distinct key tuples without a
    missing component (dropna), sorted. *)
Definition group_keys (ids : list string) (df : DataFrame) : list (list value) :=
  merge_sort key_le
    (dedup_from []
       (List.filter (λ k, negb (bool_decide (VNull ∈ k))) (key_of ids <$> rows df))).

(** [nunique] of the label [date] inside the group of key [k]. *)
Definition period_count_of (ids : list string) (date : string) (df : DataFrame)
    (k : list value) : nat :=
  nunique (series (df_filter (λ r, bool_decide (key_of ids r = k)) df) date).

(** [df.groupby(ids)[date].nunique().reset_index()] with its labels renamed
    to [ids + ['period_count']].  [reset_index] raises ValueError when the
    counted label is also a grouping label. *)
Definition groupby_nunique (ids : list string) (date : string) (df : DataFrame)
  : option DataFrame :=
  if decide (date ∈ ids) then None
  else Some (mkFrame (ids ++ ["period_count"])
         ((λ k, <["period_count" :=
                    VNum (Qc_of_Z (Z.of_nat (period_count_of ids date df k)))]>
                  (list_to_map (zip ids k) : row))
          <$> group_keys ids df)).

(** [itertools.permutations(l, 2)]: the ordered pairs of elements at
    distinct positions, in lexicographic order of positions. *)
Definition permutations2 {A} (l : list A) : list (A * A) :=
  mjoin (imap (λ i x,
           omap (λ jy : nat * A,
                   if decide (i = jy.1) then None else Some (x, jy.2))
                (imap pair l)) l).

(** ** Binary64 arithmetic of the percentage *)

Definition float_of_nat (n : nat) : float :=
  PrimFloat.of_uint63 (Uint63.of_Z (Z.of_nat n)).

(** The rational a float denotes; [None] for infinities and NaN. *)
Definition float_val (f : float) : option Qc :=
  match Prim2SF f with
  | SpecFloat.S754_zero _ => Some 0%Qc
  | SpecFloat.S754_finite s m e =>
      let mag := if (0 <=? e)%Z
                 then Qc_of_Z (Z.pos m * 2 ^ e)
                 else (Qc_of_Z (Z.pos m) / Qc_of_Z (2 ^ (- e)))%Qc in
      Some (if s then (- mag)%Qc else mag)
  | _ => None
  end.

(** [f > th] for a float [f] and a number [th]. *)
Definition float_gt (f : float) (th : Qc) : bool :=
  match Prim2SF f with
  | SpecFloat.S754_nan => false
  | SpecFloat.S754_infinity s => negb s
  | _ => match float_val f with
         | Some q => bool_decide (th < q)%Qc
         | None => false
         end
  end.

(** [(missing_count / total_records * 100) if total_records > 0 else 0] *)
Definition missing_pct (missing_count total_records : nat) : float :=
  if 0 <? total_records
  then (float_of_nat missing_count / float_of_nat total_records
        * float_of_nat 100)%float
  else 0%float.

(** ** What Python and pandas decide *)

Class Platform : Type := {
  (** the file system seen through [pd.read_csv]: the parsed table, or
      [None] when the call raises *)
  read_csv : string → option DataFrame;
  (** the elements of [set(a) & set(b)] in the order a comprehension
      iterates over them *)
  set_and : list string → list string → list string;
  set_and_elem : ∀ a b c, c ∈ set_and a b ↔ c ∈ a ∧ c ∈ b;
  set_and_NoDup : ∀ a b, NoDup (set_and a b);
  (** [s.upper()]: Unicode-aware; on ASCII text it is [Str.upper] *)
  str_upper : string → string;
  str_upper_ascii : ∀ s, Str.ascii_only s = true → str_upper s = Str.upper s;
  (** [str(th)] of a number *)
  str_num : Qc → string;
  (** [format(v, '.2f')] of a cell; raises on text *)
  format_2f : value → option string;
  (** [format(f, '.1f')] of a float *)
  format_1f : float → string;
  (** whether [merge] accepts the dtypes of the key columns of its two
      frames (it raises ValueError otherwise) *)
  merge_keys_ok : list string → DataFrame → DataFrame → bool;
  (** [series.astype('Int64')]: the converted cells, or [None] when the
      cast raises *)
  astype_Int64 : list value → option (list value);
  astype_Int64_length :
    ∀ s s', astype_Int64 s = Some s' → length s' = length s
}.

(** [left.merge(right, on=on, how='left', indicator=True)] for two frames
    whose labels are exactly [on].  A label repeated in [on] is not unique
    in the frames and makes [merge] raise; missing keys match each other.
    Numeric keys match as the numbers they denote, as they do in pandas
    for numbers binary64 represents (an int64 key column is converted
    when the other one is float64). *)
Definition merge_left_indicator `{Platform} (on : list string)
    (left right : DataFrame) : option DataFrame :=
  if decide (NoDup on) then
    if merge_keys_ok on left right then
      Some (mkFrame (columns left ++ ["_merge"])
        (r ← rows left;
         match List.filter (λ r', bool_decide (key_of on r' = key_of on r))
                           (rows right) with
         | [] => [<["_merge" := VStr "left_only"]> r]
         | ms => (λ _, <["_merge" := VStr "both"]> r) <$> ms
         end))
    else None
  else None.

(** [merged[merged['_merge'] == 'left_only']] *)
Definition left_only (merged : DataFrame) : DataFrame :=
  df_filter (λ r, bool_decide (cell r "_merge" = VStr "left_only")) merged.

(** ** The object [DQ] *)

Record InputTables : Type := mkInputTables {
  it_val_range : option (list (string * string));
  it_cross_consistency : option (list string);
  it_time_cross_consistency : option (list (string * string))
}.

Record ThValues : Type := mkThValues {
  th_val_range : option Qc;
  th_time_cross_consistency : option Qc
}.

Record DQ : Type := mkDQ {
  check_id : string;
  check_name : string;
  client : string;
  input_tables : InputTables;
  th_values : ThValues;
  lvl_data : list (string * string);
  data_path : string;
  data_quality_output : DataFrame
}.

(** [self.data_quality_output = df] *)
Definition set_output (self : DQ) (df : DataFrame) : DQ :=
  mkDQ (check_id self) (check_name self) (client self) (input_tables self)
       (th_values self) (lvl_data self) (data_path self) df.

(** [DQ.__init__] *)
Definition init (check_id check_name client : string)
    (input_tables : InputTables) (th_values : ThValues)
    (lvl_data : list (string * string)) (data_path : string) : DQ :=
  mkDQ check_id check_name client input_tables th_values lvl_data data_path
       empty_frame.

(** ** Statements that may raise *)

Definition M (A : Type) : Type := DQ → option A * DQ.

Definition ret {A} (a : A) : M A := λ s, (Some a, s).

Definition bind {A B} (m : M A) (k : A → M B) : M B :=
  λ s, match m s with
       | (Some a, s') => k a s'
       | (None, s') => (None, s')
       end.

(** an expression that raises when it has no value *)
Definition lift {A} (o : option A) : M A := λ s, (o, s).

Definition get_self : M DQ := λ s, (Some s, s).

Definition put_output (df : DataFrame) : M unit :=
  λ s, (Some tt, set_output s df).

(** [try: body except Exception: continue] *)
Definition try_except (body : M unit) : DQ → DQ := λ s, (body s).2.

Notation "'do' x <- m ; k" := (bind m (λ x, k))
  (at level 10, x name, m at level 100, k at level 200,
   format "'[v' 'do'  x  <-  m ; '/' k ']'").
Notation "m ;; k" := (bind m (λ _, k))
  (at level 100, k at level 200, right associativity).

Section Checks.
Context `{Platform}.

(** [pd.read_csv(self.data_path + name + '.csv')] *)
Definition load (self : DQ) (name : string) : M DataFrame :=
  lift (read_csv (data_path self +:+ name +:+ ".csv")).

(** *** [check_val_range] *)

(** the metadata written on each offending row *)
Definition val_range_tag (table_name target_col : string) (th : Qc)
    (warning : string) (bad_rows : DataFrame) : DataFrame :=
  df_assign "WARNING" (VStr warning)
    (df_assign "WARNING_TYPE" (VStr "val_range")
      (df_assign "INPUT_VALUE" (VNum th)
        (df_assign "INPUT_TABLE" (VStr table_name)
          (df_assign "INPUT_COLUMN" (VStr target_col) bad_rows)))).

Definition check_val_range_body (th : Qc) (unit_ : string * string) : M unit :=
  let '(table_name, target_col) := unit_ in
  do self <- get_self;
  do table <- load self table_name;
  if bool_decide (target_col ∉ columns table) then ret tt
  else
    do bad_rows <- lift (df_where (lt_scalar th) target_col table);
    if 0 <? df_len bad_rows then
      let tagged4 :=
        df_assign "WARNING_TYPE" (VStr "val_range")
          (df_assign "INPUT_VALUE" (VNum th)
            (df_assign "INPUT_TABLE" (VStr table_name)
              (df_assign "INPUT_COLUMN" (VStr target_col) bad_rows))) in
      do first <- lift (iloc0 (series tagged4 target_col));
      do shown <- lift (format_2f first);
      let warning := "Value " +:+ target_col +:+ "=" +:+ shown +:+
                     " is below threshold " +:+ str_num th +:+
                     " in " +:+ table_name in
      put_output (pd_concat (data_quality_output self)
                    (val_range_tag table_name target_col th warning bad_rows))
    else ret tt.

Definition check_val_range (tables : list (string * string)) (th : Qc)
    (self : DQ) : DataFrame * DQ :=
  let self' :=
    foldl (λ s u, try_except (check_val_range_body th u) s) self tables in
  (data_quality_output self', self').

End Checks.

Section Checks2.
Context `{Platform}.

(** *** [check_cross_consistency] *)

Definition cross_tag (table1_name table2_name : string)
    (orphaned : DataFrame) : DataFrame :=
  df_assign "WARNING"
      (VStr ("IDs from " +:+ table1_name +:+ " not found in " +:+ table2_name))
    (df_assign "WARNING_TYPE" (VStr "cross_consistency")
      (df_assign "INPUT_TABLE" (VStr (table1_name +:+ " && " +:+ table2_name))
        orphaned)).

(** [[col for col in set(t1.columns) & set(t2.columns) if 'ID' in col.upper()]] *)
Definition common_id_cols (table1 table2 : DataFrame) : list string :=
  List.filter (λ col, Str.contains "ID" (str_upper col))
              (set_and (columns table1) (columns table2)).

Definition check_cross_consistency_body (pair_ : string * string) : M unit :=
  let '(table1_name, table2_name) := pair_ in
  do self <- get_self;
  do table1 <- load self table1_name;
  do table2 <- load self table2_name;
  let common_id_cols := common_id_cols table1 table2 in
  if bool_decide (common_id_cols = []) then ret tt
  else
    let unique_ids_table1 := drop_duplicates (df_select common_id_cols table1) in
    let unique_ids_table2 := drop_duplicates (df_select common_id_cols table2) in
    do merged <- lift (merge_left_indicator common_id_cols
                         unique_ids_table1 unique_ids_table2);
    let orphaned := left_only merged in
    if 0 <? df_len orphaned then
      let orphaned := df_drop "_merge" orphaned in
      put_output (pd_concat (data_quality_output self)
                    (cross_tag table1_name table2_name orphaned))
    else ret tt.

Definition check_cross_consistency (tables : list string) (self : DQ)
    : DataFrame * DQ :=
  let table_pairs := permutations2 tables in
  let self' :=
    foldl (λ s p, try_except (check_cross_consistency_body p) s)
          self table_pairs in
  (data_quality_output self', self').

(** *** [check_time_cross_consistency] *)

Definition time_missing_tag (table1_name table2_name : string) (th : Qc)
    (missing_count : nat) (pct : float) (missing_records : DataFrame)
    : DataFrame :=
  df_assign "WARNING"
      (VStr (pretty missing_count +:+ " records (" +:+ format_1f pct +:+
             "%) from " +:+ table1_name +:+ " missing in " +:+ table2_name))
    (df_assign "WARNING_TYPE" (VStr "time_cross_consistency")
      (df_assign "INPUT_VALUE" (VNum th)
        (df_assign "INPUT_TABLE"
           (VStr (table1_name +:+ " && " +:+ table2_name))
           missing_records))).

Definition time_infrequent_tag (table1_name : string) (th : Qc)
    (infrequent : DataFrame) : DataFrame :=
  df_assign "WARNING"
      (VStr ("ID appears in " +:+ str_num th +:+
             " or fewer time periods in " +:+ table1_name))
    (df_assign "WARNING_TYPE" (VStr "time_cross_consistency")
      (df_assign "INPUT_VALUE" (VNum th)
        (df_assign "INPUT_TABLE" (VStr table1_name) infrequent))).

(** the common columns naming a product or a location identifier *)
Definition time_id_columns (common_columns : list string) : list string :=
  List.filter (λ col,
      Str.contains "ID" (str_upper col) &&
      (Str.contains "PRODUCT" (str_upper col) ||
       Str.contains "LOCATION" (str_upper col)))
    common_columns.

(** the common columns ending with [_DT] *)
Definition time_date_columns (common_columns : list string) : list string :=
  List.filter (λ col, Str.endswith "_DT" col) common_columns.

Definition modify_output (f : DataFrame → DataFrame) : M unit :=
  λ s, (Some tt, set_output s (f (data_quality_output s))).

(** the block after the merge: the combinations of table1 missing from
    table2, appended when their percentage exceeds [th] *)
Definition time_missing_block (table1_name table2_name : string) (th : Qc)
    (unique_keys_table1 merged : DataFrame) : M unit :=
  let missing_records := left_only merged in
  if 0 <? df_len missing_records then
    let missing_records := df_drop "_merge" missing_records in
    let total_records := df_len unique_keys_table1 in
    let missing_count := df_len missing_records in
    let pct := missing_pct missing_count total_records in
    if float_gt pct th then
      modify_output (λ out,
        pd_concat out (time_missing_tag table1_name table2_name th
                         missing_count pct missing_records))
    else ret tt
  else ret tt.

(** the block "also check for infrequent occurrences" *)
Definition time_infrequent_block (table1_name : string) (th : Qc)
    (table1 : DataFrame) (id_columns date_columns : list string) : M unit :=
  if 0 <? length id_columns then
    do date0 <- lift (head date_columns);
    do id_date_counts <- lift (groupby_nunique id_columns date0 table1);
    do infrequent <- lift (df_where (le_scalar th) "period_count"
                             id_date_counts);
    if 0 <? df_len infrequent then
      let infrequent := df_drop "period_count" infrequent in
      modify_output (λ out,
        pd_concat out (time_infrequent_tag table1_name th infrequent))
    else ret tt
  else ret tt.

Definition check_time_cross_consistency_body (th : Qc)
    (pair_ : string * string) : M unit :=
  let '(table1_name, table2_name) := pair_ in
  do self <- get_self;
  do table1 <- load self table1_name;
  do table2 <- load self table2_name;
  let common_columns := set_and (columns table1) (columns table2) in
  let id_columns := time_id_columns common_columns in
  let date_columns := time_date_columns common_columns in
  if bool_decide (id_columns = []) || bool_decide (date_columns = [])
  then ret tt
  else
    let key_columns := id_columns ++ date_columns in
    let unique_keys_table1 := drop_duplicates (df_select key_columns table1) in
    let unique_keys_table2 := drop_duplicates (df_select key_columns table2) in
    do merged <- lift (merge_left_indicator key_columns
                         unique_keys_table1 unique_keys_table2);
    time_missing_block table1_name table2_name th unique_keys_table1 merged;;
    time_infrequent_block table1_name th table1 id_columns date_columns.

Definition check_time_cross_consistency (tables : list (string * string))
    (th : Qc) (self : DQ) : DataFrame * DQ :=
  let self' :=
    foldl (λ s p, try_except (check_time_cross_consistency_body th p) s)
          self tables in
  (data_quality_output self', self').

(** *** [format_output] *)

Definition format_output_body (dimension_name hierarchy_table_name : string)
    : M unit :=
  let id_col_name := dimension_name +:+ "_ID" in
  do self <- get_self;
  do hierarchy_table <- load self hierarchy_table_name;
  let level_cols :=
    List.filter (λ col, Str.contains (dimension_name +:+ "_LVL_ID") col)
                (columns hierarchy_table) in
  let num_levels := length level_cols in
  let target_level := num_levels + 1 in
  do casted <- lift (astype_Int64 (series (data_quality_output self) id_col_name));
  modify_output (df_assign_series
      (dimension_name +:+ "_LVL_ID" +:+ pretty target_level) casted);;
  modify_output (df_assign (dimension_name +:+ "_LVL")
      (VNum (Qc_of_Z (Z.of_nat target_level))));;
  modify_output (df_drop id_col_name).

Definition format_output_step (s : DQ) (d : string * string) : DQ :=
  let '(dimension_name, hierarchy_table_name) := d in
  if bool_decide (dimension_name +:+ "_ID" ∉ columns (data_quality_output s))
  then s
  else try_except (format_output_body dimension_name hierarchy_table_name) s.

Definition format_output (lvl_data : list (string * string)) (self : DQ)
    : unit * DQ :=
  if df_empty (data_quality_output self) then (tt, self)
  else (tt, foldl format_output_step self lvl_data).

End Checks2.

(** ** [get_summary] and [check] *)

(** the values a summary dict holds *)
Inductive sval : Type :=
| SInt (n : nat)
| SStr (s : string)
| SDict (d : gmap value nat).

#[global] Instance sval_eq_dec : EqDecision sval.
Proof. solve_decision. Defined.

Definition severity_of (total : nat) : string :=
  if 1000 <? total then "CRITICAL"
  else if 100 <? total then "HIGH"
  else if 10 <? total then "MEDIUM"
  else "LOW".

Definition get_summary (self : DQ) : gmap string sval * DQ :=
  let out := data_quality_output self in
  if df_empty out then
    (<["total_issues" := SInt 0]>
       (<["by_type" := SDict ∅]>
          (<["by_table" := SDict ∅]>
             (<["message" := SStr "No data quality issues found – pobeda!"]> ∅))),
     self)
  else
    let summary : gmap string sval :=
      <["total_issues" := SInt (df_len out)]>
        (<["by_type" := SDict ∅]>
           (<["by_table" := SDict ∅]>
              (<["severity" := SStr "LOW"]> ∅))) in
    let summary :=
      if bool_decide ("WARNING_TYPE" ∈ columns out)
      then <["by_type" := SDict (value_counts (series out "WARNING_TYPE"))]> summary
      else summary in
    let summary :=
      if bool_decide ("INPUT_TABLE" ∈ columns out)
      then <["by_table" := SDict (value_counts (series out "INPUT_TABLE"))]> summary
      else summary in
    let total := df_len out in
    (<["severity" := SStr (severity_of total)]> summary, self).

Section Check.
Context `{Platform}.

(** [check]: reset the accumulator, run the configured checkers in their
    fixed order, then format. *)
Definition check (self : DQ) : unit * DQ :=
  let self := set_output self empty_frame in
  let self :=
    match it_val_range (input_tables self), th_val_range (th_values self) with
    | Some tables, Some th => (check_val_range tables th self).2
    | _, _ => self
    end in
  let self :=
    match it_cross_consistency (input_tables self) with
    | Some tables => (check_cross_consistency tables self).2
    | None => self
    end in
  let self :=
    match it_time_cross_consistency (input_tables self),
          th_time_cross_consistency (th_values self) with
    | Some tables, Some th => (check_time_cross_consistency tables th self).2
    | _, _ => self
    end in
  format_output (lvl_data self) self.

End Check.

(** ** A reference platform and the scenarios of the design document *)

Module Reference.

(** labels of [a] that are in [b], once each, in the order of [a]: one of
    the orders in which a [set] may iterate *)
Definition inter (a b : list string) : list string :=
  remove_dups (list_intersection a b).

(** whole numbers of the int64 range and missing cells convert, anything
    else raises *)
Definition to_Int64 (v : value) : option value :=
  match v with
  | VNull => Some VNull
  | VNum q =>
      if decide (Qden (this q) = 1%positive
                 ∧ (- 2 ^ 63 ≤ Qnum (this q) < 2 ^ 63)%Z)
      then Some (VNum q) else None
  | VStr _ => None
  end.

(** a small directory of tables *)
Definition num (z : Z) : value := VNum (Qc_of_Z z).

Definition PRICES : DataFrame :=
  mkFrame ["PRODUCT_ID"; "PRICE"]
    [ {[ "PRODUCT_ID" := num 1; "PRICE" := num (-5) ]};
      {[ "PRODUCT_ID" := num 2; "PRICE" := num 10 ]};
      {[ "PRODUCT_ID" := num 3; "PRICE" := num 0 ]} ].

Definition SALES : DataFrame :=
  mkFrame ["PRODUCT_ID"]
    [ {[ "PRODUCT_ID" := num 1 ]}; {[ "PRODUCT_ID" := num 2 ]} ].

Definition PRODUCTS : DataFrame :=
  mkFrame ["PRODUCT_ID"] [ {[ "PRODUCT_ID" := num 1 ]} ].

Definition ORDERS : DataFrame :=
  mkFrame ["PRODUCT_ID"; "LOCATION_ID"; "QTY"]
    [ {[ "PRODUCT_ID" := num 1; "LOCATION_ID" := VStr "x"; "QTY" := num 3 ]} ].

Definition STOCK : DataFrame :=
  mkFrame ["PRODUCT_ID"; "LOCATION_ID"]
    [ {[ "PRODUCT_ID" := num 1; "LOCATION_ID" := VStr "y" ]};
      {[ "PRODUCT_ID" := num 2; "LOCATION_ID" := VStr "x" ]} ].

Definition VISITS : DataFrame :=
  mkFrame ["PRODUCT_ID"; "WEEK_DT"; "QTY"]
    [ {[ "PRODUCT_ID" := num 1; "WEEK_DT" := VStr "2025-01-06"; "QTY" := num 5 ]};
      {[ "PRODUCT_ID" := num 1; "WEEK_DT" := VStr "2025-01-13"; "QTY" := num 6 ]} ].

Definition PLAN : DataFrame :=
  mkFrame ["PRODUCT_ID"; "WEEK_DT"]
    [ {[ "PRODUCT_ID" := num 1; "WEEK_DT" := VStr "2025-01-06" ]} ].

Definition PRODUCT_HIER : DataFrame :=
  mkFrame ["PRODUCT_LVL_ID1"; "PRODUCT_LVL_ID2"; "NAME"]
    [ {[ "PRODUCT_LVL_ID1" := num 10; "PRODUCT_LVL_ID2" := num 100;
         "NAME" := VStr "dairy" ]} ].

(** a table whose numeric column bears the name of a label *)
Definition LABELS : DataFrame :=
  mkFrame ["INPUT_TABLE"] [ {[ "INPUT_TABLE" := num (-5) ]} ].

(** products under a text code *)
Definition CODES : DataFrame :=
  mkFrame ["PRODUCT_ID"] [ {[ "PRODUCT_ID" := VStr "p1" ]} ].

(** locations under a number *)
Definition DEPOTS : DataFrame :=
  mkFrame ["PRODUCT_ID"; "LOCATION_ID"]
    [ {[ "PRODUCT_ID" := num 1; "LOCATION_ID" := num 7 ]} ].

(** product 1 in the weeks 1 to [n] *)
Definition weeks (n : nat) : DataFrame :=
  mkFrame ["PRODUCT_ID"; "WEEK_DT"]
    ((λ i : nat, ({[ "PRODUCT_ID" := num 1;
                     "WEEK_DT" := num (Z.of_nat i) ]} : row))
       <$> seq 1 n).

Definition WEEKS20 : DataFrame := weeks 20.
Definition WEEKS9 : DataFrame := weeks 9.

(** one column that names a product, holds "ID" and ends in [_DT] *)
Definition OFFERS : DataFrame :=
  mkFrame ["PRODUCT_VALID_DT"]
    [ {[ "PRODUCT_VALID_DT" := VStr "2025-01-06" ]} ].

Definition DEALS : DataFrame :=
  mkFrame ["PRODUCT_VALID_DT"]
    [ {[ "PRODUCT_VALID_DT" := VStr "2025-01-13" ]} ].

Definition files (path : string) : option DataFrame :=
  if decide (path = "data/PRICES.csv") then Some PRICES
  else if decide (path = "data/SALES.csv") then Some SALES
  else if decide (path = "data/PRODUCTS.csv") then Some PRODUCTS
  else if decide (path = "data/ORDERS.csv") then Some ORDERS
  else if decide (path = "data/STOCK.csv") then Some STOCK
  else if decide (path = "data/VISITS.csv") then Some VISITS
  else if decide (path = "data/PLAN.csv") then Some PLAN
  else if decide (path = "data/PRODUCT_HIER.csv") then Some PRODUCT_HIER
  else if decide (path = "data/LABELS.csv") then Some LABELS
  else if decide (path = "data/CODES.csv") then Some CODES
  else if decide (path = "data/DEPOTS.csv") then Some DEPOTS
  else if decide (path = "data/WEEKS20.csv") then Some WEEKS20
  else if decide (path = "data/WEEKS9.csv") then Some WEEKS9
  else if decide (path = "data/OFFERS.csv") then Some OFFERS
  else if decide (path = "data/DEALS.csv") then Some DEALS
  else None.

(** the quotient [n / d] of naturals rounded to the nearest whole number,
    a tie to the even one *)
Definition round_half_even (n : Z) (d : positive) : Z :=
  let fl := (n / Z.pos d)%Z in
  match (2 * (n mod Z.pos d) ?= Z.pos d)%Z with
  | Lt => fl
  | Gt => (fl + 1)%Z
  | Eq => if Z.odd fl then (fl + 1)%Z else fl
  end.

(** [k] decimal digits of [a], with leading zeros *)
Definition digits (k : nat) (a : Z) : string :=
  let s := pretty a in
  String.concat "" (replicate (k - String.length s) "0") +:+ s.

(** [format(x, '.kf')] of a finite float: its exact value rounded to [k]
    decimals, a tie to even, with the sign of [x] *)
Definition format_fixed (k : nat) (q : Qc) : string :=
  let a := round_half_even (Z.abs (Qnum (this q)) * 10 ^ Z.of_nat k)
                           (Qden (this q)) in
  (if decide (Qnum (this q) < 0)%Z then "-" else "")
  +:+ pretty (a / 10 ^ Z.of_nat k)%Z +:+ "."
  +:+ digits k (a mod 10 ^ Z.of_nat k)%Z.

(** [str(th)].  A threshold without a fractional part is read as a Python
    int; another one is a float and prints its decimal expansion, which is
    what Python prints for an expansion of at most 15 digits. *)
Definition show (q : Qc) : string :=
  if decide (Qden (this q) = 1%positive) then pretty (Qnum (this q))
  else
    let k := Z.to_nat (Z.log2 (Z.pos (Qden (this q)))) in
    let a := (Z.abs (Qnum (this q)) * 5 ^ Z.of_nat k)%Z in
    (if decide (Qnum (this q) < 0)%Z then "-" else "")
    +:+ pretty (a / 10 ^ Z.of_nat k)%Z +:+ "."
    +:+ digits k (a mod 10 ^ Z.of_nat k)%Z.

(** [format(f, '.1f')] of a float *)
Definition show_1f (f : float) : string :=
  match Prim2SF f with
  | SpecFloat.S754_nan => "nan"
  | SpecFloat.S754_infinity s => if s then "-inf" else "inf"
  | _ => from_option (format_fixed 1) "nan" (float_val f)
  end.

(** whether a series holds text, numbers *)
Definition has_text (s : list value) : bool :=
  existsb (λ v, match v with VStr _ => true | _ => false end) s.

Definition has_num (s : list value) : bool :=
  existsb (λ v, match v with VNum _ => true | _ => false end) s.

(** [merge] refuses a key column that is numeric in one frame and text in
    the other *)
Definition keys_ok (on : list string) (left right : DataFrame) : bool :=
  forallb (λ c,
      let l := series left c in
      let r := series right c in
      negb ((has_text l && negb (has_text r) && has_num r)
            || (has_text r && negb (has_text l) && has_num l)))
    on.

(** Python and pandas over a directory [fs] of tables whose labels are
    ASCII text, where [str.upper] is [Str.upper]. *)
Definition platform (fs : string → option DataFrame) : Platform.
Proof.
  refine {|
    read_csv := fs;
    set_and := inter;
    str_upper := Str.upper;
    str_num := show;
    format_2f v := match v with
                   | VNull => Some "nan"
                   | VNum q => Some (format_fixed 2 q)
                   | VStr _ => None
                   end;
    format_1f := show_1f;
    merge_keys_ok := keys_ok;
    astype_Int64 := mapM to_Int64
  |}.
  - intros a b c. unfold inter.
    by rewrite elem_of_remove_dups, list_elem_of_intersection.
  - intros a b. apply NoDup_remove_dups.
  - done.
  - intros s s' Hs. symmetry. by eapply length_mapM.
Defined.

Definition self0 : DQ :=
  init "1" "retail" "client" (mkInputTables None None None)
       (mkThValues None None) [("PRODUCT", "PRODUCT_HIER")] "data/".

#[export] Instance reference : Platform := platform files.

(** the object after the value-range unit on PRICES *)
Definition after_val_range : DQ :=
  (check_val_range_body 0%Qc ("PRICES", "PRICE") self0).2.


(** the object after the cross-consistency unit on (ORDERS, STOCK) *)
Definition after_orders : DQ :=
  (check_cross_consistency_body ("ORDERS", "STOCK") self0).2.

(** the only row of ORDERS *)
Definition order_row : row :=
  {[ "PRODUCT_ID" := num 1; "LOCATION_ID" := VStr "x"; "QTY" := num 3 ]}.

(** a threshold of fifty *)
Definition th50 : Qc := Qc_of_Z 50.


(** the labels VISITS and PLAN share *)
Definition visits_common : list string :=
  set_and (columns VISITS) (columns PLAN).

(** the hierarchy configuration of the scenarios *)
Definition lvl0 : list (string * string) := [("PRODUCT", "PRODUCT_HIER")].



(** a threshold of twenty *)
Definition th20 : Qc := Qc_of_Z 20.

(** the object after the value-range unit on PRICES with threshold twenty *)
Definition after_val_range_20 : DQ :=
  (check_val_range_body th20 ("PRICES", "PRICE") self0).2.

(** the key columns of the temporal unit on (VISITS, PLAN) *)
Definition visits_keys : list string :=
  time_id_columns visits_common ++ time_date_columns visits_common.


(** the first row of PRICES and the two after it *)
Definition price_row1 : row := {[ "PRODUCT_ID" := num 1; "PRICE" := num (-5) ]}.
Definition price_rows23 : list row :=
  [ {[ "PRODUCT_ID" := num 2; "PRICE" := num 10 ]};
    {[ "PRODUCT_ID" := num 3; "PRICE" := num 0 ]} ].

(** a configuration with a dimension that does not convert before PRODUCT *)
Definition lvl_location : list (string * string) :=
  [("LOCATION", "PRODUCT_HIER"); ("PRODUCT", "PRODUCT_HIER")].

End Reference.

(** * Vocabulary of the statements *)

(** The row of the findings table made from an offending row by
    [check_val_range]. *)
Definition val_range_row (table_name target_col : string) (th : Qc)
    (warning : string) (r : row) : row :=
  <["WARNING" := VStr warning]>
    (<["WARNING_TYPE" := VStr "val_range"]>
      (<["INPUT_VALUE" := VNum th]>
        (<["INPUT_TABLE" := VStr table_name]>
          (<["INPUT_COLUMN" := VStr target_col]> r)))).

(** The cell of a row is a number strictly below the threshold. *)
Definition below (th : Qc) (c : string) (r : row) : bool :=
  match cell r c with
  | VNum q => bool_decide (q < th)%Qc
  | _ => false
  end.

(** The key tuples of a table over a list of labels. *)
Definition keys (cols : list string) (df : DataFrame) : list (list value) :=
  key_of cols <$> rows df.

(** The rows of the deduplicated reduction of [t1] to [cols] whose key
    tuple is the key tuple of no row of [t2]. *)
Definition anti_join (cols : list string) (t1 t2 : DataFrame) : list row :=
  List.filter (λ r, negb (bool_decide (key_of cols r ∈ keys cols t2)))
              (dedup_from [] (row_project cols <$> rows t1)).

(** [s'] is [s] after one [pd.concat] of a frame with at least one row. *)
Definition appended (s s' : DQ) : Prop :=
  ∃ df, rows df ≠ [] ∧
        s' = set_output s (pd_concat (data_quality_output s) df).

(** The accumulator only grew: the earlier rows are a prefix of the later
    ones, and if no row was added nothing changed at all. *)
Definition grows (s s' : DQ) : Prop :=
  ∃ added,
    rows (data_quality_output s') = rows (data_quality_output s) ++ added
    ∧ (added = [] → s' = s).

(** The row of the findings table made from an orphaned key row. *)
Definition cross_row (table1_name table2_name : string) (r : row) : row :=
  <["WARNING" :=
      VStr ("IDs from " +:+ table1_name +:+ " not found in " +:+ table2_name)]>
    (<["WARNING_TYPE" := VStr "cross_consistency"]>
      (<["INPUT_TABLE" := VStr (table1_name +:+ " && " +:+ table2_name)]> r)).

(** The finding made from a missing (entity, period) combination. *)
Definition time_missing_row `{Platform} (table1_name table2_name : string)
    (th : Qc) (missing_count : nat) (pct : float) (r : row) : row :=
  <["WARNING" :=
      VStr (pretty missing_count +:+ " records (" +:+ format_1f pct +:+
            "%) from " +:+ table1_name +:+ " missing in " +:+ table2_name)]>
    (<["WARNING_TYPE" := VStr "time_cross_consistency"]>
      (<["INPUT_VALUE" := VNum th]>
        (<["INPUT_TABLE" := VStr (table1_name +:+ " && " +:+ table2_name)]> r))).

(** The finding made from an entity seen in too few periods. *)
Definition time_infrequent_row `{Platform} (table1_name : string) (th : Qc)
    (r : row) : row :=
  <["WARNING" :=
      VStr ("ID appears in " +:+ str_num th +:+
            " or fewer time periods in " +:+ table1_name)]>
    (<["WARNING_TYPE" := VStr "time_cross_consistency"]>
      (<["INPUT_VALUE" := VNum th]>
        (<["INPUT_TABLE" := VStr table1_name]> r))).

(** The row carrying a group key under the grouping labels. *)
Definition entity_row (ids : list string) (k : list value) : row :=
  list_to_map (zip ids k).

(** The distinct periods in which the entity of key [k] is recorded. *)
Definition period_values (ids : list string) (date : string) (df : DataFrame)
    (k : list value) : list value :=
  dedup_from []
    (List.filter (λ v, negb (bool_decide (v = VNull)))
       (series (df_filter (λ r, bool_decide (key_of ids r = k)) df) date)).

(** The entities recorded in at most [th] periods. *)
Definition infrequent_entities (ids : list string) (date : string) (th : Qc)
    (df : DataFrame) : list (list value) :=
  List.filter
    (λ k, bool_decide
            (Qc_of_Z (Z.of_nat (period_count_of ids date df k)) ≤ th)%Qc)
    (group_keys ids df).

(** The findings table after one dimension was converted. *)
Definition formatted (d : string) (level : nat) (casted : list value)
    (out : DataFrame) : DataFrame :=
  df_drop (d +:+ "_ID")
    (df_assign (d +:+ "_LVL") (VNum (Qc_of_Z (Z.of_nat level)))
      (df_assign_series (d +:+ "_LVL_ID" +:+ pretty level) casted out)).

(** The rank of a severity label. *)
Definition severity_rank (sev : string) : nat :=
  if decide (sev = "CRITICAL") then 3
  else if decide (sev = "HIGH") then 2
  else if decide (sev = "MEDIUM") then 1
  else 0.

(** ** Numbers binary64 holds exactly *)

(** The finite binary64 numbers: [m * 2^e] with [|m| < 2^53] and
    [-1074 <= e <= 971].  For such a number the int64 cell and the float64
    cell pandas may convert it to are the same number, and so are the
    number and the operand [<] compares. *)
Definition binary64 (q : Qc) : Prop :=
  ∃ m e : Z,
    (Z.abs m < 2 ^ 53)%Z ∧ (-1074 ≤ e ≤ 971)%Z ∧
    (q * Qc_of_Z (2 ^ Z.max 0 (- e)) = Qc_of_Z (m * 2 ^ Z.max 0 e))%Qc.

Definition binary64_value (v : value) : Prop :=
  match v with VNum q => binary64 q | _ => True end.

(** A frame all of whose numbers binary64 holds exactly. *)
Definition binary64_frame (df : DataFrame) : Prop :=
  ∀ r c, r ∈ rows df → binary64_value (cell r c).

(** The tables read under the names [names] hold such numbers only. *)
Definition binary64_files `{Platform} (path : string) (names : list string)
  : Prop :=
  ∀ n t, n ∈ names → read_csv (path +:+ n +:+ ".csv") = Some t →
         binary64_frame t.

(** A cell that is no number, or a whole number below [2^53] in size. *)
Definition whole (v : value) : bool :=
  match v with
  | VNum q => bool_decide (Qden (this q) = 1%positive
                           ∧ (Z.abs (Qnum (this q)) < 2 ^ 53)%Z)
  | _ => true
  end.

Definition whole_frame (df : DataFrame) : bool :=
  forallb (λ r : row, forallb (λ kv, whole kv.2) (map_to_list r)) (rows df).

(** What a caller of a checker gets back: the table the object holds after
    the call.  It has no fewer rows than the table held before; every
    earlier row is still at its place, with each of its cells that is
    text, missing or a number binary64 represents; and when the call added
    no row, the table and the object are the ones before the call. *)
Definition returns_accumulator (self : DQ) (res : DataFrame * DQ) : Prop :=
  let old := data_quality_output self in
  res.1 = data_quality_output res.2
  ∧ df_len old ≤ df_len res.1
  ∧ (∀ i r, rows old !! i = Some r →
            ∃ r', rows res.1 !! i = Some r'
                  ∧ ∀ c, binary64_value (cell r c) → cell r' c = cell r c)
  ∧ (df_len res.1 = df_len old → res.1 = old ∧ res.2 = self).

Section Vocabulary.
Context `{Platform}.

(** The number of hierarchy columns naming a level of the dimension. *)
Definition num_levels_of (d : string) (hierarchy_table : DataFrame) : nat :=
  length (List.filter (λ col, Str.contains (d +:+ "_LVL_ID") col)
                      (columns hierarchy_table)).

(** A dimension the formatter leaves alone: its ID column is absent, or
    converting it raises. *)
Definition settled (d : string * string) (s : DQ) : Prop :=
  d.1 +:+ "_ID" ∉ columns (data_quality_output s)
  ∨ read_csv (data_path s +:+ d.2 +:+ ".csv") = None
  ∨ astype_Int64 (series (data_quality_output s) (d.1 +:+ "_ID")) = None.

End Vocabulary.

(** ** What a whole call appends *)

(** The findings of the pair [p] in [check_cross_consistency]: when both
    tables load, share an ID column and [merge] accepts their key columns,
    the key rows of the first table absent from the second; nothing
    otherwise. *)
Definition cross_findings `{Platform} (path : string) (p : string * string)
  : list row :=
  match read_csv (path +:+ p.1 +:+ ".csv"),
        read_csv (path +:+ p.2 +:+ ".csv") with
  | Some tA, Some tB =>
      let cols := common_id_cols tA tB in
      if bool_decide (cols ≠ [])
         && merge_keys_ok cols (drop_duplicates (df_select cols tA))
                               (drop_duplicates (df_select cols tB))
      then cross_row p.1 p.2 <$> anti_join cols tA tB
      else []
  | _, _ => []
  end.

(** The three tags a finding can carry. *)
Definition warning_types : list value :=
  [VStr "val_range"; VStr "cross_consistency"; VStr "time_cross_consistency"].

(** A frame of findings: every row carries one of the tags [tags] and names
    its table, and the frame has both labels. *)
Definition tagged_frame (tags : list value) (df : DataFrame) : Prop :=
  (∀ r, r ∈ rows df →
        cell r "WARNING_TYPE" ∈ tags
        ∧ ∃ t, cell r "INPUT_TABLE" = VStr t)
  ∧ "WARNING_TYPE" ∈ columns df
  ∧ "INPUT_TABLE" ∈ columns df.

(** A findings table all of whose rows are findings; its two labels are
    present as soon as it has a row. *)
Definition well_tagged (df : DataFrame) : Prop :=
  (∀ r, r ∈ rows df →
        cell r "WARNING_TYPE" ∈ warning_types
        ∧ ∃ t, cell r "INPUT_TABLE" = VStr t)
  ∧ (rows df ≠ [] →
     "WARNING_TYPE" ∈ columns df ∧ "INPUT_TABLE" ∈ columns df).

(** [s'] is [s] after one [pd.concat] of a non-empty frame of findings
    tagged in [tags]. *)
Definition appended_findings (tags : list value) (s s' : DQ) : Prop :=
  ∃ df, tagged_frame tags df ∧ rows df ≠ [] ∧
        s' = set_output s (pd_concat (data_quality_output s) df).

(** [s'] is [s] after some appends of findings tagged in [tags]. *)
Inductive accumulated (tags : list value) : DQ → DQ → Prop :=
| accumulated_refl s : accumulated tags s s
| accumulated_step s1 s2 s3 :
    accumulated tags s1 s2 → appended_findings tags s2 s3 →
    accumulated tags s1 s3.

(** The tags of the three checkers. *)
Definition val_range_tags : list value := [VStr "val_range"].
Definition cross_tags : list value := [VStr "cross_consistency"].
Definition time_tags : list value := [VStr "time_cross_consistency"].

(** The number of cells of a series equal to [v]. *)
Definition occurrences (v : value) (s : list value) : nat :=
  length (List.filter (λ x, bool_decide (x = v)) s).

(** A label that is none of the three names [format_output] works on for
    the dimension [d]. *)
Definition untouched_by (d c : string) : Prop :=
  c ≠ d +:+ "_ID" ∧ c ≠ d +:+ "_LVL" ∧ ∀ n : nat, c ≠ d +:+ "_LVL_ID" +:+ pretty n.

(** * Properties *)

(** ** Lists *)

Section ListFacts.
Context {A : Type}.

Lemma elem_of_bfilter (f : A → bool) (l : list A) (x : A) :
  x ∈ List.filter f l ↔ x ∈ l ∧ f x = true.
Proof. rewrite !list_elem_of_In. apply filter_In. Qed.

Lemma bfilter_nil_iff (f : A → bool) (l : list A) :
  List.filter f l = [] ↔ ∀ x, x ∈ l → f x = false.
Proof.
  induction l as [|a l IH]; simpl.
  - split; [intros _ x Hx; by apply elem_of_nil in Hx | done].
  - destruct (f a) eqn:Hfa.
    + split; [done|]. intros Hall.
      specialize (Hall a (list_elem_of_here _ _)). congruence.
    + rewrite IH. split.
      * intros Hall x [->|Hx]%elem_of_cons; auto.
      * intros Hall x Hx. apply Hall. by right.
Qed.

Context `{EqDecision A}.

Lemma elem_of_dedup_from (seen l : list A) (x : A) :
  x ∈ dedup_from seen l ↔ x ∈ l ∧ x ∉ seen.
Proof.
  revert seen. induction l as [|a l IH]; intros seen; simpl.
  - split; [by intros ?%elem_of_nil | by intros [?%elem_of_nil _]].
  - destruct (decide (a ∈ seen)) as [Hin|Hnin].
    + rewrite IH, elem_of_cons. split; [tauto|].
      intros [[->|?] ?]; tauto.
    + rewrite !elem_of_cons, IH, elem_of_cons.
      destruct (decide (x = a)) as [->|Hne]; [tauto|]. tauto.
Qed.

Lemma NoDup_dedup_from (seen l : list A) : NoDup (dedup_from seen l).
Proof.
  revert seen. induction l as [|a l IH]; intros seen; simpl.
  - constructor.
  - destruct (decide (a ∈ seen)); [apply IH|].
    constructor; [|apply IH].
    rewrite elem_of_dedup_from, elem_of_cons. tauto.
Qed.

Lemma elem_of_dedup (l : list A) (x : A) : x ∈ dedup_from [] l ↔ x ∈ l.
Proof.
  rewrite elem_of_dedup_from. split; [tauto|].
  intros ?; split; [done|]. apply not_elem_of_nil.
Qed.

Lemma dedup_from_nil_iff (l : list A) : dedup_from [] l = [] ↔ l = [].
Proof.
  split; [|by intros ->].
  destruct l as [|a l]; [done|]. simpl.
  destruct (decide (a ∈ [])) as [Hin|_]; [by apply elem_of_nil in Hin|done].
Qed.

End ListFacts.

(** Selecting with an elementwise comparison keeps exactly the rows on
    which the comparison answers True. *)
Lemma mask_filter {A B} (f : B → option bool) (g : A → B) (l : list A)
    (m : list bool) :
  mapM f (g <$> l) = Some m →
  (List.filter snd (zip l m)).*1
  = List.filter (λ x, bool_decide (f (g x) = Some true)) l.
Proof.
  revert m. induction l as [|a l IH]; intros m Hm.
  - by destruct m.
  - cbn in Hm. destruct (f (g a)) as [b|] eqn:Hfa; cbn in Hm; [|discriminate].
    destruct (mapM f (g <$> l)) as [k|] eqn:Hk; cbn in Hm; [|discriminate].
    injection Hm as <-. specialize (IH k eq_refl). cbn. rewrite Hfa.
    destruct b; cbn; rewrite IH; done.
Qed.

(** ** Cells and tagged rows *)

Lemma cell_insert (r : row) (c c' : string) (v : value) :
  cell (<[c := v]> r) c' = if decide (c = c') then v else cell r c'.
Proof. unfold cell. rewrite lookup_insert. by case_decide. Qed.

Lemma cell_insert_eq (r : row) (c : string) (v : value) :
  cell (<[c := v]> r) c = v.
Proof. rewrite cell_insert. by case_decide. Qed.

Lemma cell_insert_ne (r : row) (c c' : string) (v : value) :
  c ≠ c' → cell (<[c := v]> r) c' = cell r c'.
Proof. intros. rewrite cell_insert. by case_decide. Qed.

Lemma cell_delete_ne (r : row) (c c' : string) :
  c ≠ c' → cell (delete c r) c' = cell r c'.
Proof. intros. unfold cell. by rewrite lookup_delete_ne. Qed.

Lemma rows_df_assign (c : string) (v : value) (df : DataFrame) :
  rows (df_assign c v df) = (λ r, <[c := v]> r) <$> rows df.
Proof. done. Qed.

Lemma rows_val_range_tag table_name target_col th warning df :
  rows (val_range_tag table_name target_col th warning df)
  = val_range_row table_name target_col th warning <$> rows df.
Proof.
  unfold val_range_tag, val_range_row. rewrite !rows_df_assign.
  rewrite <- !list_fmap_compose. done.
Qed.

Lemma below_lt_scalar th c r :
  bool_decide (lt_scalar th (cell r c) = Some true) = below th c r.
Proof.
  unfold below, lt_scalar.
  destruct (cell r c) as [|q|s]; simpl; repeat case_bool_decide; congruence.
Qed.

Lemma df_where_rows cmp c df df' :
  df_where cmp c df = Some df' →
  columns df' = columns df ∧
  rows df' = List.filter (λ r, bool_decide (cmp (cell r c) = Some true)) (rows df).
Proof.
  unfold df_where, series. intros Hw.
  destruct (mapM cmp _) as [mask|] eqn:Hmask; simpl in Hw; [|discriminate].
  injection Hw as <-. split; [done|]. simpl.
  by apply (mask_filter cmp (λ r, cell r c)).
Qed.

Ltac unfold_M :=
  unfold try_except, load in *;
  unfold bind, lift, get_self, ret, put_output, modify_output in *.


(** ** Key tuples and the anti-join *)

Lemma row_project_cons c cols r :
  row_project (c :: cols) r = <[c := cell r c]> (row_project cols r).
Proof. done. Qed.

Lemma row_project_lookup_None cols r c :
  c ∉ cols → row_project cols r !! c = None.
Proof.
  intros Hc. unfold row_project. apply not_elem_of_list_to_map_1.
  rewrite <- list_fmap_compose. simpl. by rewrite list_fmap_id.
Qed.

Lemma cell_row_project cols r c :
  c ∈ cols → cell (row_project cols r) c = cell r c.
Proof.
  induction cols as [|c' cols IH]; [by intros ?%elem_of_nil|].
  intros Hc. rewrite row_project_cons, cell_insert.
  case_decide as Hcc; [by subst|].
  apply elem_of_cons in Hc as [->|Hc]; [done|]. by apply IH.
Qed.

Lemma key_of_row_project cols r :
  key_of cols (row_project cols r) = key_of cols r.
Proof.
  unfold key_of. apply list_fmap_ext. intros i c Hc.
  apply cell_row_project. by eapply list_elem_of_lookup_2.
Qed.

Lemma row_project_key_inj cols r1 r2 :
  key_of cols r1 = key_of cols r2 → row_project cols r1 = row_project cols r2.
Proof.
  induction cols as [|c cols IH]; [done|].
  unfold key_of. simpl. intros Hk. injection Hk as Hc Hk.
  rewrite !row_project_cons, Hc. f_equal. by apply IH.
Qed.

Lemma keys_select_dedup cols df k :
  k ∈ keys cols (drop_duplicates (df_select cols df)) ↔ k ∈ keys cols df.
Proof.
  unfold keys, drop_duplicates, df_select. simpl.
  rewrite !list_elem_of_fmap. split.
  - intros (r & -> & Hr). rewrite elem_of_dedup in Hr.
    apply list_elem_of_fmap in Hr as (r0 & -> & Hr0).
    exists r0. by rewrite key_of_row_project.
  - intros (r0 & -> & Hr0). exists (row_project cols r0).
    rewrite key_of_row_project. split; [done|].
    rewrite elem_of_dedup. apply list_elem_of_fmap. by exists r0.
Qed.

Lemma elem_of_anti_join cols t1 t2 r :
  r ∈ anti_join cols t1 t2 ↔
  (∃ r0, r0 ∈ rows t1 ∧ r = row_project cols r0) ∧ key_of cols r ∉ keys cols t2.
Proof.
  unfold anti_join. rewrite elem_of_bfilter, elem_of_dedup, list_elem_of_fmap.
  rewrite negb_true_iff, bool_decide_eq_false. split.
  - intros [(r0 & -> & Hr0) Hn]. split; [by exists r0|done].
  - intros [(r0 & Hr0 & ->) Hn]. split; [by exists r0|done].
Qed.

Lemma NoDup_anti_join cols t1 t2 : NoDup (anti_join cols t1 t2).
Proof.
  unfold anti_join. apply NoDup_ListNoDup, List.NoDup_filter, NoDup_ListNoDup.
  apply NoDup_dedup_from.
Qed.

Lemma keys_anti_join cols t1 t2 k :
  k ∈ key_of cols <$> anti_join cols t1 t2 ↔
  k ∈ keys cols t1 ∧ k ∉ keys cols t2.
Proof.
  rewrite list_elem_of_fmap. unfold keys at 1. rewrite list_elem_of_fmap.
  split.
  - intros (r & -> & [(r0 & Hr0 & ->) Hn]%elem_of_anti_join).
    rewrite key_of_row_project in *. split; [by exists r0|done].
  - intros [(r0 & -> & Hr0) Hn]. exists (row_project cols r0).
    rewrite key_of_row_project. split; [done|].
    apply elem_of_anti_join. rewrite key_of_row_project. split; [by exists r0|done].
Qed.

Lemma NoDup_keys_anti_join cols t1 t2 :
  NoDup (key_of cols <$> anti_join cols t1 t2).
Proof.
  apply NoDup_fmap_2_strong; [|apply NoDup_anti_join].
  intros r1 r2 [(a & _ & ->) _]%elem_of_anti_join
               [(b & _ & ->) _]%elem_of_anti_join Hk.
  rewrite !key_of_row_project in Hk. by apply row_project_key_inj.
Qed.

Section Merge.
Context `{Platform}.

Lemma merge_NoDup on left right merged :
  merge_left_indicator on left right = Some merged → NoDup on.
Proof. unfold merge_left_indicator. by case_decide. Qed.

(** The rows [merge] marks [left_only], the indicator dropped again, are
    the rows of the left frame without a partner in the right frame. *)
Lemma merge_left_only_rows on left right merged :
  merge_left_indicator on left right = Some merged →
  (∀ r, r ∈ rows left → r !! "_merge" = None) →
  rows (df_drop "_merge" (left_only merged))
  = List.filter (λ r, negb (bool_decide (key_of on r ∈ keys on right)))
                (rows left).
Proof.
  unfold merge_left_indicator. case_decide; [|done].
  destruct (merge_keys_ok on left right); [|done].
  intros [= <-]. unfold df_drop, left_only, df_filter. cbn [rows].
  generalize (rows left). intros l Hl.
  induction l as [|r l IH]; [done|].
  cbn [mbind list_bind]. rewrite List.filter_app, fmap_app.
  rewrite IH by (intros r' Hr'; apply Hl; by right). clear IH.
  cbn [List.filter].
  destruct (List.filter _ (rows right)) as [|m ms] eqn:Hm.
  - assert (key_of on r ∉ keys on right) as Hn.
    { unfold keys. intros (r' & Hk & Hr')%list_elem_of_fmap.
      eapply bfilter_nil_iff in Hm; [|exact Hr'].
      by rewrite bool_decide_eq_true_2 in Hm. }
    rewrite (bool_decide_eq_false_2 _ Hn). cbn [negb List.filter].
    rewrite cell_insert_eq, bool_decide_eq_true_2 by done.
    cbn [fmap list_fmap app].
    rewrite delete_insert_eq, delete_id by (apply Hl; by left). done.
  - assert (key_of on r ∈ keys on right) as Hin.
    { assert (m ∈ List.filter
        (λ r', bool_decide (key_of on r' = key_of on r)) (rows right))
        as [Hmr Hk%bool_decide_eq_true]%elem_of_bfilter
        by (rewrite Hm; by left).
      unfold keys. apply list_elem_of_fmap. by exists m. }
    rewrite (bool_decide_eq_true_2 _ Hin). cbn [negb].
    rewrite (proj2 (bfilter_nil_iff _ (_ :: _))); [done|].
    intros x Hx. apply bool_decide_eq_false_2.
    assert (x = <["_merge" := VStr "both"]> r) as ->.
    { apply elem_of_cons in Hx as [->|Hx]; [done|].
      by apply list_elem_of_fmap in Hx as (? & -> & _). }
    by rewrite cell_insert_eq.
Qed.

Lemma merge_anti_join cols t1 t2 merged :
  "_merge" ∉ cols →
  merge_left_indicator cols (drop_duplicates (df_select cols t1))
    (drop_duplicates (df_select cols t2)) = Some merged →
  rows (df_drop "_merge" (left_only merged)) = anti_join cols t1 t2
  ∧ df_len (left_only merged) = length (anti_join cols t1 t2).
Proof.
  intros Hcols Hm. 
  assert (rows (df_drop "_merge" (left_only merged)) = anti_join cols t1 t2)
    as Hrows.
  { erewrite merge_left_only_rows; [|exact Hm|].
    - unfold anti_join. cbn [drop_duplicates df_select rows].
      apply filter_ext_in. intros r _. f_equal.
      apply bool_decide_ext, keys_select_dedup.
    - cbn [drop_duplicates df_select rows].
      intros r Hr. rewrite elem_of_dedup in Hr.
      apply list_elem_of_fmap in Hr as (r0 & -> & _).
      by apply row_project_lookup_None. }
  split; [done|].
  rewrite <- Hrows. unfold df_len, df_drop. cbn [rows].
  by rewrite length_fmap.
Qed.

End Merge.

(** ** How a unit of work changes the accumulator *)

Lemma grows_refl s : grows s s.
Proof. exists []. by rewrite app_nil_r. Qed.

Lemma grows_trans s1 s2 s3 : grows s1 s2 → grows s2 s3 → grows s1 s3.
Proof.
  intros (a1 & Hr1 & Hs1) (a2 & Hr2 & Hs2). exists (a1 ++ a2). split.
  - by rewrite Hr2, Hr1, app_assoc.
  - intros [-> ->]%app_eq_nil. rewrite Hs2, Hs1; done.
Qed.

Lemma appended_grows s s' : appended s s' → grows s s'.
Proof.
  intros (df & Hne & ->). exists (rows df). split; [done|].
  intros Hnil. by rewrite Hnil in Hne.
Qed.

Lemma foldl_grows {U} (f : DQ → U → DQ) (units : list U) (s : DQ) :
  (∀ s u, grows s (f s u)) → grows s (foldl f s units).
Proof.
  intros Hf. revert s. induction units as [|u units IH]; intros s; simpl.
  - apply grows_refl.
  - eapply grows_trans; [apply Hf|apply IH].
Qed.

Lemma rows_nonempty_len df : (0 <? df_len df) = true → rows df ≠ [].
Proof.
  intros Hlen%Nat.ltb_lt Hnil. unfold df_len in Hlen. rewrite Hnil in Hlen.
  simpl in Hlen. lia.
Qed.

Lemma rows_df_assign_nonempty c v df : rows df ≠ [] → rows (df_assign c v df) ≠ [].
Proof. rewrite rows_df_assign. by destruct (rows df). Qed.

Lemma rows_df_drop c df : rows (df_drop c df) = delete c <$> rows df.
Proof. done. Qed.

Lemma rows_df_drop_nonempty c df : rows df ≠ [] → rows (df_drop c df) ≠ [].
Proof. rewrite rows_df_drop. by destruct (rows df). Qed.

Section ValRangeShape.
Context `{Platform}.

Lemma check_val_range_body_shape th u s r s' :
  check_val_range_body th u s = (r, s') →
  s' = s ∨ (r = Some tt ∧ appended s s').
Proof.
  destruct u as [table_name target_col].
  unfold check_val_range_body. unfold_M. cbv beta iota.
  destruct (read_csv _) as [table|]; [|intros [= <- <-]; by left].
  case_bool_decide; [intros [= <- <-]; by left|].
  destruct (df_where _ _ _) as [bad|]; [|intros [= <- <-]; by left].
  destruct (0 <? df_len bad) eqn:Hlen; [|intros [= <- <-]; by left].
  destruct (iloc0 _) as [first|]; [|intros [= <- <-]; by left].
  destruct (format_2f first) as [shown|]; [|intros [= <- <-]; by left].
  intros [= <- <-]. right. split; [done|]. eexists. split; [|done].
  unfold val_range_tag. do 5 apply rows_df_assign_nonempty.
  by apply rows_nonempty_len.
Qed.

(** A unit on a numeric column completes, provided numbers can be
    formatted and the column is none of the text labels the checker itself
    writes before it formats the sample. *)
Lemma check_val_range_body_completes th self table_name target_col table :
  read_csv (data_path self +:+ table_name +:+ ".csv") = Some table →
  (∀ r t, r ∈ rows table → cell r target_col ≠ VStr t) →
  (∀ q, is_Some (format_2f (VNum q))) →
  target_col ∉ ["INPUT_COLUMN"; "INPUT_TABLE"; "WARNING_TYPE"] →
  (check_val_range_body th (table_name, target_col) self).1 = Some tt.
Proof.
  intros Hload Hnum Hfmt Hname.
  unfold check_val_range_body. unfold_M. cbv beta iota. rewrite Hload.
  cbv beta iota. case_bool_decide; [done|].
  destruct (df_where (lt_scalar th) target_col table) as [bad|] eqn:Hbad.
  2:{ unfold df_where, series in Hbad.
      destruct (mapM _ _) as [mask|] eqn:Hmask; [done|].
      apply mapM_None in Hmask.
      apply Exists_exists in Hmask as (v & Hv & Hnone).
      apply list_elem_of_fmap in Hv as (r & -> & Hr).
      specialize (Hnum r). destruct (cell r target_col); try done.
      by edestruct Hnum. }
  apply df_where_rows in Hbad as [_ Hrows].
  destruct (0 <? df_len bad) eqn:Hlen; [|done].
  apply rows_nonempty_len in Hlen.
  destruct (rows bad) as [|r l] eqn:Hr; [done|].
  assert (r ∈ List.filter
            (λ r, bool_decide (lt_scalar th (cell r target_col) = Some true))
            (rows table)) as [_ Hsel%bool_decide_eq_true]%elem_of_bfilter
    by (rewrite <- Hrows; by left).
  unfold series. rewrite !rows_df_assign, Hr. cbn [fmap list_fmap iloc0 head].
  assert (∃ q, cell (<["WARNING_TYPE" := VStr "val_range"]>
                       (<["INPUT_VALUE" := VNum th]>
                          (<["INPUT_TABLE" := VStr table_name]>
                             (<["INPUT_COLUMN" := VStr target_col]> r))))
                    target_col = VNum q) as [q ->].
  { rewrite cell_insert_ne by (intros <-; apply Hname; set_solver).
    rewrite cell_insert. case_decide; [by eexists|].
    rewrite !cell_insert_ne by (intros <-; apply Hname; set_solver).
    destruct (cell r target_col); [done|by eexists|done]. }
  by destruct (Hfmt q) as [shown ->].
Qed.

End ValRangeShape.

(** ** [check_cross_consistency] *)

Section Cross.
Context `{Platform}.

Lemma rows_cross_tag t1 t2 df :
  rows (cross_tag t1 t2 df) = cross_row t1 t2 <$> rows df.
Proof.
  unfold cross_tag, cross_row. rewrite !rows_df_assign.
  by rewrite <- !list_fmap_compose.
Qed.

Lemma elem_of_common_id_cols t1 t2 c :
  c ∈ common_id_cols t1 t2 ↔
  c ∈ columns t1 ∧ c ∈ columns t2 ∧ Str.contains "ID" (str_upper c) = true.
Proof.
  unfold common_id_cols. rewrite elem_of_bfilter, set_and_elem. tauto.
Qed.

Lemma NoDup_common_id_cols t1 t2 : NoDup (common_id_cols t1 t2).
Proof.
  unfold common_id_cols.
  apply NoDup_ListNoDup, List.NoDup_filter, NoDup_ListNoDup, set_and_NoDup.
Qed.

Lemma common_id_cols_no_tag t1 t2 c :
  Str.ascii_only c = true →
  Str.contains "ID" (Str.upper c) = false → c ∉ common_id_cols t1 t2.
Proof.
  rewrite elem_of_common_id_cols. intros Ha Hc (_ & _ & Hc').
  rewrite str_upper_ascii in Hc' by done. congruence.
Qed.

Lemma key_of_cross_row t1 t2 a b r :
  key_of (common_id_cols t1 t2) (cross_row a b r)
  = key_of (common_id_cols t1 t2) r.
Proof.
  unfold key_of. apply list_fmap_ext. intros i c Hc%list_elem_of_lookup_2.
  unfold cross_row.
  rewrite !cell_insert_ne; [done|..]; intros <-;
    by apply common_id_cols_no_tag in Hc.
Qed.

Lemma check_cross_consistency_body_shape p s r s' :
  check_cross_consistency_body p s = (r, s') →
  s' = s ∨ (r = Some tt ∧ appended s s').
Proof.
  destruct p as [table1_name table2_name].
  unfold check_cross_consistency_body. unfold_M. cbv beta iota zeta.
  destruct (read_csv _) as [table1|]; [|intros [= <- <-]; by left].
  destruct (read_csv _) as [table2|]; [|intros [= <- <-]; by left].
  case_bool_decide; [intros [= <- <-]; by left|].
  destruct (merge_left_indicator _ _ _) as [merged|];
    [|intros [= <- <-]; by left].
  destruct (0 <? df_len (left_only merged)) eqn:Hlen;
    [|intros [= <- <-]; by left].
  intros [= <- <-]. right. split; [done|]. eexists. split; [|done].
  unfold cross_tag. do 3 apply rows_df_assign_nonempty.
  by apply rows_df_drop_nonempty, rows_nonempty_len.
Qed.

(** A completed unit appends the tagged anti-join of the two tables. *)
Lemma check_cross_consistency_body_rows self self' A B tA tB :
  read_csv (data_path self +:+ A +:+ ".csv") = Some tA →
  read_csv (data_path self +:+ B +:+ ".csv") = Some tB →
  check_cross_consistency_body (A, B) self = (Some tt, self') →
  common_id_cols tA tB ≠ [] →
  rows (data_quality_output self')
  = rows (data_quality_output self) ++
    (cross_row A B <$> anti_join (common_id_cols tA tB) tA tB).
Proof.
  intros HA HB Hbody Hcols.
  unfold check_cross_consistency_body in Hbody. unfold_M.
  cbv beta iota zeta in Hbody. rewrite HA, HB in Hbody.
  rewrite bool_decide_eq_false_2 in Hbody by done.
  destruct (merge_left_indicator _ _ _) as [merged|] eqn:Hm; [|discriminate].
  apply merge_anti_join in Hm as [Hrows Hlen];
    [|by apply common_id_cols_no_tag].
  rewrite Hlen in Hbody.
  destruct (0 <? length _) eqn:Hpos; injection Hbody as <-.
  - cbn [set_output data_quality_output pd_concat rows].
    by rewrite rows_cross_tag, Hrows.
  - apply Nat.ltb_ge in Hpos.
    destruct (anti_join _ _ _); simpl in *; [|lia]. by rewrite app_nil_r.
Qed.

End Cross.

Lemma elem_of_permutations2 {A} (l : list A) (p : A * A) :
  p ∈ permutations2 l ↔
  ∃ i j, i ≠ j ∧ l !! i = Some p.1 ∧ l !! j = Some p.2.
Proof.
  unfold permutations2. rewrite list_elem_of_join. split.
  - intros (ps & Hp & Hps).
    apply elem_of_lookup_imap in Hps as (i & x & -> & Hi).
    apply list_elem_of_omap in Hp as ([j y] & Hjy & Hsome).
    apply elem_of_lookup_imap in Hjy as (j' & y' & [= -> ->] & Hj).
    simpl in Hsome. case_decide; [done|]. injection Hsome as <-.
    by exists i, j'.
  - destruct p as [a b]. simpl. intros (i & j & Hij & Hi & Hj).
    exists (omap (λ jy : nat * A,
                    if decide (i = jy.1) then None else Some (a, jy.2))
                 (imap pair l)).
    split.
    + apply list_elem_of_omap. exists (j, b). split.
      * apply elem_of_lookup_imap. by exists j, b.
      * simpl. rewrite decide_False by exact Hij. reflexivity.
    + apply elem_of_lookup_imap. by exists i, a.
Qed.

Lemma elem_of_permutations2_NoDup {A} (l : list A) (a b : A) :
  NoDup l → ((a, b) ∈ permutations2 l ↔ a ∈ l ∧ b ∈ l ∧ a ≠ b).
Proof.
  intros Hnd. rewrite elem_of_permutations2. simpl. split.
  - intros (i & j & Hij & Hi & Hj). split; [by eapply list_elem_of_lookup_2|].
    split; [by eapply list_elem_of_lookup_2|].
    intros ->. apply Hij. by eapply NoDup_lookup.
  - intros ((i & Hi)%list_elem_of_lookup_1 & (j & Hj)%list_elem_of_lookup_1 & Hab).
    exists i, j. split; [|done]. intros ->. congruence.
Qed.


(** ** [check_time_cross_consistency] *)

Lemma entity_row_lookup_None ids k c : c ∉ ids → entity_row ids k !! c = None.
Proof.
  intros Hc. apply not_elem_of_list_to_map_1.
  intros ([c' v] & -> & Hin)%list_elem_of_fmap. apply Hc.
  by eapply elem_of_zip_l.
Qed.

Lemma entity_row_key_of ids r : entity_row ids (key_of ids r) = row_project ids r.
Proof.
  unfold entity_row, row_project, key_of. f_equal.
  induction ids as [|c ids IH]; [done|]. cbn. f_equal. exact IH.
Qed.

Lemma elem_of_group_keys ids df k :
  k ∈ group_keys ids df ↔ k ∈ keys ids df ∧ VNull ∉ k.
Proof.
  unfold group_keys. rewrite merge_sort_Permutation, elem_of_dedup.
  rewrite elem_of_bfilter, negb_true_iff, bool_decide_eq_false. done.
Qed.

Lemma NoDup_group_keys ids df : NoDup (group_keys ids df).
Proof.
  unfold group_keys. rewrite merge_sort_Permutation. apply NoDup_dedup_from.
Qed.

Lemma elem_of_infrequent_entities ids date th df k :
  k ∈ infrequent_entities ids date th df ↔
  k ∈ group_keys ids df ∧
  (Qc_of_Z (Z.of_nat (period_count_of ids date df k)) ≤ th)%Qc.
Proof.
  unfold infrequent_entities. by rewrite elem_of_bfilter, bool_decide_eq_true.
Qed.

Lemma period_count_of_values ids date df k :
  period_count_of ids date df k = length (period_values ids date df k).
Proof. done. Qed.

Lemma elem_of_period_values ids date df k v :
  v ∈ period_values ids date df k ↔
  v ≠ VNull ∧ ∃ r, r ∈ rows df ∧ key_of ids r = k ∧ cell r date = v.
Proof.
  unfold period_values, series, df_filter. cbn [rows].
  rewrite elem_of_dedup, elem_of_bfilter, negb_true_iff, bool_decide_eq_false.
  rewrite list_elem_of_fmap. split.
  - intros [(r & -> & [Hr Hk%bool_decide_eq_true]%elem_of_bfilter) Hv].
    split; [done|]. by exists r.
  - intros [Hv (r & Hr & Hk & <-)]. split; [|done]. exists r. split; [done|].
    apply elem_of_bfilter. split; [done|]. by apply bool_decide_eq_true.
Qed.

Lemma groupby_infrequent_rows ids date th df counts inf :
  "period_count" ∉ ids →
  groupby_nunique ids date df = Some counts →
  df_where (le_scalar th) "period_count" counts = Some inf →
  rows (df_drop "period_count" inf)
  = entity_row ids <$> infrequent_entities ids date th df.
Proof.
  intros Hpc Hg Hw. unfold groupby_nunique in Hg. case_decide; [done|].
  injection Hg as <-. apply df_where_rows in Hw as [_ Hrows].
  rewrite rows_df_drop, Hrows. cbn [rows].
  rewrite filter_map_swap. unfold infrequent_entities.
  rewrite <- list_fmap_compose.
  erewrite filter_ext.
  - apply list_fmap_ext. intros i k _. simpl.
    rewrite delete_insert_eq. apply delete_id.
    by apply entity_row_lookup_None.
  - intros k. simpl. rewrite cell_insert_eq. simpl.
    repeat case_bool_decide; congruence.
Qed.

Lemma groupby_where_is_Some ids date th df counts :
  groupby_nunique ids date df = Some counts →
  is_Some (df_where (le_scalar th) "period_count" counts).
Proof.
  unfold groupby_nunique. case_decide; [done|]. intros [= <-].
  unfold df_where, series. cbn [rows].
  destruct (mapM _ _) as [mask|] eqn:Hmask; [by eexists|].
  apply mapM_None in Hmask. apply Exists_exists in Hmask as (v & Hv & Hnone).
  rewrite <- list_fmap_compose in Hv.
  apply list_elem_of_fmap in Hv as (k & -> & _). simpl in Hnone.
  by rewrite cell_insert_eq in Hnone.
Qed.

Section Time.
Context `{Platform}.

Lemma rows_time_missing_tag t1 t2 th n pct df :
  rows (time_missing_tag t1 t2 th n pct df)
  = time_missing_row t1 t2 th n pct <$> rows df.
Proof.
  unfold time_missing_tag, time_missing_row. rewrite !rows_df_assign.
  by rewrite <- !list_fmap_compose.
Qed.

Lemma rows_time_infrequent_tag t1 th df :
  rows (time_infrequent_tag t1 th df) = time_infrequent_row t1 th <$> rows df.
Proof.
  unfold time_infrequent_tag, time_infrequent_row. rewrite !rows_df_assign.
  by rewrite <- !list_fmap_compose.
Qed.

Lemma elem_of_time_id_columns l c :
  c ∈ time_id_columns l ↔
  c ∈ l ∧ Str.contains "ID" (str_upper c) = true ∧
  (Str.contains "PRODUCT" (str_upper c) = true ∨
   Str.contains "LOCATION" (str_upper c) = true).
Proof.
  unfold time_id_columns.
  by rewrite elem_of_bfilter, andb_true_iff, orb_true_iff.
Qed.

Lemma elem_of_time_date_columns l c :
  c ∈ time_date_columns l ↔ c ∈ l ∧ Str.endswith "_DT" c = true.
Proof. unfold time_date_columns. by rewrite elem_of_bfilter. Qed.

Lemma time_id_columns_no_tag l c :
  Str.ascii_only c = true →
  Str.contains "ID" (Str.upper c) = false → c ∉ time_id_columns l.
Proof.
  rewrite elem_of_time_id_columns. intros Ha Hc (_ & Hc' & _).
  rewrite str_upper_ascii in Hc' by done. congruence.
Qed.

Lemma time_key_columns_no_merge l :
  "_merge" ∉ time_id_columns l ++ time_date_columns l.
Proof.
  rewrite elem_of_app, elem_of_time_id_columns, elem_of_time_date_columns.
  intros [(_ & Hc & _)|[_ Hc]];
    [rewrite str_upper_ascii in Hc by done|]; vm_compute in Hc; discriminate.
Qed.

Lemma time_missing_block_run A B th u1 merged s :
  let missing := df_drop "_merge" (left_only merged) in
  let pct := missing_pct (df_len missing) (df_len u1) in
  time_missing_block A B th u1 merged s
  = (Some tt,
     if (0 <? df_len missing) && float_gt pct th
     then set_output s
            (pd_concat (data_quality_output s)
               (time_missing_tag A B th (df_len missing) pct missing))
     else s).
Proof.
  intros missing pct. unfold time_missing_block. unfold_M.
  assert (df_len (left_only merged) = df_len missing) as Hlen.
  { unfold missing, df_len. by rewrite rows_df_drop, length_fmap. }
  rewrite Hlen. fold missing. fold pct.
  destruct (0 <? df_len missing); [|done]. simpl.
  by destruct (float_gt pct th).
Qed.

Lemma time_infrequent_block_run A th t1 ids dates date0 s :
  ids ≠ [] → head dates = Some date0 → date0 ∉ ids →
  "period_count" ∉ ids →
  ∃ F, rows F = entity_row ids <$> infrequent_entities ids date0 th t1 ∧
       time_infrequent_block A th t1 ids dates s
       = (Some tt,
          if 0 <? df_len F
          then set_output s
                 (pd_concat (data_quality_output s)
                    (time_infrequent_tag A th F))
          else s).
Proof.
  intros Hids Hhead Hnin Hpc. unfold time_infrequent_block. unfold_M.
  assert ((0 <? length ids) = true) as ->.
  { apply Nat.ltb_lt. destruct ids; [done|simpl; lia]. }
  rewrite Hhead.
  destruct (groupby_nunique ids date0 t1) as [counts|] eqn:Hg.
  2:{ unfold groupby_nunique in Hg. by case_decide. }
  destruct (groupby_where_is_Some _ _ th _ _ Hg) as [inf Hinf].
  rewrite Hinf. exists (df_drop "period_count" inf). split.
  - by eapply groupby_infrequent_rows.
  - assert (df_len (df_drop "period_count" inf) = df_len inf) as ->.
    { unfold df_len. by rewrite rows_df_drop, length_fmap. }
    by destruct (0 <? df_len inf).
Qed.

(** What a unit of work does once both tables are loaded and share
    entity and date columns: it raises at the merge and changes nothing,
    or it runs both blocks to the end. *)
Lemma check_time_cross_consistency_body_run th self A B tA tB :
  read_csv (data_path self +:+ A +:+ ".csv") = Some tA →
  read_csv (data_path self +:+ B +:+ ".csv") = Some tB →
  let common := set_and (columns tA) (columns tB) in
  let ids := time_id_columns common in
  let dates := time_date_columns common in
  let K := ids ++ dates in
  let total := length (dedup_from [] (row_project K <$> rows tA)) in
  ids ≠ [] → dates ≠ [] →
  check_time_cross_consistency_body th (A, B) self = (None, self)
  ∨ ∃ Mf F date0,
      head dates = Some date0
      ∧ rows Mf = anti_join K tA tB
      ∧ rows F = entity_row ids <$> infrequent_entities ids date0 th tA
      ∧ let pct := missing_pct (df_len Mf) total in
        let s1 :=
          if (0 <? df_len Mf) && float_gt pct th
          then set_output self
                 (pd_concat (data_quality_output self)
                    (time_missing_tag A B th (df_len Mf) pct Mf))
          else self in
        check_time_cross_consistency_body th (A, B) self
        = (Some tt,
           if 0 <? df_len F
           then set_output s1
                  (pd_concat (data_quality_output s1)
                     (time_infrequent_tag A th F))
           else s1).
Proof.
  intros HA HB common ids dates K total Hids Hdates.
  unfold check_time_cross_consistency_body. unfold_M.
  cbv beta iota zeta. rewrite HA, HB.
  fold common. fold ids. fold dates.
  rewrite !bool_decide_eq_false_2 by done. cbn [orb]. fold K.
  destruct (merge_left_indicator K _ _) as [merged|] eqn:Hm; [|by left].
  right. pose proof (merge_NoDup _ _ _ _ Hm) as HK.
  apply merge_anti_join in Hm as [Hrows Hlen];
    [|apply time_key_columns_no_merge].
  destruct dates as [|date0 dates'] eqn:Hd; [done|].
  assert (date0 ∉ ids) as Hnin.
  { intros Hin. apply NoDup_app in HK as (_ & HK & _).
    apply (HK _ Hin). by left. }
  rewrite time_missing_block_run. cbv zeta.
  match goal with
  | |- context [time_infrequent_block A th tA ids ?ds ?s] =>
      destruct (time_infrequent_block_run A th tA ids ds date0 s)
        as (F & HF & ->); [done|done|done|..]
  end.
  { by apply time_id_columns_no_tag. }
  exists (df_drop "_merge" (left_only merged)), F, date0.
  split; [done|]. split; [done|]. split; [done|].
  cbv zeta. unfold total, df_len at 3 6. 
  unfold drop_duplicates, df_select. cbn [rows]. done.
Qed.

End Time.

Section TimeRows.
Context `{Platform}.
#[local] Opaque float_gt missing_pct.

Lemma check_time_cross_consistency_body_rows th self self' A B tA tB :
  read_csv (data_path self +:+ A +:+ ".csv") = Some tA →
  read_csv (data_path self +:+ B +:+ ".csv") = Some tB →
  let common := set_and (columns tA) (columns tB) in
  let ids := time_id_columns common in
  let dates := time_date_columns common in
  let K := ids ++ dates in
  let missing := anti_join K tA tB in
  let total := length (dedup_from [] (row_project K <$> rows tA)) in
  let pct := missing_pct (length missing) total in
  ids ≠ [] → dates ≠ [] →
  check_time_cross_consistency_body th (A, B) self = (Some tt, self') →
  ∃ date0,
    head dates = Some date0 ∧
    rows (data_quality_output self')
    = rows (data_quality_output self)
      ++ (if float_gt pct th
          then time_missing_row A B th (length missing) pct <$> missing
          else [])
      ++ (time_infrequent_row A th
            <$> (entity_row ids <$> infrequent_entities ids date0 th tA)).
Proof.
  intros HA HB common ids dates K missing total pct Hids Hdates Hbody.
  destruct (check_time_cross_consistency_body_run th self A B tA tB HA HB
              Hids Hdates) as [Hfail|(Mf & F & date0 & Hhead & HM & HF & Hrun)].
  { rewrite Hfail in Hbody. discriminate. }
  cbv zeta in Hrun. rewrite Hrun in Hbody. clear Hrun.
  exists date0. split; [done|].
  fold common ids dates K in HM, HF, Hbody. fold total in Hbody.
  assert (df_len Mf = length missing) as HlenM
    by (unfold df_len, missing; by rewrite HM).
  rewrite HlenM in Hbody. fold pct in Hbody.
  injection Hbody as <-.
  assert (rows F = entity_row ids <$> infrequent_entities ids date0 th tA
          → ∀ s1 : DQ, rows (data_quality_output
              (if 0 <? df_len F
               then set_output s1 (pd_concat (data_quality_output s1)
                      (time_infrequent_tag A th F))
               else s1))
            = rows (data_quality_output s1)
              ++ (time_infrequent_row A th
                   <$> (entity_row ids <$> infrequent_entities ids date0 th tA)))
    as Hstep6.
  { intros HF' s1. rewrite <- HF'. destruct (0 <? df_len F) eqn:HposF.
    - cbn [set_output data_quality_output pd_concat rows].
      by rewrite rows_time_infrequent_tag.
    - apply Nat.ltb_ge in HposF. unfold df_len in HposF.
      assert (rows F = []) as -> by (apply nil_length_inv; lia).
      by rewrite app_nil_r. }
  rewrite (Hstep6 HF). clear Hstep6. rewrite app_assoc. f_equal.
  destruct (float_gt pct th) eqn:Hg.
  - rewrite andb_true_r.
    destruct (0 <? length missing) eqn:Hpos.
    + cbn [set_output data_quality_output pd_concat rows].
      rewrite rows_time_missing_tag, HM. reflexivity.
    + apply Nat.ltb_ge in Hpos.
      assert (missing = []) as Hnil by (apply nil_length_inv; lia).
      rewrite Hnil. symmetry; apply app_nil_r.
  - rewrite andb_false_r. symmetry; apply app_nil_r.
Qed.

Lemma check_time_cross_consistency_body_shape th p s r s' :
  check_time_cross_consistency_body th p s = (r, s') →
  s' = s ∨
  (r = Some tt ∧
   (appended s s' ∨ ∃ s1, appended s s1 ∧ appended s1 s')).
Proof.
  destruct p as [A B]. intros Hbody.
  destruct (read_csv (data_path s +:+ A +:+ ".csv")) as [tA|] eqn:HA.
  2:{ unfold check_time_cross_consistency_body in Hbody. unfold_M.
      cbv beta iota zeta in Hbody. rewrite HA in Hbody.
      injection Hbody as <- <-. by left. }
  destruct (read_csv (data_path s +:+ B +:+ ".csv")) as [tB|] eqn:HB.
  2:{ unfold check_time_cross_consistency_body in Hbody. unfold_M.
      cbv beta iota zeta in Hbody. rewrite HA, HB in Hbody.
      injection Hbody as <- <-. by left. }
  set (common := set_and (columns tA) (columns tB)).
  destruct (decide (time_id_columns common = [])) as [Hids|Hids].
  { unfold check_time_cross_consistency_body in Hbody. unfold_M.
    cbv beta iota zeta in Hbody. rewrite HA, HB in Hbody.
    fold common in Hbody. rewrite Hids in Hbody.
    injection Hbody as <- <-. by left. }
  destruct (decide (time_date_columns common = [])) as [Hdates|Hdates].
  { unfold check_time_cross_consistency_body in Hbody. unfold_M.
    cbv beta iota zeta in Hbody. rewrite HA, HB in Hbody.
    fold common in Hbody. rewrite Hdates in Hbody.
    rewrite orb_true_r in Hbody. injection Hbody as <- <-. by left. }
  destruct (check_time_cross_consistency_body_run th s A B tA tB HA HB
              Hids Hdates) as [Hfail|(Mf & F & date0 & _ & _ & _ & Hrun)].
  { rewrite Hfail in Hbody. injection Hbody as <- <-. by left. }
  cbv zeta in Hrun.
  set (pct := missing_pct (df_len Mf) _) in Hrun.
  set (T5 := time_missing_tag A B th (df_len Mf) pct Mf) in Hrun.
  set (T6 := time_infrequent_tag A th F) in Hrun.
  set (c5 := (0 <? df_len Mf) && float_gt pct th) in Hrun.
  assert (c5 = true → rows T5 ≠ []) as H5.
  { intros [Hpos _]%andb_true_iff. unfold T5, time_missing_tag.
    do 4 apply rows_df_assign_nonempty. by apply rows_nonempty_len. }
  assert ((0 <? df_len F) = true → rows T6 ≠ []) as H6.
  { intros Hpos. unfold T6, time_infrequent_tag.
    do 4 apply rows_df_assign_nonempty. by apply rows_nonempty_len. }
  clearbody T5 T6 c5. rewrite Hrun in Hbody. clear Hrun.
  injection Hbody as <- <-.
  destruct c5, (0 <? df_len F).
  - right. split; [done|]. right.
    exists (set_output s (pd_concat (data_quality_output s) T5)).
    split; [exists T5|exists T6]; (split; [auto|done]).
  - right. split; [done|]. left. exists T5. split; [auto|done].
  - right. split; [done|]. left. exists T6. split; [auto|done].
  - by left.
Qed.
End TimeRows.

Lemma float_gt_finite (f : float) (q th : Qc) :
  float_val f = Some q → float_gt f th = bool_decide (th < q)%Qc.
Proof.
  unfold float_gt, float_val.
  destruct (Prim2SF f) as [s|s| |s m e]; try discriminate; by intros [= <-].
Qed.

Lemma float_gt_boundary (f : float) (th : Qc) :
  float_val f = Some th → float_gt f th = false.
Proof.
  intros Hf. rewrite (float_gt_finite _ _ _ Hf).
  apply bool_decide_eq_false_2. intros Hlt. by apply Qclt_not_eq in Hlt.
Qed.

Section TimeKeys.
Context `{Platform}.

Lemma key_of_time_infrequent_row l A th r :
  key_of (time_id_columns l) (time_infrequent_row A th r)
  = key_of (time_id_columns l) r.
Proof.
  unfold key_of. apply list_fmap_ext. intros i c Hc%list_elem_of_lookup_2.
  unfold time_infrequent_row.
  rewrite !cell_insert_ne; [done|..]; intros <-;
    by apply time_id_columns_no_tag in Hc.
Qed.

End TimeKeys.

(** ** Column names built by [format_output] *)

Lemma last_char_app (s1 s2 : string) :
  s2 ≠ "" → Str.last_char (s1 +:+ s2) = Str.last_char s2.
Proof.
  intros Hs2. induction s1 as [|a s1 IH]; [done|].
  change (String a s1 +:+ s2) with (String a (s1 +:+ s2)).
  cbn [Str.last_char]. rewrite IH.
  destruct (s1 +:+ s2) eqn:Happ; [|done].
  destruct s1; [|discriminate]. by destruct s2.
Qed.

Lemma last_char_pretty_N_go (x : N) (s : string) :
  s ≠ "" → Str.last_char (pretty_N_go x s) = Str.last_char s.
Proof.
  revert s. induction (N.lt_wf_0 x) as [x _ IH]. intros s Hs.
  destruct (decide (x = 0)%N) as [->|Hx]; [by rewrite pretty_N_go_0|].
  rewrite pretty_N_go_step by lia.
  rewrite IH; [|apply N.div_lt; lia|done].
  cbn [Str.last_char]. by destruct s.
Qed.

Lemma pretty_nat_unfold (n : nat) :
  pretty n
  = if decide (N.of_nat n = 0)%N then "0" else pretty_N_go (N.of_nat n) "".
Proof. reflexivity. Qed.

Lemma last_char_pretty_nat (n : nat) :
  ∃ d, (d < 10)%N ∧ Str.last_char (pretty n) = Some (pretty_N_char d).
Proof.
  rewrite pretty_nat_unfold.
  destruct (decide (N.of_nat n = 0)%N) as [_|Hn].
  - exists 0%N. split; [lia|done].
  - exists (N.of_nat n `mod` 10)%N. split; [by apply N.mod_lt|].
    rewrite pretty_N_go_step by lia.
    by rewrite last_char_pretty_N_go.
Qed.

Lemma pretty_N_char_not_D (d : N) : pretty_N_char d ≠ "D"%char.
Proof. unfold pretty_N_char. by repeat case_match. Qed.

Lemma id_col_ne_lvl (d e : string) : d +:+ "_ID" ≠ e +:+ "_LVL".
Proof.
  intros Heq. apply (f_equal Str.last_char) in Heq.
  by rewrite !last_char_app in Heq.
Qed.

Lemma id_col_ne_lvl_id (d e : string) (n : nat) :
  d +:+ "_ID" ≠ e +:+ "_LVL_ID" +:+ pretty n.
Proof.
  intros Heq. apply (f_equal Str.last_char) in Heq.
  destruct (last_char_pretty_nat n) as (k & _ & Hk).
  assert (pretty n ≠ "") as Hne by (intros Hn; by rewrite Hn in Hk).
  rewrite last_char_app in Heq by done.
  rewrite last_char_app in Heq by (by destruct (pretty n)).
  rewrite last_char_app, Hk in Heq by done.
  injection Heq as Heq. by eapply pretty_N_char_not_D.
Qed.

(** ** [format_output] *)

Lemma set_output_set_output s a b : set_output (set_output s a) b = set_output s b.
Proof. done. Qed.

Lemma set_output_id s : set_output s (data_quality_output s) = s.
Proof. by destruct s. Qed.

Lemma elem_of_columns_formatted d level casted out c :
  c ∈ columns (formatted d level casted out) →
  c ≠ d +:+ "_ID" ∧
  (c ∈ columns out ∨ c = d +:+ "_LVL_ID" +:+ pretty level ∨ c = d +:+ "_LVL").
Proof.
  unfold formatted, df_drop, df_assign, df_assign_series. cbn [columns].
  rewrite elem_of_bfilter, negb_true_iff, bool_decide_eq_false.
  intros [Hc Hne]. split; [done|].
  repeat case_decide; rewrite ?elem_of_app, ?list_elem_of_singleton in *;
    tauto.
Qed.

Lemma series_formatted d level casted out c :
  length casted = length (rows out) →
  c ≠ d +:+ "_ID" → c ≠ d +:+ "_LVL" → c ≠ d +:+ "_LVL_ID" +:+ pretty level →
  series (formatted d level casted out) c = series out c.
Proof.
  intros Hlen H1 H2 H3. unfold series, formatted, df_drop, df_assign,
    df_assign_series. cbn [rows].
  rewrite <- !list_fmap_compose.
  revert casted Hlen. induction (rows out) as [|r l IH]; intros casted Hlen.
  - by destruct casted.
  - destruct casted as [|v casted]; [done|]. cbn in Hlen.
    cbn [zip_with fmap list_fmap]. f_equal.
    + cbn. rewrite cell_delete_ne, !cell_insert_ne by done. done.
    + apply IH. lia.
Qed.

Section Format.
Context `{Platform}.

Lemma format_output_body_run d h s :
  format_output_body d h s
  = match read_csv (data_path s +:+ h +:+ ".csv") with
    | None => (None, s)
    | Some ht =>
        match astype_Int64
                (series (data_quality_output s) (d +:+ "_ID")) with
        | None => (None, s)
        | Some casted =>
            (Some tt,
             set_output s
               (formatted d (num_levels_of d ht + 1) casted
                  (data_quality_output s)))
        end
    end.
Proof.
  unfold format_output_body. unfold_M. cbv beta iota zeta.
  destruct (read_csv _) as [ht|]; [|done].
  destruct (astype_Int64 _) as [casted|]; [|done].
  done.
Qed.

Lemma format_output_step_cases s e :
  format_output_step s e = s
  ∨ ∃ level casted,
      astype_Int64 (series (data_quality_output s) (e.1 +:+ "_ID"))
        = Some casted
      ∧ format_output_step s e
        = set_output s (formatted e.1 level casted (data_quality_output s)).
Proof.
  destruct e as [d h]. unfold format_output_step.
  case_bool_decide; [by left|].
  unfold try_except. rewrite format_output_body_run.
  destruct (read_csv _) as [ht|]; [|by left].
  destruct (astype_Int64 _) as [casted|] eqn:Hc; [|by left].
  right. by exists (num_levels_of d ht + 1), casted.
Qed.

Lemma settled_step_id d s : settled d s → format_output_step s d = s.
Proof.
  destruct d as [d h]. intros [Habs|[Hload|Hcast]]; unfold format_output_step.
  - by rewrite bool_decide_eq_true_2.
  - case_bool_decide; [done|]. unfold try_except.
    rewrite format_output_body_run. simpl in Hload. by rewrite Hload.
  - case_bool_decide; [done|]. unfold try_except.
    rewrite format_output_body_run. simpl in Hcast. rewrite Hcast.
    by destruct (read_csv _).
Qed.

Lemma step_settles d s : settled d (format_output_step s d).
Proof.
  destruct d as [d h]. unfold format_output_step.
  case_bool_decide as Habs; [by left|].
  unfold try_except. rewrite format_output_body_run.
  destruct (read_csv _) as [ht|] eqn:Hload; [|by right; left].
  destruct (astype_Int64 _) as [casted|] eqn:Hc; [|by right; right].
  left. cbn [snd fst set_output data_quality_output].
  by intros [Hne _]%elem_of_columns_formatted.
Qed.

Lemma settled_step d e s : settled d s → settled d (format_output_step s e).
Proof.
  intros Hd.
  destruct (format_output_step_cases s e) as [->|(level & casted & Hc & ->)];
    [done|].
  destruct Hd as [Habs|[Hload|Hcast]].
  - left. cbn [set_output data_quality_output].
    intros [_ [Hin|[Heq|Heq]]]%elem_of_columns_formatted; [done|..].
    + by apply id_col_ne_lvl_id in Heq.
    + by apply id_col_ne_lvl in Heq.
  - right. by left.
  - destruct (decide (d.1 +:+ "_ID" = e.1 +:+ "_ID")) as [Heq|Hne].
    + left. cbn [set_output data_quality_output]. rewrite Heq.
      by intros [Hne _]%elem_of_columns_formatted.
    + right. right. cbn [set_output data_quality_output].
      rewrite series_formatted; [done|..].
      * apply astype_Int64_length in Hc. rewrite Hc.
        unfold series. by rewrite length_fmap.
      * done.
      * apply id_col_ne_lvl.
      * apply id_col_ne_lvl_id.
Qed.

Lemma foldl_settled lvl s d :
  settled d s → settled d (foldl format_output_step s lvl).
Proof.
  revert s. induction lvl as [|e lvl IH]; intros s Hd; [done|].
  simpl. by apply IH, settled_step.
Qed.

Lemma foldl_settles lvl s d :
  d ∈ lvl → settled d (foldl format_output_step s lvl).
Proof.
  revert s. induction lvl as [|e lvl IH]; intros s Hd.
  - by apply elem_of_nil in Hd.
  - simpl. apply elem_of_cons in Hd as [->|Hd].
    + apply foldl_settled, step_settles.
    + by apply IH.
Qed.

Lemma foldl_all_settled lvl s :
  (∀ d, d ∈ lvl → settled d s) → foldl format_output_step s lvl = s.
Proof.
  induction lvl as [|e lvl IH]; intros Hall; [done|]. simpl.
  rewrite settled_step_id by (apply Hall; by left).
  apply IH. intros d Hd. apply Hall. by right.
Qed.

(** C6: formatting the findings table a second time changes nothing.
    A dimension converted by the first run has lost its [{DIM}_ID] column,
    a dimension without that column is skipped, an empty findings table is
    returned as it is, and a dimension whose conversion raised in the first
    run raises again in the second. *)
Theorem format_output_idempotent (lvl : list (string * string)) (self : DQ) :
  (format_output lvl (format_output lvl self).2).2 = (format_output lvl self).2
  ∧ (df_empty (data_quality_output self) = true →
     (format_output lvl self).2 = self)
  ∧ (∀ d h s,
       d +:+ "_ID" ∉ columns (data_quality_output s) →
       format_output_step s (d, h) = s)
  ∧ (∀ d h s s',
       format_output_body d h s = (Some tt, s') →
       d +:+ "_ID" ∉ columns (data_quality_output s')).
Proof.
  split; [|split; [|split]].
  - unfold format_output.
    destruct (df_empty (data_quality_output self)) eqn:Hempty; cbn [snd].
    + by rewrite Hempty.
    + destruct (df_empty (data_quality_output
                            (foldl format_output_step self lvl)));
        cbn [snd]; [done|].
      apply foldl_all_settled. intros d Hd. by apply foldl_settles.
  - intros Hempty. unfold format_output. by rewrite Hempty.
  - intros d h s Habs. unfold format_output_step.
    by rewrite bool_decide_eq_true_2.
  - intros d h s s'. rewrite format_output_body_run.
    destruct (read_csv _); [|done]. destruct (astype_Int64 _); [|done].
    intros [= <-]. cbn [set_output data_quality_output].
    by intros [Hne _]%elem_of_columns_formatted.
Qed.

End Format.

(** ** [get_summary] *)

Lemma severity_of_cases (total : nat) :
  (1000 < total ∧ severity_of total = "CRITICAL")
  ∨ (100 < total ≤ 1000 ∧ severity_of total = "HIGH")
  ∨ (10 < total ≤ 100 ∧ severity_of total = "MEDIUM")
  ∨ (total ≤ 10 ∧ severity_of total = "LOW").
Proof.
  unfold severity_of.
  destruct (1000 <? total) eqn:H1; [apply Nat.ltb_lt in H1; by left|].
  destruct (100 <? total) eqn:H2;
    [apply Nat.ltb_lt in H2; apply Nat.ltb_ge in H1; right; left; split; [lia|done]|].
  destruct (10 <? total) eqn:H3;
    [apply Nat.ltb_lt in H3; apply Nat.ltb_ge in H2; right; right; left;
     split; [lia|done]|].
  apply Nat.ltb_ge in H3. right; right; right. by split.
Qed.

(** C7: for a non-empty findings table [get_summary] reports the number of
    findings and a severity that is CRITICAL exactly above 1000, HIGH
    exactly in (100, 1000], MEDIUM exactly in (10, 100] and LOW exactly up
    to 10, hence a non-decreasing step function of the count. *)
Theorem get_summary_severity_breakpoints (self : DQ) :
  df_empty (data_quality_output self) = false →
  let total := df_len (data_quality_output self) in
  (get_summary self).1 !! "severity" = Some (SStr (severity_of total))
  ∧ (get_summary self).1 !! "total_issues" = Some (SInt total)
  ∧ (∀ n, severity_of n = "CRITICAL" ↔ 1000 < n)
  ∧ (∀ n, severity_of n = "HIGH" ↔ 100 < n ≤ 1000)
  ∧ (∀ n, severity_of n = "MEDIUM" ↔ 10 < n ≤ 100)
  ∧ (∀ n, severity_of n = "LOW" ↔ n ≤ 10)
  ∧ (∀ n m, n ≤ m →
            severity_rank (severity_of n) ≤ severity_rank (severity_of m)).
Proof.
  intros Hempty total. unfold get_summary. rewrite Hempty. cbn [fst].
  split; [apply lookup_insert_eq|].
  split.
  { rewrite lookup_insert_ne by done.
    repeat case_bool_decide; by simplify_map_eq. }
  assert (∀ n label, severity_of n = label →
            (label = "CRITICAL" ↔ 1000 < n) ∧ (label = "HIGH" ↔ 100 < n ≤ 1000)
            ∧ (label = "MEDIUM" ↔ 10 < n ≤ 100) ∧ (label = "LOW" ↔ n ≤ 10))
    as Hiff.
  { intros n label <-.
    destruct (severity_of_cases n) as [[? ->]|[[? ->]|[[? ->]|[? ->]]]];
      repeat split; intros; first [done | lia]. }
  split; [intros n; by apply (Hiff n)|].
  split; [intros n; by apply (Hiff n)|].
  split; [intros n; by apply (Hiff n)|].
  split; [intros n; by apply (Hiff n)|].
  intros n m Hnm.
  destruct (severity_of_cases n) as [[? ->]|[[? ->]|[[? ->]|[? ->]]]];
    destruct (severity_of_cases m) as [[? ->]|[[? ->]|[[? ->]|[? ->]]]];
    vm_compute severity_rank; lia.
Qed.

(** C9: on an empty findings table [get_summary] returns the zero-issue
    record: no issues, empty groupings, the success message and no severity
    entry, whereas the record of a non-empty table has one; the call leaves
    the object as it was. *)
Theorem get_summary_empty_shape (self : DQ) :
  df_empty (data_quality_output self) = true →
  (get_summary self).1
  = <["total_issues" := SInt 0]>
      (<["by_type" := SDict ∅]>
         (<["by_table" := SDict ∅]>
            (<["message" := SStr "No data quality issues found – pobeda!"]> ∅)))
  ∧ (get_summary self).1 !! "severity" = None
  ∧ (get_summary self).1 !! "message"
    = Some (SStr "No data quality issues found – pobeda!")
  ∧ (∀ other, df_empty (data_quality_output other) = false →
              is_Some ((get_summary other).1 !! "severity")
              ∧ (get_summary other).1 !! "message" = None)
  ∧ (∀ any, (get_summary any).2 = any).
Proof.
  intros Hempty. unfold get_summary at 1 2 3. rewrite Hempty. cbn [fst].
  split; [done|]. split; [by simplify_map_eq|]. split; [by simplify_map_eq|].
  split.
  - intros other Hother. unfold get_summary. rewrite Hother. cbn [fst].
    split; [rewrite lookup_insert_eq; by eexists|].
    rewrite lookup_insert_ne by done.
    repeat case_bool_decide; by simplify_map_eq.
  - intros any. unfold get_summary. cbv zeta.
    destruct (df_empty (data_quality_output any)); reflexivity.
Qed.

(** ** Units of work: failure and accumulation *)



Lemma grows_returns_accumulator s s' :
  grows s s' → returns_accumulator s (data_quality_output s', s').
Proof.
  intros (added & Hrows & Hid). unfold returns_accumulator. cbn [fst snd].
  split; [done|]. split; [|split].
  - unfold df_len. rewrite Hrows, length_app. lia.
  - intros i r Hi. exists r. split; [|done].
    rewrite Hrows. by apply lookup_app_l_Some.
  - unfold df_len. rewrite Hrows, length_app. intros Hlen.
    assert (added = []) as Hnil by (apply nil_length_inv; lia).
    by rewrite (Hid Hnil).
Qed.

Section Units.
Context `{Platform}.


Lemma cross_fail p s :
  (check_cross_consistency_body p s).1 = None →
  (check_cross_consistency_body p s).2 = s.
Proof.
  destruct (check_cross_consistency_body p s) as [r s'] eqn:Hb. simpl.
  intros ->. by apply check_cross_consistency_body_shape in Hb as [->|[? _]].
Qed.



Lemma val_range_grows th s u :
  grows s (try_except (check_val_range_body th u) s).
Proof.
  unfold try_except.
  destruct (check_val_range_body th u s) as [r s'] eqn:Hb. simpl.
  apply check_val_range_body_shape in Hb as [->|[_ Ha]];
    [apply grows_refl|by apply appended_grows].
Qed.

Lemma cross_grows s p :
  grows s (try_except (check_cross_consistency_body p) s).
Proof.
  unfold try_except.
  destruct (check_cross_consistency_body p s) as [r s'] eqn:Hb. simpl.
  apply check_cross_consistency_body_shape in Hb as [->|[_ Ha]];
    [apply grows_refl|by apply appended_grows].
Qed.

Lemma time_grows th s p :
  grows s (try_except (check_time_cross_consistency_body th p) s).
Proof.
  unfold try_except.
  destruct (check_time_cross_consistency_body th p s) as [r s'] eqn:Hb.
  simpl.
  apply check_time_cross_consistency_body_shape in Hb
    as [->|[_ [Ha|(s1 & Ha1 & Ha2)]]].
  - apply grows_refl.
  - by apply appended_grows.
  - eapply grows_trans; by apply appended_grows.
Qed.


(** C10: each checker returns the accumulated findings table itself,
    the one the object holds after the call: the rows held before the call
    are all in it, at their places, before any row the call added; when
    the call added no row it is the very table held before the call, not
    an empty one.  (Of an earlier row, the cells that are text,
    missing or numbers binary64 represents are as they were: [pd.concat]
    may convert an int64 column to float64.) *)
Theorem checkers_return_accumulator (self : DQ) :
  (∀ tables th, returns_accumulator self (check_val_range tables th self))
  ∧ (∀ tables, returns_accumulator self (check_cross_consistency tables self))
  ∧ (∀ tables th,
       returns_accumulator self (check_time_cross_consistency tables th self)).
Proof.
  split; [|split].
  - intros tables th. apply grows_returns_accumulator, foldl_grows.
    intros. apply val_range_grows.
  - intros tables. apply grows_returns_accumulator, foldl_grows.
    intros. apply cross_grows.
  - intros tables th. apply grows_returns_accumulator, foldl_grows.
    intros. apply time_grows.
Qed.

End Units.

(** * Further properties of the code *)

(** ** Findings only accumulate *)

Lemma accumulated_trans tags s1 s2 s3 :
  accumulated tags s1 s2 → accumulated tags s2 s3 → accumulated tags s1 s3.
Proof.
  intros H12 H23. induction H23 as [|s2 s3 s4 _ IH Hstep]; [done|].
  eapply accumulated_step; [by apply IH|done].
Qed.

Lemma accumulated_one tags s s' :
  appended_findings tags s s' → accumulated tags s s'.
Proof. intros Ha. eapply accumulated_step; [apply accumulated_refl|done]. Qed.

Lemma foldl_accumulated {U} tags (f : DQ → U → DQ) (units : list U) (s : DQ) :
  (∀ s u, accumulated tags s (f s u)) → accumulated tags s (foldl f s units).
Proof.
  intros Hf. revert s. induction units as [|u units IH]; intros s; simpl.
  - apply accumulated_refl.
  - eapply accumulated_trans; [apply Hf|apply IH].
Qed.

Lemma tagged_frame_assign_other tags c v df :
  c ≠ "WARNING_TYPE" → c ≠ "INPUT_TABLE" →
  tagged_frame tags df → tagged_frame tags (df_assign c v df).
Proof.
  intros H1 H2 (Hrows & Hc1 & Hc2). split; [|split].
  - intros r (r0 & -> & Hr0)%list_elem_of_fmap.
    rewrite !cell_insert_ne by done. by apply Hrows.
  - unfold df_assign. cbn [columns]. case_decide; [done|].
    apply elem_of_app. by left.
  - unfold df_assign. cbn [columns]. case_decide; [done|].
    apply elem_of_app. by left.
Qed.

Lemma elem_of_columns_df_assign c v df : c ∈ columns (df_assign c v df).
Proof.
  unfold df_assign. cbn [columns]. case_decide; [done|].
  apply elem_of_app. right. by left.
Qed.

Lemma elem_of_columns_df_assign_mono c c' v df :
  c' ∈ columns df → c' ∈ columns (df_assign c v df).
Proof.
  intros Hc. unfold df_assign. cbn [columns]. case_decide; [done|].
  apply elem_of_app. by left.
Qed.

(** Whatever frame receives them, the two labels written last by a checker
    make it a frame of findings. *)
Lemma tagged_frame_type_table tag t df :
  tagged_frame [VStr tag] (df_assign "WARNING_TYPE" (VStr tag)
                  (df_assign "INPUT_TABLE" (VStr t) df)).
Proof.
  split; [|split].
  - intros r (r1 & -> & (r0 & -> & Hr0)%list_elem_of_fmap)%list_elem_of_fmap.
    rewrite cell_insert_eq. split; [by left|].
    exists t. rewrite cell_insert_ne by done. apply cell_insert_eq.
  - apply elem_of_columns_df_assign.
  - apply elem_of_columns_df_assign_mono, elem_of_columns_df_assign.
Qed.

Lemma tagged_frame_type_value_table tag th t df :
  tagged_frame [VStr tag] (df_assign "WARNING_TYPE" (VStr tag)
                  (df_assign "INPUT_VALUE" th
                     (df_assign "INPUT_TABLE" (VStr t) df))).
Proof.
  split; [|split].
  - intros r (r2 & -> & (r1 & -> & (r0 & -> & Hr0)%list_elem_of_fmap)
                %list_elem_of_fmap)%list_elem_of_fmap.
    rewrite cell_insert_eq. split; [by left|].
    exists t. rewrite !cell_insert_ne by done. apply cell_insert_eq.
  - apply elem_of_columns_df_assign.
  - do 2 apply elem_of_columns_df_assign_mono. apply elem_of_columns_df_assign.
Qed.

Section Tagged.
Context `{Platform}.

Lemma tagged_frame_val_range_tag table_name target_col th warning df :
  tagged_frame val_range_tags (val_range_tag table_name target_col th warning df).
Proof.
  unfold val_range_tag. apply tagged_frame_assign_other; [done|done|].
  apply tagged_frame_type_value_table.
Qed.

Lemma tagged_frame_cross_tag a b df :
  tagged_frame cross_tags (cross_tag a b df).
Proof.
  unfold cross_tag. apply tagged_frame_assign_other; [done|done|].
  apply tagged_frame_type_table.
Qed.

Lemma tagged_frame_time_missing_tag a b th n pct df :
  tagged_frame time_tags (time_missing_tag a b th n pct df).
Proof.
  unfold time_missing_tag. apply tagged_frame_assign_other; [done|done|].
  apply tagged_frame_type_value_table.
Qed.

Lemma tagged_frame_time_infrequent_tag a th df :
  tagged_frame time_tags (time_infrequent_tag a th df).
Proof.
  unfold time_infrequent_tag. apply tagged_frame_assign_other; [done|done|].
  apply tagged_frame_type_value_table.
Qed.

Lemma val_range_accumulates th s u :
  accumulated val_range_tags s (try_except (check_val_range_body th u) s).
Proof.
  destruct u as [table_name target_col].
  unfold try_except, check_val_range_body. unfold_M. cbv beta iota.
  destruct (read_csv _) as [table|]; [|apply accumulated_refl].
  case_bool_decide; [apply accumulated_refl|].
  destruct (df_where _ _ _) as [bad|]; [|apply accumulated_refl].
  destruct (0 <? df_len bad) eqn:Hlen; [|apply accumulated_refl].
  destruct (iloc0 _) as [first|]; [|apply accumulated_refl].
  destruct (format_2f first) as [shown|]; [|apply accumulated_refl].
  apply accumulated_one. eexists. split; [apply tagged_frame_val_range_tag|].
  split; [|done].
  unfold val_range_tag. do 5 apply rows_df_assign_nonempty.
  by apply rows_nonempty_len.
Qed.

Lemma cross_accumulates s p :
  accumulated cross_tags s (try_except (check_cross_consistency_body p) s).
Proof.
  destruct p as [table1_name table2_name].
  unfold try_except, check_cross_consistency_body. unfold_M.
  cbv beta iota zeta.
  destruct (read_csv _) as [table1|]; [|apply accumulated_refl].
  destruct (read_csv _) as [table2|]; [|apply accumulated_refl].
  case_bool_decide; [apply accumulated_refl|].
  destruct (merge_left_indicator _ _ _) as [merged|]; [|apply accumulated_refl].
  destruct (0 <? df_len (left_only merged)) eqn:Hlen; [|apply accumulated_refl].
  apply accumulated_one. eexists. split; [apply tagged_frame_cross_tag|].
  split; [|done].
  unfold cross_tag. do 3 apply rows_df_assign_nonempty.
  by apply rows_df_drop_nonempty, rows_nonempty_len.
Qed.

End Tagged.

Section TaggedTime.
Context `{Platform}.
#[local] Opaque float_gt missing_pct.

Lemma time_accumulates th s p :
  accumulated time_tags s
    (try_except (check_time_cross_consistency_body th p) s).
Proof.
  destruct p as [A B]. unfold try_except.
  destruct (read_csv (data_path s +:+ A +:+ ".csv")) as [tA|] eqn:HA.
  2:{ unfold check_time_cross_consistency_body. unfold_M.
      cbv beta iota zeta. rewrite HA. apply accumulated_refl. }
  destruct (read_csv (data_path s +:+ B +:+ ".csv")) as [tB|] eqn:HB.
  2:{ unfold check_time_cross_consistency_body. unfold_M.
      cbv beta iota zeta. rewrite HA, HB. apply accumulated_refl. }
  set (common := set_and (columns tA) (columns tB)).
  destruct (decide (time_id_columns common = [])) as [Hids|Hids].
  { unfold check_time_cross_consistency_body. unfold_M.
    cbv beta iota zeta. rewrite HA, HB. fold common. rewrite Hids.
    apply accumulated_refl. }
  destruct (decide (time_date_columns common = [])) as [Hdates|Hdates].
  { unfold check_time_cross_consistency_body. unfold_M.
    cbv beta iota zeta. rewrite HA, HB. fold common. rewrite Hdates.
    rewrite orb_true_r. apply accumulated_refl. }
  destruct (check_time_cross_consistency_body_run th s A B tA tB HA HB
              Hids Hdates) as [Hfail|(Mf & F & date0 & _ & _ & _ & Hrun)].
  { rewrite Hfail. apply accumulated_refl. }
  cbv zeta in Hrun.
  set (pct := missing_pct (df_len Mf) _) in Hrun.
  set (c5 := (0 <? df_len Mf) && float_gt pct th) in Hrun.
  assert (c5 = true → rows (time_missing_tag A B th (df_len Mf) pct Mf) ≠ [])
    as H5.
  { intros [Hpos _]%andb_true_iff. unfold time_missing_tag.
    do 4 apply rows_df_assign_nonempty. by apply rows_nonempty_len. }
  assert ((0 <? df_len F) = true → rows (time_infrequent_tag A th F) ≠ [])
    as H6.
  { intros Hpos. unfold time_infrequent_tag.
    do 4 apply rows_df_assign_nonempty. by apply rows_nonempty_len. }
  pose proof (tagged_frame_time_missing_tag A B th (df_len Mf) pct Mf) as Ht5.
  pose proof (tagged_frame_time_infrequent_tag A th F) as Ht6.
  revert Hrun H5 H6 Ht5 Ht6.
  generalize (time_missing_tag A B th (df_len Mf) pct Mf).
  generalize (time_infrequent_tag A th F).
  clearbody c5. intros T6 T5 Hrun H5 H6 Ht5 Ht6. rewrite Hrun. cbn [snd].
  destruct c5, (0 <? df_len F).
  - eapply accumulated_step; [apply accumulated_one|].
    + exists T5. split; [done|]. split; [auto|done].
    + exists T6. split; [done|]. split; [auto|done].
  - apply accumulated_one. exists T5. split; [done|]. split; [auto|done].
  - apply accumulated_one. exists T6. split; [done|]. split; [auto|done].
  - apply accumulated_refl.
Qed.

End TaggedTime.

Lemma accumulated_keeps_config tags s s' :
  accumulated tags s s' → s' = set_output s (data_quality_output s').
Proof.
  induction 1 as [s|s1 s2 s3 _ IH (df & _ & _ & ->)].
  - by rewrite set_output_id.
  - rewrite IH at 1. by rewrite set_output_set_output.
Qed.

Lemma accumulated_columns tags s s' :
  accumulated tags s s' →
  columns (data_quality_output s) `prefix_of` columns (data_quality_output s').
Proof.
  induction 1 as [s|s1 s2 s3 _ IH (df & _ & _ & ->)]; [done|].
  etrans; [exact IH|]. cbn [set_output data_quality_output pd_concat columns].
  by eexists.
Qed.

Lemma accumulated_rows tags s s' :
  accumulated tags s s' →
  rows (data_quality_output s) `prefix_of` rows (data_quality_output s').
Proof.
  induction 1 as [s|s1 s2 s3 _ IH (df & _ & _ & ->)]; [done|].
  etrans; [exact IH|]. cbn [set_output data_quality_output pd_concat rows].
  by eexists.
Qed.

Lemma accumulated_mono tags tags' s s' :
  tags ⊆ tags' → accumulated tags s s' → accumulated tags' s s'.
Proof.
  intros Hsub. induction 1 as [s|s1 s2 s3 _ IH (df & (Hrows & Hc) & Hne & ->)].
  - apply accumulated_refl.
  - eapply accumulated_step; [exact IH|]. exists df. split; [|done].
    split; [|done]. intros r Hr. destruct (Hrows r Hr) as [Htag Ht].
    split; [by apply Hsub|done].
Qed.

(** The findings a run tagged [tag] appends show as a block of [tag] at the
    end of the WARNING_TYPE series. *)
Lemma accumulated_series tag s s' :
  accumulated [tag] s s' →
  ∃ n, series (data_quality_output s') "WARNING_TYPE"
       = series (data_quality_output s) "WARNING_TYPE" ++ replicate n tag
       ∧ df_len (data_quality_output s') = df_len (data_quality_output s) + n.
Proof.
  induction 1 as [s|s1 s2 s3 _ (n & IHs & IHl) (df & (Hrows & _) & _ & ->)].
  - exists 0. rewrite app_nil_r. split; [done|lia].
  - exists (n + df_len df). unfold series, df_len in *.
    cbn [set_output data_quality_output pd_concat rows].
    rewrite fmap_app, length_app, IHs, IHl, replicate_add, <- app_assoc.
    split; [|lia]. do 2 f_equal.
    assert (∀ r, r ∈ rows df → cell r "WARNING_TYPE" = tag) as Hall.
    { intros r Hr. destruct (Hrows r Hr) as [Htag _].
      by apply list_elem_of_singleton in Htag. }
    clear -Hall. induction (rows df) as [|r l IH]; [done|]. cbn.
    rewrite (Hall r) by (by left). f_equal. apply IH.
    intros r' Hr'. apply Hall. by right.
Qed.

Lemma accumulated_well_tagged s s' :
  accumulated warning_types s s' →
  well_tagged (data_quality_output s) → well_tagged (data_quality_output s').
Proof.
  induction 1 as [s|s1 s2 s3 _ IH (df & (Hrows & Hc1 & Hc2) & Hne & ->)];
    [done|].
  intros Hs1. destruct (IH Hs1) as [Hr2 Hc]. split.
  - cbn [set_output data_quality_output pd_concat rows].
    intros r [Hr|Hr]%elem_of_app; [by apply Hr2|by apply Hrows].
  - intros _. cbn [set_output data_quality_output pd_concat columns].
    assert (∀ c, c ∈ columns df →
                 c ∈ columns (data_quality_output s2) ++
                     List.filter
                       (λ c, negb (bool_decide
                                     (c ∈ columns (data_quality_output s2))))
                       (columns df)) as Hin.
    { intros c Hcdf. apply elem_of_app.
      destruct (decide (c ∈ columns (data_quality_output s2))); [by left|].
      right. apply elem_of_bfilter. split; [done|].
      by rewrite bool_decide_eq_false_2. }
    split; by apply Hin.
Qed.

Lemma well_tagged_empty_frame : well_tagged empty_frame.
Proof. split; [by intros r ?%elem_of_nil|done]. Qed.

(** ** What [format_output] keeps and what it writes *)



Lemma length_rows_formatted d level casted out :
  length casted = length (rows out) →
  df_len (formatted d level casted out) = df_len out.
Proof.
  intros Hlen. unfold df_len, formatted, df_drop, df_assign, df_assign_series.
  cbn [rows]. rewrite !length_fmap, length_zip_with. lia.
Qed.




Lemma elem_of_columns_formatted_keep d level casted out c :
  c ∈ columns out → c ≠ d +:+ "_ID" →
  c ∈ columns (formatted d level casted out).
Proof.
  intros Hc Hne. unfold formatted, df_drop, df_assign, df_assign_series.
  cbn [columns]. apply elem_of_bfilter.
  split; [|by rewrite bool_decide_eq_false_2].
  repeat case_decide; rewrite ?elem_of_app; tauto.
Qed.


Lemma untouched_by_last_char d c a :
  Str.last_char c = Some a →
  a ≠ "D"%char → a ≠ "L"%char → (∀ k, a ≠ pretty_N_char k) →
  untouched_by d c.
Proof.
  intros Hc HD HL Hdigit. split; [|split].
  - intros ->. rewrite last_char_app in Hc by done. by injection Hc as <-.
  - intros ->. rewrite last_char_app in Hc by done. by injection Hc as <-.
  - intros n ->. destruct (last_char_pretty_nat n) as (k & _ & Hk).
    assert (pretty n ≠ "") as Hne by (intros Hn; by rewrite Hn in Hk).
    rewrite last_char_app in Hc by (by destruct (pretty n)).
    rewrite last_char_app, Hk in Hc by done.
    injection Hc as <-. by eapply Hdigit.
Qed.

Lemma metadata_untouched d c :
  c ∈ ["INPUT_TABLE"; "INPUT_COLUMN"; "INPUT_VALUE"; "WARNING_TYPE"; "WARNING"] →
  untouched_by d c.
Proof.
  intros Hc.
  assert (∃ a, Str.last_char c = Some a ∧ a ≠ "D"%char ∧ a ≠ "L"%char
               ∧ ∀ k, a ≠ pretty_N_char k) as (a & Ha & HD & HL & Hk).
  { repeat (apply elem_of_cons in Hc as [->|Hc];
            [eexists; split; [reflexivity|];
             split; [done|]; split; [done|];
             intros k; unfold pretty_N_char; by repeat case_match|]).
    by apply elem_of_nil in Hc. }
  by eapply untouched_by_last_char.
Qed.

Section FormatKeeps.
Context `{Platform}.

Lemma format_output_step_keeps s e c :
  untouched_by e.1 c →
  let s' := format_output_step s e in
  s' = set_output s (data_quality_output s')
  ∧ df_len (data_quality_output s') = df_len (data_quality_output s)
  ∧ series (data_quality_output s') c = series (data_quality_output s) c
  ∧ (c ∈ columns (data_quality_output s) →
     c ∈ columns (data_quality_output s')).
Proof.
  intros (Hid & Hlvl & Hlvlid). cbv zeta.
  destruct (format_output_step_cases s e) as [->|(level & casted & Hc & ->)].
  - by rewrite set_output_id.
  - cbn [set_output data_quality_output].
    assert (length casted = length (rows (data_quality_output s))) as Hlen.
    { apply astype_Int64_length in Hc. rewrite Hc. unfold series.
      by rewrite length_fmap. }
    split; [done|]. split; [by apply length_rows_formatted|].
    split; [by apply series_formatted|].
    intros Hin. by apply elem_of_columns_formatted_keep.
Qed.

Lemma format_output_keeps lvl self c :
  (∀ e, e ∈ lvl → untouched_by e.1 c) →
  let s' := (format_output lvl self).2 in
  s' = set_output self (data_quality_output s')
  ∧ df_len (data_quality_output s') = df_len (data_quality_output self)
  ∧ series (data_quality_output s') c = series (data_quality_output self) c
  ∧ (c ∈ columns (data_quality_output self) →
     c ∈ columns (data_quality_output s')).
Proof.
  intros Hall. cbv zeta. unfold format_output.
  destruct (df_empty _); cbn [snd]; [by rewrite set_output_id|].
  revert self. induction lvl as [|e lvl IH]; intros self.
  - cbn. by rewrite set_output_id.
  - cbn [foldl].
    destruct (format_output_step_keeps self e c) as (Hcfg & Hl & Hs & Hc);
      [apply Hall; by left|].
    destruct (IH (λ e' He', Hall e' (list_elem_of_further _ _ _ He'))
                 (format_output_step self e)) as (Hcfg' & Hl' & Hs' & Hc').
    split; [|split; [|split]].
    + rewrite Hcfg' at 1. rewrite Hcfg at 1. by rewrite set_output_set_output.
    + by rewrite Hl', Hl.
    + by rewrite Hs', Hs.
    + auto.
Qed.

End FormatKeeps.

Section FormatClaims.
Context `{Platform}.


Lemma format_output_well_tagged lvl self :
  well_tagged (data_quality_output self) →
  well_tagged (data_quality_output (format_output lvl self).2).
Proof.
  intros [Hrows Hcols].
  destruct (format_output_keeps lvl self "WARNING_TYPE")
    as (_ & Hlen & Hwt & Hcwt);
    [intros e _; apply metadata_untouched; compute_done|].
  destruct (format_output_keeps lvl self "INPUT_TABLE")
    as (_ & _ & Hit & Hcit);
    [intros e _; apply metadata_untouched; compute_done|].
  cbv zeta in *. split.
  - intros r Hr. split.
    + assert (cell r "WARNING_TYPE"
                ∈ series (data_quality_output (format_output lvl self).2)
                    "WARNING_TYPE") as Hin
        by (apply list_elem_of_fmap; by exists r).
      rewrite Hwt in Hin. apply list_elem_of_fmap in Hin as (r0 & -> & Hr0).
      by apply Hrows.
    + assert (cell r "INPUT_TABLE"
                ∈ series (data_quality_output (format_output lvl self).2)
                    "INPUT_TABLE") as Hin
        by (apply list_elem_of_fmap; by exists r).
      rewrite Hit in Hin. apply list_elem_of_fmap in Hin as (r0 & -> & Hr0).
      by apply Hrows.
  - intros Hne.
    assert (rows (data_quality_output self) ≠ []) as Hne0.
    { intros Hnil. unfold df_len in Hlen. rewrite Hnil in Hlen.
      by apply nil_length_inv in Hlen. }
    destruct (Hcols Hne0). auto.
Qed.

(** X2: [format_output] never loses a finding and never touches its
    metadata: whatever the dimension names, the table keeps its number of
    rows and the cells of INPUT_TABLE, INPUT_COLUMN, INPUT_VALUE,
    WARNING_TYPE and WARNING, the object keeps its configuration, and so does
    every column that is none of [{DIM}_ID], [{DIM}_LVL], [{DIM}_LVL_ID<n>]
    for a configured dimension. *)
Theorem format_output_keeps_findings (lvl : list (string * string)) (self : DQ) :
  let s' := (format_output lvl self).2 in
  s' = set_output self (data_quality_output s')
  ∧ df_len (data_quality_output s') = df_len (data_quality_output self)
  ∧ (∀ c, c ∈ ["INPUT_TABLE"; "INPUT_COLUMN"; "INPUT_VALUE"; "WARNING_TYPE";
               "WARNING"] →
          series (data_quality_output s') c
          = series (data_quality_output self) c
          ∧ (c ∈ columns (data_quality_output self) →
             c ∈ columns (data_quality_output s')))
  ∧ (∀ c, (∀ e, e ∈ lvl → untouched_by e.1 c) →
          series (data_quality_output s') c
          = series (data_quality_output self) c
          ∧ (c ∈ columns (data_quality_output self) →
             c ∈ columns (data_quality_output s')))
  ∧ (well_tagged (data_quality_output self) →
     well_tagged (data_quality_output s')).
Proof.
  cbv zeta.
  destruct (format_output_keeps lvl self "WARNING") as (Hcfg & Hlen & _);
    [intros e _; apply metadata_untouched; compute_done|].
  split; [done|]. split; [done|]. split; [|split].
  - intros c Hc.
    destruct (format_output_keeps lvl self c) as (_ & _ & Hs & Hin);
      [intros e _; by apply metadata_untouched|]. done.
  - intros c Hc.
    by destruct (format_output_keeps lvl self c Hc) as (_ & _ & Hs & Hin).
  - apply format_output_well_tagged.
Qed.

End FormatClaims.

(** ** The checkers and [check] as a whole *)

Section Whole.
Context `{Platform}.

Lemma val_range_tags_sub : val_range_tags ⊆ warning_types.
Proof. intros v ->%list_elem_of_singleton. compute_done. Qed.

Lemma cross_tags_sub : cross_tags ⊆ warning_types.
Proof. intros v ->%list_elem_of_singleton. compute_done. Qed.

Lemma time_tags_sub : time_tags ⊆ warning_types.
Proof. intros v ->%list_elem_of_singleton. compute_done. Qed.

Lemma check_val_range_accumulated tables th self :
  accumulated val_range_tags self (check_val_range tables th self).2.
Proof. apply foldl_accumulated. intros. apply val_range_accumulates. Qed.

Lemma check_cross_consistency_accumulated tables self :
  accumulated cross_tags self (check_cross_consistency tables self).2.
Proof. apply foldl_accumulated. intros. apply cross_accumulates. Qed.

Lemma check_time_cross_consistency_accumulated tables th self :
  accumulated time_tags self (check_time_cross_consistency tables th self).2.
Proof. apply foldl_accumulated. intros. apply time_accumulates. Qed.

(** X3: the three checkers only ever append findings: the configuration
    of the object is left as it was, the columns the table had before the
    call open the columns it has after it, in the same order, no row is
    lost, and if every row was a tagged finding before, every row is one
    after.  When the numbers of the table held before are numbers binary64
    represents, its rows open the rows of the table after the call. *)
Theorem checkers_only_append (self : DQ) :
  let keeps (res : DataFrame * DQ) :=
    res.2 = set_output self res.1
    ∧ columns (data_quality_output self) `prefix_of` columns res.1
    ∧ (binary64_frame (data_quality_output self) →
       rows (data_quality_output self) `prefix_of` rows res.1)
    ∧ df_len (data_quality_output self) ≤ df_len res.1
    ∧ (well_tagged (data_quality_output self) → well_tagged res.1) in
  (∀ tables th, keeps (check_val_range tables th self))
  ∧ (∀ tables, keeps (check_cross_consistency tables self))
  ∧ (∀ tables th, keeps (check_time_cross_consistency tables th self)).
Proof.
  assert (∀ res : DataFrame * DQ,
            res.1 = data_quality_output res.2 →
            accumulated warning_types self res.2 →
            res.2 = set_output self res.1
            ∧ columns (data_quality_output self) `prefix_of` columns res.1
            ∧ (binary64_frame (data_quality_output self) →
               rows (data_quality_output self) `prefix_of` rows res.1)
            ∧ df_len (data_quality_output self) ≤ df_len res.1
            ∧ (well_tagged (data_quality_output self) → well_tagged res.1))
    as Hkeeps.
  { intros [df s'] Hdf Hacc. cbn [fst snd] in *. subst df.
    split; [by eapply accumulated_keeps_config|].
    split; [by eapply accumulated_columns|].
    split; [intros _; by eapply accumulated_rows|].
    split; [|by apply accumulated_well_tagged].
    apply accumulated_rows in Hacc as [k Hk]. unfold df_len.
    rewrite Hk, length_app. lia. }
  cbv zeta. split; [|split].
  - intros tables th. apply Hkeeps; [done|].
    eapply accumulated_mono;
      [apply val_range_tags_sub|apply check_val_range_accumulated].
  - intros tables. apply Hkeeps; [done|].
    eapply accumulated_mono;
      [apply cross_tags_sub|apply check_cross_consistency_accumulated].
  - intros tables th. apply Hkeeps; [done|].
    eapply accumulated_mono;
      [apply time_tags_sub|apply check_time_cross_consistency_accumulated].
Qed.

(** the stages of [check]: one block of findings per configured checker,
    then the formatter *)
Lemma check_stages self :
  ∃ s1 s2 s3,
    accumulated val_range_tags (set_output self empty_frame) s1
    ∧ accumulated cross_tags s1 s2
    ∧ accumulated time_tags s2 s3
    ∧ check self = format_output (lvl_data s3) s3
    ∧ (it_val_range (input_tables self) = None
       ∨ th_val_range (th_values self) = None →
       s1 = set_output self empty_frame)
    ∧ (it_cross_consistency (input_tables self) = None → s2 = s1)
    ∧ (it_time_cross_consistency (input_tables self) = None
       ∨ th_time_cross_consistency (th_values self) = None → s3 = s2).
Proof.
  unfold check.
  set (s0 := set_output self empty_frame).
  set (s1 := match it_val_range (input_tables s0),
                   th_val_range (th_values s0) with
             | Some tables, Some th => (check_val_range tables th s0).2
             | _, _ => s0
             end).
  set (s2 := match it_cross_consistency (input_tables s1) with
             | Some tables => (check_cross_consistency tables s1).2
             | None => s1
             end).
  set (s3 := match it_time_cross_consistency (input_tables s2),
                   th_time_cross_consistency (th_values s2) with
             | Some tables, Some th =>
                 (check_time_cross_consistency tables th s2).2
             | _, _ => s2
             end).
  exists s1, s2, s3.
  assert (accumulated val_range_tags s0 s1) as H1.
  { unfold s1. destruct (it_val_range _); [|apply accumulated_refl].
    destruct (th_val_range _); [|apply accumulated_refl].
    apply check_val_range_accumulated. }
  assert (accumulated cross_tags s1 s2) as H2.
  { unfold s2. destruct (it_cross_consistency _); [|apply accumulated_refl].
    apply check_cross_consistency_accumulated. }
  assert (accumulated time_tags s2 s3) as H3.
  { unfold s3. destruct (it_time_cross_consistency _); [|apply accumulated_refl].
    destruct (th_time_cross_consistency _); [|apply accumulated_refl].
    apply check_time_cross_consistency_accumulated. }
  assert (input_tables s1 = input_tables self ∧ th_values s1 = th_values self)
    as [Hi1 Ht1].
  { apply accumulated_keeps_config in H1. by rewrite H1. }
  assert (input_tables s2 = input_tables self ∧ th_values s2 = th_values self)
    as [Hi2 Ht2].
  { apply accumulated_keeps_config in H2. rewrite H2. by rewrite <- Hi1, <- Ht1. }
  split; [done|]. split; [done|]. split; [done|]. split; [done|].
  split; [|split].
  - unfold s1. cbn [s0 set_output input_tables th_values].
    intros [-> | ->]; [done|].
    destruct (it_val_range (input_tables self)); reflexivity.
  - unfold s2. rewrite Hi1. by intros ->.
  - unfold s3. rewrite Hi2, Ht2.
    intros [-> | ->]; [done|].
    destruct (it_time_cross_consistency (input_tables self)); reflexivity.
Qed.

(** the object just before [check] formats it *)
Lemma check_before_format self :
  ∃ s3, accumulated warning_types (set_output self empty_frame) s3
        ∧ check self = format_output (lvl_data s3) s3.
Proof.
  destruct (check_stages self) as (s1 & s2 & s3 & H1 & H2 & H3 & Hc & _).
  exists s3. split; [|done].
  eapply accumulated_trans;
    [|eapply accumulated_mono; [apply time_tags_sub|exact H3]].
  eapply accumulated_trans;
    [eapply accumulated_mono; [apply val_range_tags_sub|exact H1]
    |eapply accumulated_mono; [apply cross_tags_sub|exact H2]].
Qed.

Lemma check_keeps_config self :
  (check self).2 = set_output self (data_quality_output (check self).2).
Proof.
  destruct (check_before_format self) as (s3 & Hacc & ->).
  destruct (format_output_keeps (lvl_data s3) s3 "WARNING") as (Hcfg & _);
    [intros e _; apply metadata_untouched; compute_done|].
  cbv zeta in Hcfg. rewrite Hcfg at 1.
  apply accumulated_keeps_config in Hacc. rewrite Hacc at 1.
  by rewrite !set_output_set_output.
Qed.

(** X4: [check] starts from an empty findings table and changes nothing
    but that table, so what the table held before the run does not matter
    and a second run rebuilds exactly the result of the first. *)
Theorem check_rebuilds_findings (self : DQ) :
  (∀ df, check (set_output self df) = check self)
  ∧ check (check self).2 = check self
  ∧ (check self).2 = set_output self (data_quality_output (check self).2).
Proof.
  assert (∀ df, check (set_output self df) = check self) as Hreset by done.
  split; [done|]. split; [|apply check_keeps_config].
  rewrite check_keeps_config. apply Hreset.
Qed.

(** X5: every row of the findings table [check] builds carries one of the
    three tags [val_range], [cross_consistency], [time_cross_consistency]
    and the name of its table as text; a table with at least one row has the
    columns WARNING_TYPE and INPUT_TABLE. *)
Theorem check_findings_are_tagged (self : DQ) :
  let out := data_quality_output (check self).2 in
  (∀ r, r ∈ rows out →
        cell r "WARNING_TYPE" ∈ warning_types
        ∧ ∃ t, cell r "INPUT_TABLE" = VStr t)
  ∧ (rows out ≠ [] → "WARNING_TYPE" ∈ columns out ∧ "INPUT_TABLE" ∈ columns out).
Proof.
  cbv zeta. destruct (check_before_format self) as (s3 & Hacc & ->).
  apply format_output_well_tagged.
  eapply accumulated_well_tagged; [exact Hacc|].
  apply well_tagged_empty_frame.
Qed.

End Whole.

(** ** [get_summary]: the groupings *)

Lemma value_counts_lookup (s : list value) (v : value) :
  value_counts s !! v
  = if decide (v = VNull) then None
    else if decide (occurrences v s = 0) then None
    else Some (occurrences v s).
Proof.
  unfold occurrences. induction s as [|x s IH]; cbn [value_counts foldr].
  - rewrite lookup_empty. by repeat case_decide.
  - fold (value_counts s). cbn [List.filter].
    destruct (decide (x = v)) as [->|Hxv].
    + rewrite bool_decide_eq_true_2 by done. cbn [length].
      destruct v as [|q|t]; [by rewrite IH|..];
        rewrite lookup_insert_eq, IH;
        repeat case_decide; simpl; try done; by (f_equal; lia).
    + rewrite bool_decide_eq_false_2 by done.
      destruct x as [|q|t]; [done|..]; by rewrite lookup_insert_ne.
Qed.

Lemma occurrences_partition (s : list value) :
  (∀ v, v ∈ s → v ∈ warning_types) →
  length s
  = occurrences (VStr "val_range") s
    + occurrences (VStr "cross_consistency") s
    + occurrences (VStr "time_cross_consistency") s.
Proof.
  unfold occurrences. induction s as [|x s IH]; intros Hall; [done|].
  cbn [List.filter length].
  rewrite IH by (intros v Hv; apply Hall; by right).
  assert (x ∈ warning_types) as Hx by (apply Hall; by left).
  unfold warning_types in Hx.
  repeat (apply elem_of_cons in Hx as [->|Hx];
          [repeat case_bool_decide; try done; cbn [length]; lia|]).
  by apply elem_of_nil in Hx.
Qed.

(** X6: for a non-empty table of tagged findings, [get_summary] groups
    them: [by_type] and [by_table] map every value of WARNING_TYPE and of
    INPUT_TABLE to its number of occurrences, values that do not occur
    and missing cells have no entry, every key of [by_type] is one of the three
    tags, and the three counts add up to [total_issues]. *)
Theorem get_summary_groups_findings (self : DQ) :
  df_empty (data_quality_output self) = false →
  well_tagged (data_quality_output self) →
  let out := data_quality_output self in
  let count_type v := occurrences v (series out "WARNING_TYPE") in
  ∃ by_type by_table,
    (get_summary self).1 !! "by_type" = Some (SDict by_type)
    ∧ (get_summary self).1 !! "by_table" = Some (SDict by_table)
    ∧ (∀ v n, by_type !! v = Some n ↔
              v ≠ VNull ∧ 0 < n ∧ n = count_type v)
    ∧ (∀ v n, by_table !! v = Some n ↔
              v ≠ VNull ∧ 0 < n ∧ n = occurrences v (series out "INPUT_TABLE"))
    ∧ (∀ v, is_Some (by_type !! v) → v ∈ warning_types)
    ∧ (get_summary self).1 !! "total_issues"
      = Some (SInt (count_type (VStr "val_range")
                    + count_type (VStr "cross_consistency")
                    + count_type (VStr "time_cross_consistency"))).
Proof.
  intros Hempty [Hrows Hcols]. cbv zeta.
  assert (rows (data_quality_output self) ≠ []) as Hne.
  { unfold df_empty in Hempty. apply orb_false_iff in Hempty as [_ He].
    by apply bool_decide_eq_false in He. }
  destruct (Hcols Hne) as [Hwt Hit].
  exists (value_counts (series (data_quality_output self) "WARNING_TYPE")),
         (value_counts (series (data_quality_output self) "INPUT_TABLE")).
  assert (∀ s v n, value_counts s !! v = Some n ↔
                   v ≠ VNull ∧ 0 < n ∧ n = occurrences v s) as Hvc.
  { intros s v n. rewrite value_counts_lookup.
    destruct (decide (v = VNull)) as [->|Hv].
    - split; [done|]. by intros (? & _).
    - destruct (decide (occurrences v s = 0)) as [H0|H0].
      + split; [done|]. intros (_ & Hpos & ->). lia.
      + split.
        * intros [= <-]. split; [done|]. split; [lia|done].
        * by intros (_ & _ & ->). }
  unfold get_summary. rewrite Hempty. cbn [fst].
  rewrite !bool_decide_eq_true_2 by done.
  split; [by simplify_map_eq|]. split; [by simplify_map_eq|].
  split; [apply Hvc|]. split; [apply Hvc|]. split.
  - intros v [n Hn]. apply Hvc in Hn as (_ & Hpos & ->).
    unfold occurrences in Hpos.
    destruct (List.filter _ _) as [|x l] eqn:Hf; [simpl in Hpos; lia|].
    assert (x ∈ List.filter (λ x, bool_decide (x = v))
                  (series (data_quality_output self) "WARNING_TYPE"))
      as [Hx ->%bool_decide_eq_true]%elem_of_bfilter by (rewrite Hf; by left).
    apply list_elem_of_fmap in Hx as (r & -> & Hr). by apply Hrows.
  - rewrite lookup_insert_ne by done.
    rewrite lookup_insert_ne by done.
    rewrite lookup_insert_ne by done.
    rewrite lookup_insert_eq. do 2 f_equal.
    unfold df_len.
    rewrite <- (length_fmap (λ r, cell r "WARNING_TYPE")).
    apply occurrences_partition.
    intros v (r & -> & Hr)%list_elem_of_fmap. by apply Hrows.
Qed.

(** ** Edge cases of the cross-consistency unit *)

Lemma anti_join_nil_iff cols t1 t2 :
  anti_join cols t1 t2 = [] ↔ ∀ k, k ∈ keys cols t1 → k ∈ keys cols t2.
Proof.
  split.
  - intros Hnil k Hk. destruct (decide (k ∈ keys cols t2)) as [|Hn]; [done|].
    assert (k ∈ key_of cols <$> anti_join cols t1 t2) as Hin
      by (by apply keys_anti_join).
    rewrite Hnil in Hin. by apply elem_of_nil in Hin.
  - intros Hall. destruct (anti_join cols t1 t2) as [|r l] eqn:Ha; [done|].
    assert (key_of cols r ∈ key_of cols <$> anti_join cols t1 t2) as Hin
      by (rewrite Ha; by left).
    apply keys_anti_join in Hin as [Hin Hn]. exfalso. by apply Hn, Hall.
Qed.




Section CrossEdges.
Context `{Platform}.

Lemma check_cross_consistency_body_silent self A B tA tB r s' :
  read_csv (data_path self +:+ A +:+ ".csv") = Some tA →
  read_csv (data_path self +:+ B +:+ ".csv") = Some tB →
  anti_join (common_id_cols tA tB) tA tB = [] →
  check_cross_consistency_body (A, B) self = (r, s') → s' = self.
Proof.
  intros HA HB Hnil. unfold check_cross_consistency_body. unfold_M.
  cbv beta iota zeta. rewrite HA, HB.
  case_bool_decide; [by intros [= <- <-]|].
  destruct (merge_left_indicator _ _ _) as [merged|] eqn:Hm;
    [|by intros [= <- <-]].
  apply merge_anti_join in Hm as [_ Hlen]; [|by apply common_id_cols_no_tag].
  rewrite Hlen, Hnil. by intros [= <- <-].
Qed.

(** X7: a table is never inconsistent with itself: when a name occurs
    twice in the list given to [check_cross_consistency], the unit pairing
    it with itself leaves the findings table as it was. *)
Theorem check_cross_consistency_self_pair (A : string) (self : DQ) :
  try_except (check_cross_consistency_body (A, A)) self = self
  ∧ (∀ t cols, anti_join cols t t = []).
Proof.
  assert (∀ t cols, anti_join cols t t = []) as Hself
    by (intros t cols; by apply anti_join_nil_iff).
  split; [|done]. unfold try_except.
  destruct (check_cross_consistency_body (A, A) self) as [r s'] eqn:Hb.
  cbn [snd].
  destruct (read_csv (data_path self +:+ A +:+ ".csv")) as [tA|] eqn:HA.
  - exact (check_cross_consistency_body_silent self A A tA tA _ _
             HA HA (Hself _ _) Hb).
  - unfold check_cross_consistency_body in Hb. unfold_M.
    cbv beta iota zeta in Hb. rewrite HA in Hb. by injection Hb as <- <-.
Qed.



End CrossEdges.

(** ** Edge cases of the value-range unit *)

Lemma length_bfilter_mono {A} (f g : A → bool) (l : list A) :
  (∀ x, x ∈ l → f x = true → g x = true) →
  length (List.filter f l) ≤ length (List.filter g l).
Proof.
  induction l as [|a l IH]; intros Himp; [done|]. cbn [List.filter].
  assert (length (List.filter f l) ≤ length (List.filter g l)) as Hl
    by (apply IH; intros x Hx; apply Himp; by right).
  destruct (f a) eqn:Hfa.
  - rewrite (Himp a (list_elem_of_here _ _) Hfa). simpl. lia.
  - destruct (g a); simpl; lia.
Qed.

Section ValRangeEdges.
Context `{Platform}.

Lemma check_val_range_body_rows th self self' table_name target_col table :
  read_csv (data_path self +:+ table_name +:+ ".csv") = Some table →
  target_col ∈ columns table →
  check_val_range_body th (table_name, target_col) self = (Some tt, self') →
  ∃ warning,
    rows (data_quality_output self')
    = rows (data_quality_output self) ++
      (val_range_row table_name target_col th warning
         <$> List.filter (below th target_col) (rows table)).
Proof.
  intros Hload Hcol Hbody.
  unfold check_val_range_body in Hbody. unfold_M.
  cbv beta iota in Hbody. rewrite Hload in Hbody. cbv beta iota in Hbody.
  rewrite bool_decide_eq_false_2 in Hbody by (by intros Hn; apply Hn).
  destruct (df_where (lt_scalar th) target_col table) as [bad|] eqn:Hbad;
    [|discriminate].
  apply df_where_rows in Hbad as [_ Hrows].
  assert (rows bad = List.filter (below th target_col) (rows table)) as Hf.
  { rewrite Hrows. apply filter_ext. intros r. apply below_lt_scalar. }
  destruct (0 <? df_len bad) eqn:Hlen.
  - destruct (iloc0 _) as [first|]; [|discriminate].
    destruct (format_2f first) as [shown|]; [|discriminate].
    injection Hbody as <-. eexists.
    cbn [set_output data_quality_output pd_concat rows].
    by rewrite rows_val_range_tag, Hf.
  - injection Hbody as <-. exists "".
    apply Nat.ltb_ge in Hlen. unfold df_len in Hlen. rewrite <- Hf.
    assert (rows bad = []) as -> by (apply nil_length_inv; lia).
    by rewrite app_nil_r.
Qed.

(** X10: a unit of [check_val_range] whose table cannot be read or whose
    column is not in the table changes nothing, so a call all of whose units
    are of that kind returns the findings table it was given. *)
Theorem check_val_range_skips_unusable_units
    (tables : list (string * string)) (th : Qc) (self : DQ) :
  Forall (λ u, match read_csv (data_path self +:+ u.1 +:+ ".csv") with
               | None => True
               | Some table => u.2 ∉ columns table
               end) tables →
  check_val_range tables th self = (data_quality_output self, self).
Proof.
  intros Hall. unfold check_val_range.
  assert (foldl (λ s u, try_except (check_val_range_body th u) s) self tables
          = self) as ->; [|done].
  induction Hall as [|[table_name target_col] tables Hu _ IH]; [done|].
  cbn [foldl]. cbn [fst snd] in Hu.
  assert (try_except (check_val_range_body th (table_name, target_col)) self
          = self) as ->; [|exact IH].
  unfold try_except, check_val_range_body. unfold_M. cbv beta iota.
  destruct (read_csv _) as [table|]; [|done].
  by rewrite bool_decide_eq_true_2.
Qed.

(** X11: raising the threshold of [check_val_range] never loses a finding:
    of two completed units on the same table and column, the one with the
    larger threshold flags every row the other flags; and a row whose cell is
    missing is flagged under no threshold.  The table and the thresholds
    hold numbers binary64 represents. *)
Theorem check_val_range_threshold_monotone
    (th1 th2 : Qc) (self s1 s2 : DQ) (table_name target_col : string)
    (table : DataFrame) :
  read_csv (data_path self +:+ table_name +:+ ".csv") = Some table →
  target_col ∈ columns table →
  check_val_range_body th1 (table_name, target_col) self = (Some tt, s1) →
  check_val_range_body th2 (table_name, target_col) self = (Some tt, s2) →
  (th1 ≤ th2)%Qc →
  binary64 th1 → binary64 th2 → binary64_frame table →
  let flagged th := List.filter (below th target_col) (rows table) in
  (∀ r, r ∈ flagged th1 → r ∈ flagged th2)
  ∧ df_len (data_quality_output s1) ≤ df_len (data_quality_output s2)
  ∧ (∀ r, cell r target_col = VNull →
          (r ∉ flagged th1) ∧ (r ∉ flagged th2))
  ∧ (∃ kept1 kept2 w1 w2,
       length kept1 = df_len (data_quality_output self)
       ∧ length kept2 = df_len (data_quality_output self)
       ∧ rows (data_quality_output s1)
         = kept1 ++ (val_range_row table_name target_col th1 w1
                       <$> flagged th1)
       ∧ rows (data_quality_output s2)
         = kept2 ++ (val_range_row table_name target_col th2 w2
                       <$> flagged th2)).
Proof.
  intros Hload Hcol H1 H2 Hle _ _ _ flagged.
  destruct (check_val_range_body_rows _ _ _ _ _ _ Hload Hcol H1) as [w1 Hr1].
  destruct (check_val_range_body_rows _ _ _ _ _ _ Hload Hcol H2) as [w2 Hr2].
  assert (∀ r, below th1 target_col r = true → below th2 target_col r = true)
    as Hmono.
  { intros r. unfold below. destruct (cell r target_col) as [|q|t]; try done.
    rewrite !bool_decide_eq_true. intros Hq. by eapply Qclt_le_trans. }
  split; [|split; [|split]].
  - intros r. unfold flagged. rewrite !elem_of_bfilter.
    intros [Hr Hb]. split; [done|by apply Hmono].
  - unfold df_len. rewrite Hr1, Hr2, !length_app, !length_fmap.
    apply Nat.add_le_mono_l, length_bfilter_mono. auto.
  - intros r Hr. unfold flagged. rewrite !elem_of_bfilter. unfold below.
    rewrite Hr. by split; intros [_ ?].
  - exists (rows (data_quality_output self)), (rows (data_quality_output self)),
           w1, w2. done.
Qed.

End ValRangeEdges.

(** ** Units without usable key columns *)

Section NoKeys.
Context `{Platform}.

(** X12: a pair of tables without the key columns a checker looks for is
    passed over without an error and without a finding: no common column
    with ID in its name for [check_cross_consistency]; no common
    product or location ID column, or no common column ending in [_DT], for
    [check_time_cross_consistency]. *)
Theorem units_without_key_columns_are_skipped
    (self : DQ) (A B : string) (tA tB : DataFrame) :
  read_csv (data_path self +:+ A +:+ ".csv") = Some tA →
  read_csv (data_path self +:+ B +:+ ".csv") = Some tB →
  let common := set_and (columns tA) (columns tB) in
  (common_id_cols tA tB = [] →
   check_cross_consistency_body (A, B) self = (Some tt, self))
  ∧ (∀ th, time_id_columns common = [] ∨ time_date_columns common = [] →
           check_time_cross_consistency_body th (A, B) self = (Some tt, self))
  ∧ (∀ c, c ∈ time_id_columns common → c ∈ common_id_cols tA tB).
Proof.
  intros HA HB common. split; [|split].
  - intros Hnil. unfold check_cross_consistency_body. unfold_M.
    cbv beta iota zeta. rewrite HA, HB, Hnil. done.
  - intros th Hnil. unfold check_time_cross_consistency_body. unfold_M.
    cbv beta iota zeta. rewrite HA, HB. fold common.
    destruct Hnil as [-> | ->]; [done|].
    by rewrite orb_true_r.
  - intros c (Hc & Hid & _)%elem_of_time_id_columns.
    apply elem_of_common_id_cols. unfold common in Hc.
    apply set_and_elem in Hc as [? ?]. done.
Qed.

End NoKeys.

(** ** The pairs of [check_cross_consistency] *)



Section Pairs.
Context `{Platform}.


End Pairs.

(** ** The percentage and the period count *)



Section TimeEdges.
Context `{Platform}.



End TimeEdges.

(** ** A dimension that cannot be converted *)

Section FormatEdges.
Context `{Platform}.

(** X16: a dimension whose hierarchy table cannot be read, or whose ID
    column does not convert to integers, costs the other dimensions nothing:
    [format_output] gives what it gives without that dimension, wherever it
    stands in the configuration. *)
Theorem format_output_passes_over_failing_dimension
    (lvl1 lvl2 : list (string * string)) (d h : string) (self : DQ) :
  read_csv (data_path self +:+ h +:+ ".csv") = None
  ∨ astype_Int64 (series (data_quality_output self) (d +:+ "_ID")) = None →
  format_output (lvl1 ++ (d, h) :: lvl2) self = format_output (lvl1 ++ lvl2) self.
Proof.
  intros Hfail. assert (settled (d, h) self) as Hs by (by right).
  unfold format_output. destruct (df_empty _); [done|].
  rewrite !foldl_app. cbn [foldl].
  by rewrite (settled_step_id (d, h)) by (by apply foldl_settled).
Qed.

End FormatEdges.

(** ** What [check] runs, and in which order *)

Section Stages.
Context `{Platform}.

(** X17: [check] runs a checker only when it is configured: without a
    list of tables, or without the threshold the checker needs, it is passed
    over.  When none is configured the findings table is the empty one and
    the summary reports no issue and no severity. *)
Theorem check_runs_only_configured_checkers (self : DQ) :
  it_val_range (input_tables self) = None
  ∨ th_val_range (th_values self) = None →
  it_cross_consistency (input_tables self) = None →
  it_time_cross_consistency (input_tables self) = None
  ∨ th_time_cross_consistency (th_values self) = None →
  (check self).2 = set_output self empty_frame
  ∧ (get_summary (check self).2).1 !! "total_issues" = Some (SInt 0)
  ∧ (get_summary (check self).2).1 !! "by_type" = Some (SDict ∅)
  ∧ (get_summary (check self).2).1 !! "severity" = None.
Proof.
  intros Hv Hc Ht.
  destruct (check_stages self)
    as (s1 & s2 & s3 & _ & _ & _ & Hcheck & H1 & H2 & H3).
  rewrite (H3 Ht), (H2 Hc), (H1 Hv) in Hcheck.
  assert ((check self).2 = set_output self empty_frame) as ->
    by (by rewrite Hcheck).
  split; [done|]. unfold get_summary.
  cbn [set_output data_quality_output].
  change (df_empty empty_frame) with true. cbv iota. cbn [fst].
  split; [reflexivity|]. split; reflexivity.
Qed.

(** X18: in the table [check] builds the findings stand grouped by
    checker, in the order the checkers run: first those of [check_val_range],
    then those of [check_cross_consistency], then those of
    [check_time_cross_consistency]; a checker that is not configured
    contributes none. *)
Theorem check_findings_grouped_by_checker (self : DQ) :
  let out := data_quality_output (check self).2 in
  ∃ a b c,
    series out "WARNING_TYPE"
    = replicate a (VStr "val_range")
      ++ replicate b (VStr "cross_consistency")
      ++ replicate c (VStr "time_cross_consistency")
    ∧ df_len out = a + b + c
    ∧ (it_val_range (input_tables self) = None
       ∨ th_val_range (th_values self) = None → a = 0)
    ∧ (it_cross_consistency (input_tables self) = None → b = 0)
    ∧ (it_time_cross_consistency (input_tables self) = None
       ∨ th_time_cross_consistency (th_values self) = None → c = 0).
Proof.
  cbv zeta.
  destruct (check_stages self)
    as (s1 & s2 & s3 & A1 & A2 & A3 & Hcheck & H1 & H2 & H3).
  destruct (accumulated_series _ _ _ A1) as (a & Sa & La).
  destruct (accumulated_series _ _ _ A2) as (b & Sb & Lb).
  destruct (accumulated_series _ _ _ A3) as (c & Sc & Lc).
  cbn [set_output data_quality_output] in Sa, La.
  change (series empty_frame "WARNING_TYPE") with (@nil value) in Sa.
  change (df_len empty_frame) with 0 in La.
  destruct (format_output_keeps (lvl_data s3) s3 "WARNING_TYPE")
    as (_ & Hlen & Hser & _);
    [intros e _; apply metadata_untouched; compute_done|].
  cbv zeta in Hlen, Hser. rewrite <- Hcheck in Hlen, Hser.
  exists a, b, c. split; [|split; [|split; [|split]]].
  - rewrite Hser, Sc, Sb, Sa. cbn [app]. by rewrite <- app_assoc.
  - rewrite Hlen, Lc, Lb, La. lia.
  - intros Hv. rewrite (H1 Hv) in La. cbn [set_output data_quality_output] in La.
    change (df_len empty_frame) with 0 in La. lia.
  - intros Hc. rewrite (H2 Hc) in Lb. lia.
  - intros Ht. rewrite (H3 Ht) in Lc. lia.
Qed.

End Stages.

(** ** The message and the failures of the value-range unit *)

Section ValRangeMessage.
Context `{Platform}.

(** X19: all the findings of one value-range unit carry the same
    message, and it quotes the cell of the first offending row of the table,
    whatever the cell of the finding itself; apart from the five labels the
    unit writes, a finding keeps the cells of its row.  The table and the
    threshold hold numbers binary64 represents. *)
Theorem check_val_range_message_quotes_first_row
    (th : Qc) (self self' : DQ) (table_name target_col : string)
    (table : DataFrame) (r0 : row) (rest : list row) :
  read_csv (data_path self +:+ table_name +:+ ".csv") = Some table →
  target_col ∈ columns table →
  target_col ∉ ["INPUT_COLUMN"; "INPUT_TABLE"; "INPUT_VALUE"; "WARNING_TYPE"] →
  check_val_range_body th (table_name, target_col) self = (Some tt, self') →
  List.filter (below th target_col) (rows table) = r0 :: rest →
  binary64 th → binary64_frame table →
  ∃ shown kept,
    format_2f (cell r0 target_col) = Some shown
    ∧ length kept = df_len (data_quality_output self)
    ∧ let warning := "Value " +:+ target_col +:+ "=" +:+ shown +:+
                     " is below threshold " +:+ str_num th +:+
                     " in " +:+ table_name in
      rows (data_quality_output self')
      = kept ++ (val_range_row table_name target_col th warning <$> r0 :: rest)
      ∧ ∀ r, let f := val_range_row table_name target_col th warning r in
             cell f "WARNING" = VStr warning
             ∧ cell f "INPUT_VALUE" = VNum th
             ∧ cell f "INPUT_TABLE" = VStr table_name
             ∧ cell f "INPUT_COLUMN" = VStr target_col
             ∧ ∀ c, c ∉ ["INPUT_COLUMN"; "INPUT_TABLE"; "INPUT_VALUE";
                         "WARNING_TYPE"; "WARNING"] →
                    cell f c = cell r c.
Proof.
  intros Hload Hcol Hname Hbody Hfilter _ _.
  unfold check_val_range_body in Hbody. unfold_M.
  cbv beta iota in Hbody. rewrite Hload in Hbody. cbv beta iota in Hbody.
  rewrite bool_decide_eq_false_2 in Hbody by (by intros Hn; apply Hn).
  destruct (df_where (lt_scalar th) target_col table) as [bad|] eqn:Hbad;
    [|discriminate].
  apply df_where_rows in Hbad as [_ Hrows].
  assert (rows bad = r0 :: rest) as Hf.
  { rewrite Hrows, <- Hfilter. apply filter_ext. intros r.
    apply below_lt_scalar. }
  assert ((0 <? df_len bad) = true) as Hlen
    by (unfold df_len; rewrite Hf; reflexivity).
  rewrite Hlen in Hbody.
  assert (∀ c, c ∈ ["INPUT_COLUMN"; "INPUT_TABLE"; "INPUT_VALUE";
                    "WARNING_TYPE"] → c ≠ target_col) as Hne.
  { intros c Hc ->. by apply Hname. }
  unfold series in Hbody. rewrite !rows_df_assign, Hf in Hbody.
  cbn [fmap list_fmap iloc0 head] in Hbody.
  rewrite !cell_insert_ne in Hbody by (apply Hne; compute_done).
  destruct (format_2f (cell r0 target_col)) as [shown|]; [|discriminate].
  injection Hbody as <-. exists shown, (rows (data_quality_output self)).
  split; [done|]. split; [done|]. cbv zeta.
  split.
  - cbn [set_output data_quality_output pd_concat rows].
    by rewrite rows_val_range_tag, Hf.
  - intros r. unfold val_range_row.
    split; [apply cell_insert_eq|].
    split; [rewrite !cell_insert_ne by done; apply cell_insert_eq|].
    split; [rewrite !cell_insert_ne by done; apply cell_insert_eq|].
    split; [rewrite !cell_insert_ne by done; apply cell_insert_eq|].
    intros c Hc. rewrite !cell_insert_ne; [done|..];
      intros <-; apply Hc; compute_done.
Qed.

(** X20: a value-range unit raises exactly when a cell of its column is
    text, and then, even when other cells of the column are below the
    threshold, the unit appends nothing. *)
Theorem check_val_range_text_cell_raises
    (th : Qc) (self : DQ) (table_name target_col : string) (table : DataFrame) :
  read_csv (data_path self +:+ table_name +:+ ".csv") = Some table →
  target_col ∈ columns table →
  target_col ∉ ["INPUT_COLUMN"; "INPUT_TABLE"; "WARNING_TYPE"] →
  (∀ q, is_Some (format_2f (VNum q))) →
  ((check_val_range_body th (table_name, target_col) self).1 = None
   ↔ ∃ r t, r ∈ rows table ∧ cell r target_col = VStr t)
  ∧ ((∃ r t, r ∈ rows table ∧ cell r target_col = VStr t) →
     check_val_range_body th (table_name, target_col) self = (None, self)
     ∧ try_except (check_val_range_body th (table_name, target_col)) self
       = self).
Proof.
  intros Hload Hcol Hname Hfmt.
  assert ((∃ r t, r ∈ rows table ∧ cell r target_col = VStr t) →
          check_val_range_body th (table_name, target_col) self = (None, self))
    as Hraise.
  { intros (r & t & Hr & Ht).
    unfold check_val_range_body. unfold_M. cbv beta iota. rewrite Hload.
    cbv beta iota.
    rewrite bool_decide_eq_false_2 by (by intros Hn; apply Hn).
    assert (df_where (lt_scalar th) target_col table = None) as ->; [|done].
    unfold df_where.
    assert (mapM (lt_scalar th) (series table target_col) = None) as ->;
      [|done].
    apply mapM_None, Exists_exists. exists (VStr t). split; [|done].
    unfold series. apply list_elem_of_fmap. exists r. by rewrite Ht. }
  split.
  - split.
    + intros Hnone.
      assert (∀ r : row, {∀ t, cell r target_col ≠ VStr t}
                         + {∃ t, cell r target_col = VStr t}) as Hdec.
      { intros r. destruct (cell r target_col) as [|q|t];
          [by left|by left|right; by exists t]. }
      destruct (Forall_Exists_dec _ _ Hdec (rows table)) as [Hall|Hex].
      * exfalso.
        rewrite (check_val_range_body_completes th self table_name target_col
                   table Hload) in Hnone; [done| |done|done].
        intros r t Hr. by apply (proj1 (Forall_forall _ _) Hall).
      * apply Exists_exists in Hex as (r & Hr & t & Ht). by exists r, t.
    + intros Hex. by rewrite (Hraise Hex).
  - intros Hex. split; [by apply Hraise|].
    unfold try_except. by rewrite (Hraise Hex).
Qed.

End ValRangeMessage.

(** * The checkers, call by call *)

(** ** Whole numbers below [2^53] are binary64 numbers *)

Lemma binary64_of_Z (z : Z) : (Z.abs z < 2 ^ 53)%Z → binary64 (Qc_of_Z z).
Proof.
  intros Hz. exists z, 0%Z. split; [done|]. split; [lia|].
  change (2 ^ Z.max 0 (- 0))%Z with 1%Z. change (2 ^ Z.max 0 0)%Z with 1%Z.
  rewrite Z.mul_1_r. apply Qcmult_1_r.
Qed.

Lemma whole_binary64 (v : value) : whole v = true → binary64_value v.
Proof.
  destruct v as [|q|s]; [done| |done]. cbn.
  intros [Hden Hnum]%bool_decide_eq_true.
  assert (q = Qc_of_Z (Qnum (this q))) as ->; [|by apply binary64_of_Z].
  apply Qc_is_canon. destruct q as [[n d] Hq]. cbn in *. subst d.
  unfold Qc_of_Z, Q2Qc. cbn. reflexivity.
Qed.

Lemma whole_frame_binary64 (df : DataFrame) :
  whole_frame df = true → binary64_frame df.
Proof.
  unfold whole_frame. rewrite forallb_forall. intros Hall r c Hr.
  apply list_elem_of_In in Hr. specialize (Hall r Hr).
  rewrite forallb_forall in Hall.
  unfold cell. destruct (r !! c) as [v|] eqn:Hv; [|done]. cbn.
  apply whole_binary64.
  apply (Hall (c, v)), list_elem_of_In. by apply elem_of_map_to_list.
Qed.

(** ** [check_cross_consistency], pair by pair *)

Section CrossCall.
Context `{Platform}.

Lemma merge_left_indicator_accepts on left right :
  NoDup on → merge_keys_ok on left right = true →
  is_Some (merge_left_indicator on left right).
Proof.
  intros Hnd Hok. unfold merge_left_indicator.
  rewrite decide_True by done. rewrite Hok. by eexists.
Qed.

Lemma merge_left_indicator_refuses on left right :
  merge_keys_ok on left right = false →
  merge_left_indicator on left right = None.
Proof.
  intros Hok. unfold merge_left_indicator. case_decide; [|done].
  by rewrite Hok.
Qed.

(** Whatever the pair, its unit appends the findings of the pair. *)
Lemma cross_step_rows s p :
  rows (data_quality_output (try_except (check_cross_consistency_body p) s))
  = rows (data_quality_output s) ++ cross_findings (data_path s) p.
Proof.
  destruct p as [A B]. unfold try_except, cross_findings. cbn [fst snd].
  destruct (read_csv (data_path s +:+ A +:+ ".csv")) as [tA|] eqn:HA.
  2:{ rewrite cross_fail; [by rewrite app_nil_r|].
      unfold check_cross_consistency_body. unfold_M. cbv beta iota zeta.
      by rewrite HA. }
  destruct (read_csv (data_path s +:+ B +:+ ".csv")) as [tB|] eqn:HB.
  2:{ rewrite cross_fail; [by rewrite app_nil_r|].
      unfold check_cross_consistency_body. unfold_M. cbv beta iota zeta.
      by rewrite HA, HB. }
  cbv zeta. case_bool_decide as Hcols; cbn [andb].
  - destruct (merge_keys_ok _ _ _) eqn:Hok.
    + destruct (merge_left_indicator_accepts _ _ _
                  (NoDup_common_id_cols tA tB) Hok) as [merged Hm].
      destruct (check_cross_consistency_body (A, B) s) as [[[]|] s'] eqn:Hb.
      * cbn [snd].
        by apply (check_cross_consistency_body_rows s s' A B tA tB).
      * exfalso. unfold check_cross_consistency_body in Hb. unfold_M.
        cbv beta iota zeta in Hb. rewrite HA, HB in Hb.
        rewrite bool_decide_eq_false_2 in Hb by done. rewrite Hm in Hb.
        by destruct (0 <? df_len (left_only merged)).
    + rewrite cross_fail; [by rewrite app_nil_r|].
      unfold check_cross_consistency_body. unfold_M. cbv beta iota zeta.
      rewrite HA, HB. rewrite bool_decide_eq_false_2 by done.
      by rewrite merge_left_indicator_refuses.
  - assert (common_id_cols tA tB = []) as Hnil
      by (destruct (common_id_cols tA tB); [done|by destruct Hcols]).
    unfold check_cross_consistency_body. unfold_M. cbv beta iota zeta.
    rewrite HA, HB. rewrite bool_decide_eq_true_2 by done.
    cbn [snd]. by rewrite app_nil_r.
Qed.

Lemma cross_step_path s p :
  data_path (try_except (check_cross_consistency_body p) s) = data_path s.
Proof.
  pose proof (accumulated_keeps_config _ _ _ (cross_accumulates s p)) as Hc.
  by rewrite Hc.
Qed.

Lemma check_cross_consistency_rows tables self :
  rows (check_cross_consistency tables self).1
  = rows (data_quality_output self)
    ++ mjoin (cross_findings (data_path self) <$> permutations2 tables).
Proof.
  unfold check_cross_consistency. cbv zeta. cbn [fst].
  generalize (permutations2 tables). intros ps. revert self.
  induction ps as [|p ps IH]; intros self.
  - cbn. by rewrite app_nil_r.
  - cbn [foldl fmap list_fmap mjoin list_join].
    rewrite IH, cross_step_rows, cross_step_path. by rewrite app_assoc.
Qed.

End CrossCall.

Section CrossClaims.
Context `{Platform}.

(** C3: [check_cross_consistency] runs one unit per ordered pair of
    positions of its list, for a duplicate-free list the pairs (A, B) of
    distinct names, and the table it returns is the table it was given
    followed by the findings of the pairs in that order.  A pair whose
    tables load, share a column whose upper-cased name contains "ID" and
    whose key columns [merge] accepts contributes one finding per key
    tuple over all those columns that occurs in A and not in B, each
    tuple once and no tuple that occurs in both; any other pair
    contributes nothing.  The tables hold numbers binary64 represents. *)
Theorem check_cross_consistency_ordered_pairs
    (tables : list string) (self : DQ) :
  binary64_files (data_path self) tables →
  let path := data_path self in
  (∃ kept,
     length kept = df_len (data_quality_output self)
     ∧ rows (check_cross_consistency tables self).1
       = kept ++ mjoin (cross_findings path <$> permutations2 tables))
  ∧ (NoDup tables →
     ∀ A B, (A, B) ∈ permutations2 tables ↔ A ∈ tables ∧ B ∈ tables ∧ A ≠ B)
  ∧ (∀ A B,
       read_csv (path +:+ A +:+ ".csv") = None
       ∨ read_csv (path +:+ B +:+ ".csv") = None →
       cross_findings path (A, B) = [])
  ∧ (∀ A B tA tB,
       read_csv (path +:+ A +:+ ".csv") = Some tA →
       read_csv (path +:+ B +:+ ".csv") = Some tB →
       let cols := common_id_cols tA tB in
       let accepted :=
         merge_keys_ok cols (drop_duplicates (df_select cols tA))
                            (drop_duplicates (df_select cols tB)) in
       (∀ c, c ∈ cols ↔
             c ∈ columns tA ∧ c ∈ columns tB
             ∧ Str.contains "ID" (str_upper c) = true)
       ∧ (cols = [] ∨ accepted = false → cross_findings path (A, B) = [])
       ∧ (cols ≠ [] → accepted = true →
          cross_findings path (A, B) = cross_row A B <$> anti_join cols tA tB
          ∧ NoDup (key_of cols <$> cross_findings path (A, B))
          ∧ (∀ k, k ∈ key_of cols <$> cross_findings path (A, B) ↔
                  k ∈ keys cols tA ∧ k ∉ keys cols tB)
          ∧ (∀ f, f ∈ cross_findings path (A, B) →
                  cell f "WARNING_TYPE" = VStr "cross_consistency"
                  ∧ cell f "INPUT_TABLE" = VStr (A +:+ " && " +:+ B)))).
Proof.
  intros _ path. split; [|split; [|split]].
  - exists (rows (data_quality_output self)). split; [done|].
    apply check_cross_consistency_rows.
  - intros Hnd A B. by apply elem_of_permutations2_NoDup.
  - intros A B Hnone. unfold cross_findings. cbn [fst snd].
    destruct Hnone as [-> | ->]; [done|]. by destruct (read_csv _).
  - intros A B tA tB HA HB cols accepted.
    split; [apply elem_of_common_id_cols|].
    assert (cols ≠ [] → accepted = true →
            cross_findings path (A, B) = cross_row A B <$> anti_join cols tA tB)
      as Hrun.
    { intros Hcols Hok. unfold cross_findings. cbn [fst snd].
      rewrite HA, HB. cbv zeta. fold cols. fold accepted.
      by rewrite bool_decide_eq_true_2, Hok by done. }
    split.
    { intros Hskip. unfold cross_findings. cbn [fst snd].
      rewrite HA, HB. cbv zeta. fold cols. fold accepted.
      destruct Hskip as [-> | ->]; [done|].
      by rewrite andb_false_r. }
    intros Hcols Hok. rewrite (Hrun Hcols Hok).
    assert (∀ r, key_of cols (cross_row A B r) = key_of cols r) as Hkey
      by (intros r; apply key_of_cross_row).
    assert (key_of cols <$> (cross_row A B <$> anti_join cols tA tB)
            = key_of cols <$> anti_join cols tA tB) as Hkeys.
    { rewrite <- list_fmap_compose. apply list_fmap_ext.
      intros i r _. apply Hkey. }
    split; [done|]. rewrite Hkeys.
    split; [apply NoDup_keys_anti_join|].
    split; [apply keys_anti_join|].
    intros f (r & -> & _)%list_elem_of_fmap. unfold cross_row. split.
    + rewrite cell_insert_ne by done. apply cell_insert_eq.
    + rewrite !cell_insert_ne by done. apply cell_insert_eq.
Qed.

(** C4: the anti-join of [check_cross_consistency] is over the composite
    key.  For two distinct names of the list whose tables load, share an
    ID column and whose key columns [merge] accepts, a row of A whose
    tuple over the common ID columns is the tuple of no row of B is in the
    table the call returns, whatever rows of B carry its components one by
    one.  The tables hold numbers binary64 represents. *)
Theorem check_cross_consistency_composite_key
    (tables : list string) (self : DQ) (A B : string) (tA tB : DataFrame)
    (r0 : row) :
  binary64_files (data_path self) tables →
  A ∈ tables → B ∈ tables → A ≠ B →
  read_csv (data_path self +:+ A +:+ ".csv") = Some tA →
  read_csv (data_path self +:+ B +:+ ".csv") = Some tB →
  let cols := common_id_cols tA tB in
  cols ≠ [] →
  merge_keys_ok cols (drop_duplicates (df_select cols tA))
                     (drop_duplicates (df_select cols tB)) = true →
  r0 ∈ rows tA →
  key_of cols r0 ∉ keys cols tB →
  let finding := cross_row A B (row_project cols r0) in
  finding ∈ rows (check_cross_consistency tables self).1
  ∧ key_of cols finding = key_of cols r0
  ∧ cell finding "WARNING_TYPE" = VStr "cross_consistency".
Proof.
  intros _ HA HB Hne HlA HlB cols Hcols Hok Hr0 Hk finding.
  split; [|split].
  - rewrite check_cross_consistency_rows. apply elem_of_app. right.
    apply list_elem_of_join. exists (cross_findings (data_path self) (A, B)).
    split.
    + unfold cross_findings. cbn [fst snd]. rewrite HlA, HlB. cbv zeta.
      fold cols. rewrite bool_decide_eq_true_2, Hok by done. cbn [andb].
      apply list_elem_of_fmap. exists (row_project cols r0). split; [done|].
      apply elem_of_anti_join. split; [by exists r0|].
      by rewrite key_of_row_project.
    + apply list_elem_of_fmap. exists (A, B). split; [done|].
      apply elem_of_permutations2. cbn [fst snd].
      apply list_elem_of_lookup_1 in HA as [i Hi].
      apply list_elem_of_lookup_1 in HB as [j Hj].
      exists i, j. split; [intros ->; congruence|done].
  - unfold finding, cols. by rewrite key_of_cross_row, key_of_row_project.
  - unfold finding, cross_row. rewrite cell_insert_ne by done.
    apply cell_insert_eq.
Qed.

End CrossClaims.

(** ** [check_val_range] and [check_time_cross_consistency], unit by unit *)

Section UnitCalls.
Context `{Platform}.

Lemma check_val_range_snoc tables u th self :
  check_val_range (tables ++ [u]) th self
  = let s := (check_val_range tables th self).2 in
    let s' := try_except (check_val_range_body th u) s in
    (data_quality_output s', s').
Proof. unfold check_val_range. by rewrite foldl_app. Qed.

Lemma check_time_cross_consistency_snoc tables p th self :
  check_time_cross_consistency (tables ++ [p]) th self
  = let s := (check_time_cross_consistency tables th self).2 in
    let s' := try_except (check_time_cross_consistency_body th p) s in
    (data_quality_output s', s').
Proof. unfold check_time_cross_consistency. by rewrite foldl_app. Qed.

Lemma check_val_range_path tables th self :
  data_path (check_val_range tables th self).2 = data_path self.
Proof.
  pose proof (accumulated_keeps_config _ _ _
                (check_val_range_accumulated tables th self)) as Hc.
  by rewrite Hc.
Qed.

Lemma check_time_cross_consistency_path tables th self :
  data_path (check_time_cross_consistency tables th self).2 = data_path self.
Proof.
  pose proof (accumulated_keeps_config _ _ _
                (check_time_cross_consistency_accumulated tables th self))
    as Hc.
  by rewrite Hc.
Qed.

(** A temporal unit whose tables load and share entity and date columns
    raises only at its merge. *)
Lemma check_time_cross_consistency_body_completes th self A B tA tB :
  read_csv (data_path self +:+ A +:+ ".csv") = Some tA →
  read_csv (data_path self +:+ B +:+ ".csv") = Some tB →
  let common := set_and (columns tA) (columns tB) in
  let ids := time_id_columns common in
  let dates := time_date_columns common in
  let K := ids ++ dates in
  ids ≠ [] → dates ≠ [] →
  NoDup K →
  merge_keys_ok K (drop_duplicates (df_select K tA))
                  (drop_duplicates (df_select K tB)) = true →
  (check_time_cross_consistency_body th (A, B) self).1 = Some tt.
Proof.
  intros HA HB common ids dates K Hids Hdates HK Hok.
  destruct (check_time_cross_consistency_body_run th self A B tA tB HA HB
              Hids Hdates) as [Hfail|(Mf & F & date0 & _ & _ & _ & Hrun)].
  - exfalso. revert Hfail.
    unfold check_time_cross_consistency_body. unfold_M.
    cbv beta iota zeta. rewrite HA, HB.
    fold common. fold ids. fold dates.
    rewrite !bool_decide_eq_false_2 by done. cbn [orb]. fold K.
    destruct (merge_left_indicator_accepts _ _ _ HK Hok) as [merged ->].
    rewrite time_missing_block_run. cbv zeta.
    destruct dates as [|date0 dates'] eqn:Hd; [done|].
    assert (date0 ∉ ids) as Hnin.
    { intros Hin. apply NoDup_app in HK as (_ & HK & _).
      apply (HK _ Hin). by left. }
    match goal with
    | |- context [time_infrequent_block A th tA ids ?ds ?s] =>
        destruct (time_infrequent_block_run A th tA ids ds date0 s)
          as (F & HF & ->); [done|done|done|..]
    end.
    { by apply time_id_columns_no_tag. }
    discriminate.
  - cbv zeta in Hrun. by rewrite Hrun.
Qed.

End UnitCalls.

Section ValRangeClaim.
Context `{Platform}.

(** C5: a unit of [check_val_range] whose table loads and whose column
    exists, holds no text and is not named like one of the labels the unit
    writes before it formats its message, appends to the table of the
    call exactly the rows whose cell in that column is strictly below
    [th], each as its own finding tagged [val_range]; a row whose cell
    equals [th] is not among them.  The table and the threshold hold
    numbers binary64 represents. *)
Theorem check_val_range_strict_threshold
    (tables : list (string * string)) (th : Qc) (self : DQ)
    (table_name target_col : string) (table : DataFrame) :
  read_csv (data_path self +:+ table_name +:+ ".csv") = Some table →
  target_col ∈ columns table →
  (∀ r t, r ∈ rows table → cell r target_col ≠ VStr t) →
  target_col ∉ ["INPUT_COLUMN"; "INPUT_TABLE"; "WARNING_TYPE"] →
  (∀ q, is_Some (format_2f (VNum q))) →
  binary64 th → binary64_frame table →
  let before := (check_val_range tables th self).1 in
  let after :=
    (check_val_range (tables ++ [(table_name, target_col)]) th self).1 in
  let flagged := List.filter (below th target_col) (rows table) in
  ∃ kept warning,
    length kept = df_len before
    ∧ rows after
      = kept ++ (val_range_row table_name target_col th warning <$> flagged)
    ∧ (∀ r, r ∈ flagged ↔
            r ∈ rows table ∧ ∃ q, cell r target_col = VNum q ∧ (q < th)%Qc)
    ∧ (∀ r, cell r target_col = VNum th → r ∉ flagged)
    ∧ df_len after = df_len before + length flagged
    ∧ (∀ r, cell (val_range_row table_name target_col th warning r)
              "WARNING_TYPE" = VStr "val_range").
Proof.
  intros Hload Hcol Htext Hname Hfmt _ _ before after flagged.
  set (s := (check_val_range tables th self).2).
  assert (before = data_quality_output s) as Hbefore by done.
  assert (read_csv (data_path s +:+ table_name +:+ ".csv") = Some table)
    as Hload' by (unfold s; by rewrite check_val_range_path).
  pose proof (check_val_range_body_completes th s table_name target_col table
                Hload' Htext Hfmt Hname) as Hdone.
  destruct (check_val_range_body th (table_name, target_col) s)
    as [res s'] eqn:Hbody.
  cbn [fst] in Hdone. subst res.
  destruct (check_val_range_body_rows th s s' table_name target_col table
              Hload' Hcol Hbody) as [warning Hrows].
  assert (after = data_quality_output s') as Hafter.
  { unfold after. rewrite check_val_range_snoc. cbv zeta. cbn [fst].
    fold s. unfold try_except. by rewrite Hbody. }
  exists (rows before), warning. rewrite Hafter, Hbefore.
  split; [done|]. split; [exact Hrows|].
  assert (∀ r, below th target_col r = true ↔
               ∃ q, cell r target_col = VNum q ∧ (q < th)%Qc) as Hbelow.
  { intros r. unfold below. destruct (cell r target_col) as [|q|t].
    - split; [done|]. by intros (q & ? & _).
    - rewrite bool_decide_eq_true. split.
      + intros Hq. by exists q.
      + by intros (q' & [= <-] & Hq).
    - split; [done|]. by intros (q & ? & _). }
  split; [|split; [|split]].
  - intros r. unfold flagged. by rewrite elem_of_bfilter, Hbelow.
  - intros r Hr. unfold flagged. rewrite elem_of_bfilter, Hbelow.
    intros [_ (q & Hq & Hlt)]. rewrite Hr in Hq. injection Hq as <-.
    by apply Qclt_not_eq in Hlt.
  - unfold df_len. by rewrite Hrows, length_app, length_fmap.
  - intros r. unfold val_range_row.
    rewrite cell_insert_ne by done. apply cell_insert_eq.
Qed.

End ValRangeClaim.

Section TimeClaims.
Context `{Platform}.
#[local] Opaque float_gt missing_pct.

(** The rows a temporal unit appends to the table of the call, when it
    does not raise. *)
Lemma check_time_cross_consistency_unit_rows tables th self A B tA tB :
  read_csv (data_path self +:+ A +:+ ".csv") = Some tA →
  read_csv (data_path self +:+ B +:+ ".csv") = Some tB →
  let common := set_and (columns tA) (columns tB) in
  let ids := time_id_columns common in
  let dates := time_date_columns common in
  let K := ids ++ dates in
  ids ≠ [] → dates ≠ [] →
  NoDup K →
  merge_keys_ok K (drop_duplicates (df_select K tA))
                  (drop_duplicates (df_select K tB)) = true →
  let missing := anti_join K tA tB in
  let total := length (dedup_from [] (row_project K <$> rows tA)) in
  let pct := missing_pct (length missing) total in
  ∃ date0,
    head dates = Some date0 ∧
    rows (check_time_cross_consistency (tables ++ [(A, B)]) th self).1
    = rows (check_time_cross_consistency tables th self).1
      ++ (if float_gt pct th
          then time_missing_row A B th (length missing) pct <$> missing
          else [])
      ++ (time_infrequent_row A th
            <$> (entity_row ids <$> infrequent_entities ids date0 th tA)).
Proof.
  intros HA HB common ids dates K Hids Hdates HK Hok missing total pct.
  set (s := (check_time_cross_consistency tables th self).2).
  assert (read_csv (data_path s +:+ A +:+ ".csv") = Some tA) as HA'
    by (unfold s; by rewrite check_time_cross_consistency_path).
  assert (read_csv (data_path s +:+ B +:+ ".csv") = Some tB) as HB'
    by (unfold s; by rewrite check_time_cross_consistency_path).
  pose proof (check_time_cross_consistency_body_completes th s A B tA tB
                HA' HB' Hids Hdates HK Hok) as Hdone.
  destruct (check_time_cross_consistency_body th (A, B) s)
    as [res s'] eqn:Hbody.
  cbn [fst] in Hdone. subst res.
  destruct (check_time_cross_consistency_body_rows th s s' A B tA tB
              HA' HB' Hids Hdates Hbody) as (date0 & Hhead & Hrows).
  exists date0. split; [exact Hhead|].
  rewrite check_time_cross_consistency_snoc. cbv zeta. cbn [fst].
  fold s. unfold try_except. rewrite Hbody. cbn [snd]. exact Hrows.
Qed.

(** C1: a unit of [check_time_cross_consistency] whose tables load and
    share entity and date columns, none of them both, and whose key
    columns [merge] accepts, appends to the table of the call the missing
    combinations (the key tuples of table1's deduplicated reduction to
    those columns that are absent from table2's) exactly when
    [missing_pct = missing_count / total_records * 100], as the code
    computes it in binary64, is strictly greater than [th]; when the
    computed [missing_pct] equals [th] none of them is appended.  The
    tables and the threshold hold numbers binary64 represents. *)
Theorem check_time_cross_consistency_percentage_gate
    (tables : list (string * string)) (th : Qc) (self : DQ) (A B : string)
    (tA tB : DataFrame) :
  read_csv (data_path self +:+ A +:+ ".csv") = Some tA →
  read_csv (data_path self +:+ B +:+ ".csv") = Some tB →
  let common := set_and (columns tA) (columns tB) in
  let ids := time_id_columns common in
  let dates := time_date_columns common in
  let K := ids ++ dates in
  ids ≠ [] → dates ≠ [] →
  NoDup K →
  merge_keys_ok K (drop_duplicates (df_select K tA))
                  (drop_duplicates (df_select K tB)) = true →
  binary64 th → binary64_frame tA → binary64_frame tB →
  let missing := anti_join K tA tB in
  let total := length (dedup_from [] (row_project K <$> rows tA)) in
  let pct := missing_pct (length missing) total in
  let before := (check_time_cross_consistency tables th self).1 in
  let after :=
    (check_time_cross_consistency (tables ++ [(A, B)]) th self).1 in
  (∃ kept date0,
     length kept = df_len before
     ∧ head dates = Some date0
     ∧ rows after
       = kept
         ++ (if float_gt pct th
             then time_missing_row A B th (length missing) pct <$> missing
             else [])
         ++ (time_infrequent_row A th
               <$> (entity_row ids <$> infrequent_entities ids date0 th tA)))
  ∧ (∀ k, k ∈ key_of K <$> missing ↔ k ∈ keys K tA ∧ k ∉ keys K tB)
  ∧ NoDup (key_of K <$> missing)
  ∧ pct = (if 0 <? total
           then (float_of_nat (length missing) / float_of_nat total
                 * float_of_nat 100)%float
           else 0%float)
  ∧ (∀ q, float_val pct = Some q → float_gt pct th = bool_decide (th < q)%Qc)
  ∧ (float_val pct = Some th → float_gt pct th = false)
  ∧ (∀ r, cell (time_missing_row A B th (length missing) pct r) "INPUT_TABLE"
          = VStr (A +:+ " && " +:+ B))
  ∧ (∀ r, cell (time_infrequent_row A th r) "INPUT_TABLE" = VStr A).
Proof.
  intros HA HB common ids dates K Hids Hdates HK Hok _ _ _
         missing total pct before after.
  split.
  { destruct (check_time_cross_consistency_unit_rows tables th self A B tA tB
                HA HB Hids Hdates HK Hok) as (date0 & Hhead & Hrows).
    exists (rows before), date0. split; [done|]. split; [exact Hhead|].
    exact Hrows. }
  split; [apply keys_anti_join|].
  split; [apply NoDup_keys_anti_join|].
  split; [reflexivity|].
  split; [intros q; apply float_gt_finite|].
  split; [apply float_gt_boundary|].
  split; intros r.
  - unfold time_missing_row. rewrite !cell_insert_ne by done.
    apply cell_insert_eq.
  - unfold time_infrequent_row. rewrite !cell_insert_ne by done.
    apply cell_insert_eq.
Qed.

(** C2: in such a unit, table1 is grouped by its entity columns (the
    rows with a missing entity cell apart) and [period_count] is the
    number of distinct values of the first date column inside each group;
    every entity with [period_count <= th], with the [th] of the
    percentage gate, is appended to the table of the call as a finding
    tagged [time_cross_consistency] whose [INPUT_TABLE] is table1's name
    alone, whichever way the percentage gate went. *)
Theorem check_time_cross_consistency_low_frequency
    (tables : list (string * string)) (th : Qc) (self : DQ) (A B : string)
    (tA tB : DataFrame) :
  read_csv (data_path self +:+ A +:+ ".csv") = Some tA →
  read_csv (data_path self +:+ B +:+ ".csv") = Some tB →
  let common := set_and (columns tA) (columns tB) in
  let ids := time_id_columns common in
  let dates := time_date_columns common in
  let K := ids ++ dates in
  ids ≠ [] → dates ≠ [] →
  NoDup K →
  merge_keys_ok K (drop_duplicates (df_select K tA))
                  (drop_duplicates (df_select K tB)) = true →
  binary64 th → binary64_frame tA → binary64_frame tB →
  let before := (check_time_cross_consistency tables th self).1 in
  let after :=
    (check_time_cross_consistency (tables ++ [(A, B)]) th self).1 in
  ∃ kept date0 gap_part,
    length kept = df_len before
    ∧ head dates = Some date0
    ∧ let flagged := infrequent_entities ids date0 th tA in
      rows after
      = kept ++ gap_part
        ++ (time_infrequent_row A th <$> (entity_row ids <$> flagged))
      ∧ (gap_part = []
         ∨ gap_part
           = time_missing_row A B th (length (anti_join K tA tB))
               (missing_pct (length (anti_join K tA tB))
                  (length (dedup_from [] (row_project K <$> rows tA))))
             <$> anti_join K tA tB)
      ∧ (∀ k, k ∈ flagged ↔
              (k ∈ keys ids tA ∧ VNull ∉ k) ∧
              (Qc_of_Z (Z.of_nat (length (period_values ids date0 tA k)))
               ≤ th)%Qc)
      ∧ NoDup flagged
      ∧ (∀ k, NoDup (period_values ids date0 tA k))
      ∧ (∀ k v, v ∈ period_values ids date0 tA k ↔
                v ≠ VNull ∧
                ∃ r, r ∈ rows tA ∧ key_of ids r = k ∧ cell r date0 = v)
      ∧ (∀ k, k ∈ flagged →
              let f := time_infrequent_row A th (entity_row ids k) in
              f ∈ rows after
              ∧ key_of ids f = k
              ∧ cell f "WARNING_TYPE" = VStr "time_cross_consistency"
              ∧ cell f "INPUT_TABLE" = VStr A
              ∧ cell f "INPUT_VALUE" = VNum th).
Proof.
  intros HA HB common ids dates K Hids Hdates HK Hok _ _ _ before after.
  destruct (check_time_cross_consistency_unit_rows tables th self A B tA tB
              HA HB Hids Hdates HK Hok) as (date0 & Hhead & Hrows).
  cbv zeta in Hrows. fold common ids dates K before after in Hrows.
  exists (rows before), date0. eexists.
  split; [done|]. split; [exact Hhead|]. cbv zeta.
  split; [exact Hrows|].
  split.
  { destruct (float_gt _ _); [by right|by left]. }
  split.
  { intros k. rewrite elem_of_infrequent_entities, elem_of_group_keys.
    by rewrite period_count_of_values. }
  split.
  { unfold infrequent_entities.
    apply NoDup_ListNoDup, List.NoDup_filter, NoDup_ListNoDup.
    apply NoDup_group_keys. }
  split; [intros k; apply NoDup_dedup_from|].
  split; [intros k v; apply elem_of_period_values|].
  intros k Hk. cbv zeta. split.
  { rewrite Hrows, !elem_of_app. right. right.
    apply list_elem_of_fmap. eexists. split; [done|].
    apply list_elem_of_fmap. by exists k. }
  split.
  { fold common. fold ids. unfold ids at 1.
    rewrite key_of_time_infrequent_row. fold ids.
    apply elem_of_infrequent_entities in Hk as [Hk _].
    apply elem_of_group_keys in Hk as [Hk _].
    apply list_elem_of_fmap in Hk as (r & -> & _).
    by rewrite entity_row_key_of, key_of_row_project. }
  unfold time_infrequent_row. split; [|split].
  - rewrite cell_insert_ne by done. apply cell_insert_eq.
  - rewrite !cell_insert_ne by done. apply cell_insert_eq.
  - rewrite !cell_insert_ne by done. apply cell_insert_eq.
Qed.

End TimeClaims.

(** * The scenarios, run on the reference platform *)

Import Reference.

Example scenario_val_range :
  key_of ["PRODUCT_ID"; "WARNING_TYPE"]
    <$> rows (check_val_range [("PRICES", "PRICE")] 0%Qc self0).1
  = [[num 1; VStr "val_range"]].
Proof. vm_compute. reflexivity. Qed.

Example scenario_cross_consistency :
  key_of ["PRODUCT_ID"; "INPUT_TABLE"]
    <$> rows (check_cross_consistency ["SALES"; "PRODUCTS"] self0).1
  = [[num 2; VStr "SALES && PRODUCTS"]].
Proof. vm_compute. reflexivity. Qed.

(** 7 of 100 is 7.000000000000001 per cent in binary64. *)
Example missing_pct_rounds : float_gt (missing_pct 7 100) (Qc_of_Z 7) = true.
Proof. vm_compute. reflexivity. Qed.

Example missing_pct_half : float_val (missing_pct 1 2) = Some (Qc_of_Z 50).
Proof. vm_compute. f_equal. by apply Qc_is_canon. Qed.

(** ** The theorems at the scenarios *)

(** Whole numbers below [2^53] are numbers binary64 represents. *)
Ltac binary64_table := apply whole_frame_binary64; vm_compute; reflexivity.

Ltac binary64_directory :=
  let n := fresh "n" in
  let t := fresh "t" in
  let Hn := fresh "Hn" in
  let Hread := fresh "Hread" in
  intros n t Hn Hread;
  repeat (apply elem_of_cons in Hn as [->|Hn];
          [vm_compute in Hread; injection Hread as <-; binary64_table|]);
  by apply elem_of_nil in Hn.

Ltac small_number := apply binary64_of_Z; vm_compute; reflexivity.

(** PRICES after an empty list of units, threshold 0: the row priced -5
    is appended, the row priced 0 is not. *)
Lemma check_val_range_strict_threshold_witness :
  read_csv (data_path self0 +:+ "PRICES" +:+ ".csv") = Some PRICES
  ∧ "PRICE" ∈ columns PRICES
  ∧ (∀ r t, r ∈ rows PRICES → cell r "PRICE" ≠ VStr t)
  ∧ ("PRICE" ∉ ["INPUT_COLUMN"; "INPUT_TABLE"; "WARNING_TYPE"])
  ∧ (∀ q, is_Some (format_2f (VNum q)))
  ∧ binary64 0%Qc ∧ binary64_frame PRICES
  ∧ key_of ["PRODUCT_ID"; "PRICE"; "WARNING_TYPE"; "WARNING"]
      <$> rows (check_val_range [("PRICES", "PRICE")] 0%Qc self0).1
    = [[num 1; num (-5); VStr "val_range";
        VStr "Value PRICE=-5.00 is below threshold 0 in PRICES"]].
Proof.
  assert (read_csv (data_path self0 +:+ "PRICES" +:+ ".csv") = Some PRICES) as H1
    by (vm_compute; reflexivity).
  assert ("PRICE" ∈ columns PRICES) as H2 by compute_done.
  assert (∀ r t, r ∈ rows PRICES → cell r "PRICE" ≠ VStr t) as H3.
  { intros r t Hr. unfold PRICES in Hr. cbn [rows] in Hr.
    repeat (apply elem_of_cons in Hr as [->|Hr]; [vm_compute; discriminate|]).
    by apply elem_of_nil in Hr. }
  assert ("PRICE" ∉ ["INPUT_COLUMN"; "INPUT_TABLE"; "WARNING_TYPE"]) as H4
    by compute_done.
  assert (∀ q, is_Some (format_2f (VNum q))) as H5
    by (intros q; eexists; reflexivity).
  assert (binary64 0%Qc) as H6 by (apply (binary64_of_Z 0); vm_compute; reflexivity).
  assert (binary64_frame PRICES) as H7 by binary64_table.
  destruct (check_val_range_strict_threshold [] 0%Qc self0 "PRICES" "PRICE"
              PRICES H1 H2 H3 H4 H5 H6 H7)
    as (kept & warning & Hkept & Hrows & _).
  split; [exact H1|]. split; [exact H2|]. split; [exact H3|].
  split; [exact H4|]. split; [exact H5|]. split; [exact H6|].
  split; [exact H7|].
  vm_compute. reflexivity.
Defined.

(** SALES and PRODUCTS: product 2 is sold and not listed, and every
    listed product is sold. *)
Lemma check_cross_consistency_ordered_pairs_witness :
  binary64_files (data_path self0) ["SALES"; "PRODUCTS"]
  ∧ permutations2 ["SALES"; "PRODUCTS"]
    = [("SALES", "PRODUCTS"); ("PRODUCTS", "SALES")]
  ∧ cross_findings (data_path self0) ("PRODUCTS", "SALES") = []
  ∧ key_of ["PRODUCT_ID"; "INPUT_TABLE"]
      <$> rows (check_cross_consistency ["SALES"; "PRODUCTS"] self0).1
    = [[num 2; VStr "SALES && PRODUCTS"]].
Proof.
  assert (binary64_files (data_path self0) ["SALES"; "PRODUCTS"]) as H1
    by binary64_directory.
  destruct (check_cross_consistency_ordered_pairs ["SALES"; "PRODUCTS"] self0
              H1) as ((kept & Hkept & Hrows) & _).
  split; [exact H1|]. split; [vm_compute; reflexivity|].
  split; [vm_compute; reflexivity|].
  rewrite Hrows.
  assert (kept = []) as -> by (by apply nil_length_inv).
  vm_compute. reflexivity.
Defined.

(** ORDERS holds (1, x); STOCK holds (1, y) and (2, x): the tuple is
    flagged although both components occur in STOCK. *)
Lemma check_cross_consistency_composite_key_witness :
  binary64_files (data_path self0) ["ORDERS"; "STOCK"]
  ∧ read_csv (data_path self0 +:+ "ORDERS" +:+ ".csv") = Some ORDERS
  ∧ read_csv (data_path self0 +:+ "STOCK" +:+ ".csv") = Some STOCK
  ∧ common_id_cols ORDERS STOCK = ["PRODUCT_ID"; "LOCATION_ID"]
  ∧ merge_keys_ok (common_id_cols ORDERS STOCK)
      (drop_duplicates (df_select (common_id_cols ORDERS STOCK) ORDERS))
      (drop_duplicates (df_select (common_id_cols ORDERS STOCK) STOCK)) = true
  ∧ order_row ∈ rows ORDERS
  ∧ key_of (common_id_cols ORDERS STOCK) order_row = [num 1; VStr "x"]
  ∧ (key_of (common_id_cols ORDERS STOCK) order_row
       ∉ keys (common_id_cols ORDERS STOCK) STOCK)
  ∧ num 1 ∈ series STOCK "PRODUCT_ID"
  ∧ VStr "x" ∈ series STOCK "LOCATION_ID"
  ∧ cross_row "ORDERS" "STOCK"
      (row_project (common_id_cols ORDERS STOCK) order_row)
      ∈ rows (check_cross_consistency ["ORDERS"; "STOCK"] self0).1.
Proof.
  assert (binary64_files (data_path self0) ["ORDERS"; "STOCK"]) as H0
    by binary64_directory.
  assert ("ORDERS" ∈ ["ORDERS"; "STOCK"]) as Hin1 by compute_done.
  assert ("STOCK" ∈ ["ORDERS"; "STOCK"]) as Hin2 by compute_done.
  assert ("ORDERS" ≠ "STOCK") as Hne by done.
  assert (read_csv (data_path self0 +:+ "ORDERS" +:+ ".csv") = Some ORDERS)
    as H1 by (vm_compute; reflexivity).
  assert (read_csv (data_path self0 +:+ "STOCK" +:+ ".csv") = Some STOCK)
    as H2 by (vm_compute; reflexivity).
  assert (common_id_cols ORDERS STOCK ≠ []) as H3 by (vm_compute; discriminate).
  assert (merge_keys_ok (common_id_cols ORDERS STOCK)
            (drop_duplicates (df_select (common_id_cols ORDERS STOCK) ORDERS))
            (drop_duplicates (df_select (common_id_cols ORDERS STOCK) STOCK))
          = true) as H4 by (vm_compute; reflexivity).
  assert (order_row ∈ rows ORDERS) as H5 by compute_done.
  assert (key_of (common_id_cols ORDERS STOCK) order_row
            ∉ keys (common_id_cols ORDERS STOCK) STOCK) as H6 by compute_done.
  split; [exact H0|]. split; [exact H1|]. split; [exact H2|].
  split; [vm_compute; reflexivity|]. split; [exact H4|]. split; [exact H5|].
  split; [vm_compute; reflexivity|]. split; [exact H6|].
  split; [compute_done|]. split; [compute_done|].
  exact (proj1 (check_cross_consistency_composite_key ["ORDERS"; "STOCK"]
                  self0 "ORDERS" "STOCK" ORDERS STOCK order_row
                  H0 Hin1 Hin2 Hne H1 H2 H3 H4 H5 H6)).
Defined.

(** VISITS against PLAN with threshold 50: one of two combinations is
    missing, 50 per cent exactly, and no missing-combination finding is
    appended; the finding of the call is the low-frequency one. *)
Lemma check_time_cross_consistency_percentage_gate_witness :
  read_csv (data_path self0 +:+ "VISITS" +:+ ".csv") = Some VISITS
  ∧ read_csv (data_path self0 +:+ "PLAN" +:+ ".csv") = Some PLAN
  ∧ time_id_columns visits_common ≠ []
  ∧ time_date_columns visits_common ≠ []
  ∧ NoDup visits_keys
  ∧ merge_keys_ok visits_keys
      (drop_duplicates (df_select visits_keys VISITS))
      (drop_duplicates (df_select visits_keys PLAN)) = true
  ∧ binary64 th50 ∧ binary64_frame VISITS ∧ binary64_frame PLAN
  ∧ length (anti_join visits_keys VISITS PLAN) = 1
  ∧ float_val (missing_pct 1 2) = Some th50
  ∧ float_gt (missing_pct 1 2) th50 = false
  ∧ key_of ["PRODUCT_ID"; "WEEK_DT"; "INPUT_TABLE"]
      <$> rows (check_time_cross_consistency [("VISITS", "PLAN")] th50
                  self0).1
    = [[num 1; VNull; VStr "VISITS"]].
Proof.
  assert (read_csv (data_path self0 +:+ "VISITS" +:+ ".csv") = Some VISITS)
    as H1 by (vm_compute; reflexivity).
  assert (read_csv (data_path self0 +:+ "PLAN" +:+ ".csv") = Some PLAN)
    as H2 by (vm_compute; reflexivity).
  assert (time_id_columns visits_common ≠ []) as H3
    by (vm_compute; discriminate).
  assert (time_date_columns visits_common ≠ []) as H4
    by (vm_compute; discriminate).
  assert (NoDup visits_keys) as H5 by compute_done.
  assert (merge_keys_ok visits_keys
            (drop_duplicates (df_select visits_keys VISITS))
            (drop_duplicates (df_select visits_keys PLAN)) = true) as H6
    by (vm_compute; reflexivity).
  assert (binary64 th50) as H7 by small_number.
  assert (binary64_frame VISITS) as H8 by binary64_table.
  assert (binary64_frame PLAN) as H9 by binary64_table.
  assert (float_val (missing_pct 1 2) = Some th50) as H10
    by (vm_compute; f_equal; by apply Qc_is_canon).
  destruct (check_time_cross_consistency_percentage_gate [] th50 self0
              "VISITS" "PLAN" VISITS PLAN H1 H2 H3 H4 H5 H6 H7 H8 H9)
    as (_ & _ & _ & _ & _ & Hboundary & _).
  split; [exact H1|]. split; [exact H2|]. split; [exact H3|].
  split; [exact H4|]. split; [exact H5|]. split; [exact H6|].
  split; [exact H7|]. split; [exact H8|]. split; [exact H9|].
  split; [vm_compute; reflexivity|]. split; [exact H10|].
  split; [exact (Hboundary H10)|].
  vm_compute. reflexivity.
Defined.

(** VISITS against PLAN with threshold 50: product 1 is seen in two
    weeks, at most 50, and is flagged under VISITS alone. *)
Lemma check_time_cross_consistency_low_frequency_witness :
  read_csv (data_path self0 +:+ "VISITS" +:+ ".csv") = Some VISITS
  ∧ read_csv (data_path self0 +:+ "PLAN" +:+ ".csv") = Some PLAN
  ∧ time_id_columns visits_common ≠ []
  ∧ time_date_columns visits_common ≠ []
  ∧ NoDup visits_keys
  ∧ merge_keys_ok visits_keys
      (drop_duplicates (df_select visits_keys VISITS))
      (drop_duplicates (df_select visits_keys PLAN)) = true
  ∧ binary64 th50 ∧ binary64_frame VISITS ∧ binary64_frame PLAN
  ∧ infrequent_entities (time_id_columns visits_common) "WEEK_DT" th50 VISITS
    = [[num 1]]
  ∧ time_infrequent_row "VISITS" th50
      (entity_row (time_id_columns visits_common) [num 1])
      ∈ rows (check_time_cross_consistency [("VISITS", "PLAN")] th50 self0).1.
Proof.
  assert (read_csv (data_path self0 +:+ "VISITS" +:+ ".csv") = Some VISITS)
    as H1 by (vm_compute; reflexivity).
  assert (read_csv (data_path self0 +:+ "PLAN" +:+ ".csv") = Some PLAN)
    as H2 by (vm_compute; reflexivity).
  assert (time_id_columns visits_common ≠ []) as H3
    by (vm_compute; discriminate).
  assert (time_date_columns visits_common ≠ []) as H4
    by (vm_compute; discriminate).
  assert (NoDup visits_keys) as H5 by compute_done.
  assert (merge_keys_ok visits_keys
            (drop_duplicates (df_select visits_keys VISITS))
            (drop_duplicates (df_select visits_keys PLAN)) = true) as H6
    by (vm_compute; reflexivity).
  assert (binary64 th50) as H7 by small_number.
  assert (binary64_frame VISITS) as H8 by binary64_table.
  assert (binary64_frame PLAN) as H9 by binary64_table.
  assert (infrequent_entities (time_id_columns visits_common) "WEEK_DT" th50
            VISITS = [[num 1]]) as H10 by (vm_compute; reflexivity).
  destruct (check_time_cross_consistency_low_frequency [] th50 self0
              "VISITS" "PLAN" VISITS PLAN H1 H2 H3 H4 H5 H6 H7 H8 H9)
    as (kept & date0 & gap & _ & Hhead & _ & _ & _ & _ & _ & _ & Hflag).
  split; [exact H1|]. split; [exact H2|]. split; [exact H3|].
  split; [exact H4|]. split; [exact H5|]. split; [exact H6|].
  split; [exact H7|]. split; [exact H8|]. split; [exact H9|].
  split; [exact H10|].
  vm_compute in Hhead. injection Hhead as <-.
  destruct (Hflag [num 1]) as [Hin _]; [compute_done|exact Hin].
Defined.

(** ** Where the claims as written fail *)

(** C1, as written, fails twice.  Of the 20 weeks of WEEKS20, 11 are
    missing from WEEKS9: that is 55 per cent, the threshold, and the 11
    findings are appended all the same, since binary64 computes
    55.00000000000001.  OFFERS and DEALS share one column that is both
    an ID and a date column: the combination of OFFERS is missing, 100 per
    cent, and nothing is appended, since the merge raises. *)
Lemma check_time_cross_consistency_percentage_gate_counterexample :
  (length (anti_join ["PRODUCT_ID"; "WEEK_DT"] WEEKS20 WEEKS9) = 11
   ∧ df_len (drop_duplicates (df_select ["PRODUCT_ID"; "WEEK_DT"] WEEKS20))
     = 20
   ∧ (Qc_of_Z 11 / Qc_of_Z 20 * Qc_of_Z 100 = Qc_of_Z 55)%Qc
   ∧ series (check_time_cross_consistency [("WEEKS20", "WEEKS9")]
               (Qc_of_Z 55) self0).1 "INPUT_TABLE"
     = replicate 11 (VStr "WEEKS20 && WEEKS9") ++ [VStr "WEEKS20"])
  ∧ (time_id_columns (set_and (columns OFFERS) (columns DEALS))
     = ["PRODUCT_VALID_DT"]
     ∧ time_date_columns (set_and (columns OFFERS) (columns DEALS))
       = ["PRODUCT_VALID_DT"]
     ∧ length (anti_join ["PRODUCT_VALID_DT"] OFFERS DEALS) = 1
     ∧ float_gt (missing_pct 1 1) th50 = true
     ∧ check_time_cross_consistency [("OFFERS", "DEALS")] th50 self0
       = (empty_frame, self0)).
Proof.
  split.
  - split; [vm_compute; reflexivity|]. split; [vm_compute; reflexivity|].
    split; [by apply Qc_is_canon|]. vm_compute. reflexivity.
  - split; [vm_compute; reflexivity|]. split; [vm_compute; reflexivity|].
    split; [vm_compute; reflexivity|]. split; vm_compute; reflexivity.
Qed.

(** C2, as written, fails on OFFERS and DEALS: the one entity of OFFERS
    is seen in one period, at most 50, and no finding is appended, since
    the merge before the low-frequency block raises. *)
Lemma check_time_cross_consistency_low_frequency_counterexample :
  time_id_columns (set_and (columns OFFERS) (columns DEALS))
  = ["PRODUCT_VALID_DT"]
  ∧ time_date_columns (set_and (columns OFFERS) (columns DEALS))
    = ["PRODUCT_VALID_DT"]
  ∧ infrequent_entities ["PRODUCT_VALID_DT"] "PRODUCT_VALID_DT" th50 OFFERS
    = [[VStr "2025-01-06"]]
  ∧ period_count_of ["PRODUCT_VALID_DT"] "PRODUCT_VALID_DT" OFFERS
      [VStr "2025-01-06"] = 1
  ∧ check_time_cross_consistency [("OFFERS", "DEALS")] th50 self0
    = (empty_frame, self0).
Proof.
  split; [vm_compute; reflexivity|]. split; [vm_compute; reflexivity|].
  split; [vm_compute; reflexivity|]. split; vm_compute; reflexivity.
Qed.

(** C3, as written, fails on SALES and CODES: they share PRODUCT_ID,
    product 1 is sold and is no code, and neither direction appends a
    finding, since [merge] refuses a key that is a number in one table and
    text in the other. *)
Lemma check_cross_consistency_ordered_pairs_counterexample :
  common_id_cols SALES CODES = ["PRODUCT_ID"]
  ∧ [num 1] ∈ keys ["PRODUCT_ID"] SALES
  ∧ ([num 1] ∉ keys ["PRODUCT_ID"] CODES)
  ∧ [VStr "p1"] ∈ keys ["PRODUCT_ID"] CODES
  ∧ ([VStr "p1"] ∉ keys ["PRODUCT_ID"] SALES)
  ∧ check_cross_consistency ["SALES"; "CODES"] self0 = (empty_frame, self0).
Proof.
  split; [vm_compute; reflexivity|]. split; [compute_done|].
  split; [compute_done|]. split; [compute_done|]. split; [compute_done|].
  vm_compute. reflexivity.
Qed.

(** C4, as written, fails on ORDERS and DEPOTS: the tuple (1, x) of
    ORDERS is no tuple of DEPOTS, which holds (1, 7), and it is not
    flagged, since [merge] refuses the location key. *)
Lemma check_cross_consistency_composite_key_counterexample :
  common_id_cols ORDERS DEPOTS = ["PRODUCT_ID"; "LOCATION_ID"]
  ∧ order_row ∈ rows ORDERS
  ∧ key_of ["PRODUCT_ID"; "LOCATION_ID"] order_row = [num 1; VStr "x"]
  ∧ ([num 1; VStr "x"] ∉ keys ["PRODUCT_ID"; "LOCATION_ID"] DEPOTS)
  ∧ num 1 ∈ series DEPOTS "PRODUCT_ID"
  ∧ check_cross_consistency ["ORDERS"; "DEPOTS"] self0 = (empty_frame, self0).
Proof.
  split; [vm_compute; reflexivity|]. split; [compute_done|].
  split; [vm_compute; reflexivity|]. split; [compute_done|].
  split; [compute_done|]. vm_compute. reflexivity.
Qed.

(** C5, as written, fails on LABELS: its column INPUT_TABLE exists and
    holds -5, below the threshold 0, and the row is not appended, since
    the unit has written the table's name over the column when it formats
    its message. *)
Lemma check_val_range_strict_threshold_counterexample :
  read_csv (data_path self0 +:+ "LABELS" +:+ ".csv") = Some LABELS
  ∧ "INPUT_TABLE" ∈ columns LABELS
  ∧ series LABELS "INPUT_TABLE" = [num (-5)]
  ∧ (Qc_of_Z (-5) < 0)%Qc
  ∧ check_val_range [("LABELS", "INPUT_TABLE")] 0%Qc self0
    = (empty_frame, self0).
Proof.
  split; [vm_compute; reflexivity|]. split; [compute_done|].
  split; [vm_compute; reflexivity|]. split; [done|].
  vm_compute. reflexivity.
Qed.

(** Formatting the PRICES findings twice: the second run changes nothing, PRODUCT_ID having become PRODUCT_LVL_ID3. *)
Lemma format_output_idempotent_witness :
  (format_output lvl0 (format_output lvl0 after_val_range).2).2
  = (format_output lvl0 after_val_range).2
  ∧ columns (data_quality_output (format_output lvl0 after_val_range).2)
    = ["PRICE"; "INPUT_COLUMN"; "INPUT_TABLE"; "INPUT_VALUE"; "WARNING_TYPE";
       "WARNING"; "PRODUCT_LVL_ID3"; "PRODUCT_LVL"].
Proof.
  split.
  - exact (proj1 (format_output_idempotent lvl0 after_val_range)).
  - vm_compute. reflexivity.
Defined.

(** One finding: severity LOW. *)
Lemma get_summary_severity_breakpoints_witness :
  df_empty (data_quality_output after_val_range) = false
  ∧ (get_summary after_val_range).1 !! "severity" = Some (SStr "LOW")
  ∧ (get_summary after_val_range).1 !! "total_issues" = Some (SInt 1).
Proof.
  assert (df_empty (data_quality_output after_val_range) = false) as H1
    by (vm_compute; reflexivity).
  destruct (get_summary_severity_breakpoints after_val_range H1)
    as (Hsev & Htotal & _).
  split; [exact H1|]. split; [exact Hsev|exact Htotal].
Defined.

(** A fresh object: the zero-issue record, without severity. *)
Lemma get_summary_empty_shape_witness :
  df_empty (data_quality_output self0) = true
  ∧ (get_summary self0).1 !! "severity" = None
  ∧ (get_summary self0).1 !! "total_issues" = Some (SInt 0)
  ∧ (get_summary self0).2 = self0.
Proof.
  assert (df_empty (data_quality_output self0) = true) as H1
    by (vm_compute; reflexivity).
  destruct (get_summary_empty_shape self0 H1) as (Heq & Hsev & _ & _ & Hpure).
  split; [exact H1|]. split; [exact Hsev|].
  split; [rewrite Heq; vm_compute; reflexivity|apply Hpure].
Defined.


(** ** The further properties at the scenarios *)


(** The summary of the one PRICES finding: one val_range issue, found in
    PRICES. *)
Lemma get_summary_groups_findings_witness :
  df_empty (data_quality_output after_val_range) = false
  ∧ well_tagged (data_quality_output after_val_range)
  ∧ (get_summary after_val_range).1 !! "by_type"
    = Some (SDict {[ VStr "val_range" := 1 ]})
  ∧ (get_summary after_val_range).1 !! "total_issues" = Some (SInt 1).
Proof.
  assert (df_empty (data_quality_output after_val_range) = false) as H1
    by (vm_compute; reflexivity).
  assert (well_tagged (data_quality_output after_val_range)) as H2.
  { apply (accumulated_well_tagged self0);
      [|apply well_tagged_empty_frame].
    eapply accumulated_mono; [|apply val_range_accumulates].
    intros v ->%list_elem_of_singleton. compute_done. }
  destruct (get_summary_groups_findings after_val_range H1 H2)
    as (by_type & by_table & Ht & _ & _ & _ & _ & Htotal).
  split; [exact H1|]. split; [exact H2|].
  split; [vm_compute; reflexivity|].
  rewrite Htotal. vm_compute. reflexivity.
Defined.



(** A unit on an absent table and a unit on an absent column: nothing is
    found. *)
Lemma check_val_range_skips_unusable_units_witness :
  Forall (λ u, match read_csv (data_path self0 +:+ u.1 +:+ ".csv") with
               | None => True
               | Some table => u.2 ∉ columns table
               end) [("ABSENT", "PRICE"); ("PRICES", "COST")]
  ∧ check_val_range [("ABSENT", "PRICE"); ("PRICES", "COST")] 0%Qc self0
    = (empty_frame, self0).
Proof.
  assert (Forall (λ u, match read_csv (data_path self0 +:+ u.1 +:+ ".csv") with
                       | None => True
                       | Some table => u.2 ∉ columns table
                       end) [("ABSENT", "PRICE"); ("PRICES", "COST")]) as H1.
  { repeat constructor. vm_compute. intros Hin.
    repeat (apply elem_of_cons in Hin as [Hin|Hin]; [discriminate|]).
    by apply elem_of_nil in Hin. }
  split; [exact H1|].
  exact (check_val_range_skips_unusable_units _ 0%Qc self0 H1).
Defined.

(** PRICES and PRODUCT_HIER share no column: both checkers pass the pair
    over. *)
Lemma units_without_key_columns_are_skipped_witness :
  read_csv (data_path self0 +:+ "PRICES" +:+ ".csv") = Some PRICES
  ∧ read_csv (data_path self0 +:+ "PRODUCT_HIER" +:+ ".csv") = Some PRODUCT_HIER
  ∧ common_id_cols PRICES PRODUCT_HIER = []
  ∧ check_cross_consistency_body ("PRICES", "PRODUCT_HIER") self0
    = (Some tt, self0)
  ∧ check_time_cross_consistency_body th50 ("PRICES", "PRODUCT_HIER") self0
    = (Some tt, self0).
Proof.
  assert (read_csv (data_path self0 +:+ "PRICES" +:+ ".csv") = Some PRICES) as H1
    by (vm_compute; reflexivity).
  assert (read_csv (data_path self0 +:+ "PRODUCT_HIER" +:+ ".csv")
          = Some PRODUCT_HIER) as H2 by (vm_compute; reflexivity).
  assert (common_id_cols PRICES PRODUCT_HIER = []) as H3
    by (vm_compute; reflexivity).
  destruct (units_without_key_columns_are_skipped self0 "PRICES" "PRODUCT_HIER"
              PRICES PRODUCT_HIER H1 H2) as (Hcross & Htime & _).
  split; [exact H1|]. split; [exact H2|]. split; [exact H3|].
  split; [exact (Hcross H3)|].
  apply Htime. left. vm_compute. reflexivity.
Defined.



(** In the findings on (ORDERS, STOCK) the location is text: LOCATION is
    passed over and PRODUCT is converted all the same. *)
Lemma format_output_passes_over_failing_dimension_witness :
  (read_csv (data_path after_orders +:+ "PRODUCT_HIER" +:+ ".csv") = None
   ∨ astype_Int64 (series (data_quality_output after_orders)
                     ("LOCATION" +:+ "_ID")) = None)
  ∧ format_output lvl_location after_orders = format_output lvl0 after_orders
  ∧ "PRODUCT_LVL_ID3"
      ∈ columns (data_quality_output (format_output lvl_location after_orders).2)
  ∧ "LOCATION_ID"
      ∈ columns (data_quality_output (format_output lvl_location after_orders).2).
Proof.
  assert (read_csv (data_path after_orders +:+ "PRODUCT_HIER" +:+ ".csv") = None
          ∨ astype_Int64 (series (data_quality_output after_orders)
                            ("LOCATION" +:+ "_ID")) = None) as H1
    by (right; vm_compute; reflexivity).
  split; [exact H1|]. split; [|split; compute_done].
  exact (format_output_passes_over_failing_dimension [] lvl0
           "LOCATION" "PRODUCT_HIER" after_orders H1).
Defined.

(** The object of the scenarios configures no checker. *)
Lemma check_runs_only_configured_checkers_witness :
  (it_val_range (input_tables self0) = None
   ∨ th_val_range (th_values self0) = None)
  ∧ it_cross_consistency (input_tables self0) = None
  ∧ (it_time_cross_consistency (input_tables self0) = None
     ∨ th_time_cross_consistency (th_values self0) = None)
  ∧ (check self0).2 = set_output self0 empty_frame
  ∧ (get_summary (check self0).2).1 !! "total_issues" = Some (SInt 0).
Proof.
  assert (it_val_range (input_tables self0) = None
          ∨ th_val_range (th_values self0) = None) as H1
    by (left; reflexivity).
  assert (it_cross_consistency (input_tables self0) = None) as H2
    by reflexivity.
  assert (it_time_cross_consistency (input_tables self0) = None
          ∨ th_time_cross_consistency (th_values self0) = None) as H3
    by (left; reflexivity).
  destruct (check_runs_only_configured_checkers self0 H1 H2 H3)
    as (Hcheck & Htotal & _).
  split; [exact H1|]. split; [exact H2|]. split; [exact H3|].
  split; [exact Hcheck|exact Htotal].
Defined.

(** The location of ORDERS is text: the unit on it raises and appends
    nothing. *)
Lemma check_val_range_text_cell_raises_witness :
  read_csv (data_path self0 +:+ "ORDERS" +:+ ".csv") = Some ORDERS
  ∧ "LOCATION_ID" ∈ columns ORDERS
  ∧ ("LOCATION_ID" ∉ ["INPUT_COLUMN"; "INPUT_TABLE"; "WARNING_TYPE"])
  ∧ (∀ q, is_Some (format_2f (VNum q)))
  ∧ check_val_range_body 0%Qc ("ORDERS", "LOCATION_ID") self0 = (None, self0).
Proof.
  assert (read_csv (data_path self0 +:+ "ORDERS" +:+ ".csv") = Some ORDERS) as H1
    by (vm_compute; reflexivity).
  assert ("LOCATION_ID" ∈ columns ORDERS) as H2 by compute_done.
  assert ("LOCATION_ID" ∉ ["INPUT_COLUMN"; "INPUT_TABLE"; "WARNING_TYPE"]) as H3
    by compute_done.
  assert (∀ q, is_Some (format_2f (VNum q))) as H4
    by (intros q; eexists; reflexivity).
  destruct (check_val_range_text_cell_raises 0%Qc self0 "ORDERS" "LOCATION_ID"
              ORDERS H1 H2 H3 H4) as (_ & Hraise).
  split; [exact H1|]. split; [exact H2|]. split; [exact H3|].
  split; [exact H4|].
  apply Hraise. exists order_row, "x". split; [compute_done|reflexivity].
Defined.

(** PRICES with thresholds 0 and 20: one finding, then three. *)
Lemma check_val_range_threshold_monotone_witness :
  read_csv (data_path self0 +:+ "PRICES" +:+ ".csv") = Some PRICES
  ∧ "PRICE" ∈ columns PRICES
  ∧ check_val_range_body 0%Qc ("PRICES", "PRICE") self0
    = (Some tt, after_val_range)
  ∧ check_val_range_body th20 ("PRICES", "PRICE") self0
    = (Some tt, after_val_range_20)
  ∧ (0 ≤ th20)%Qc
  ∧ binary64 0%Qc ∧ binary64 th20 ∧ binary64_frame PRICES
  ∧ df_len (data_quality_output after_val_range) = 1
  ∧ df_len (data_quality_output after_val_range_20) = 3
  ∧ df_len (data_quality_output after_val_range)
    ≤ df_len (data_quality_output after_val_range_20).
Proof.
  assert (read_csv (data_path self0 +:+ "PRICES" +:+ ".csv") = Some PRICES) as H1
    by (vm_compute; reflexivity).
  assert ("PRICE" ∈ columns PRICES) as H2 by compute_done.
  assert (check_val_range_body 0%Qc ("PRICES", "PRICE") self0
          = (Some tt, after_val_range)) as H3 by (vm_compute; reflexivity).
  assert (check_val_range_body th20 ("PRICES", "PRICE") self0
          = (Some tt, after_val_range_20)) as H4 by (vm_compute; reflexivity).
  assert (0 ≤ th20)%Qc as H5 by compute_done.
  assert (binary64 0%Qc) as H6
    by (apply (binary64_of_Z 0); vm_compute; reflexivity).
  assert (binary64 th20) as H7 by small_number.
  assert (binary64_frame PRICES) as H8 by binary64_table.
  destruct (check_val_range_threshold_monotone 0%Qc th20 self0 after_val_range
              after_val_range_20 "PRICES" "PRICE" PRICES H1 H2 H3 H4 H5
              H6 H7 H8) as (_ & Hle & _).
  split; [exact H1|]. split; [exact H2|]. split; [exact H3|].
  split; [exact H4|]. split; [exact H5|]. split; [exact H6|].
  split; [exact H7|]. split; [exact H8|].
  split; [vm_compute; reflexivity|]. split; [vm_compute; reflexivity|exact Hle].
Defined.

(** PRICES under the threshold twenty: three findings, all quoting the
    price of the first. *)
Lemma check_val_range_message_quotes_first_row_witness :
  read_csv (data_path self0 +:+ "PRICES" +:+ ".csv") = Some PRICES
  ∧ "PRICE" ∈ columns PRICES
  ∧ ("PRICE" ∉ ["INPUT_COLUMN"; "INPUT_TABLE"; "INPUT_VALUE"; "WARNING_TYPE"])
  ∧ check_val_range_body th20 ("PRICES", "PRICE") self0
    = (Some tt, after_val_range_20)
  ∧ List.filter (below th20 "PRICE") (rows PRICES) = price_row1 :: price_rows23
  ∧ binary64 th20 ∧ binary64_frame PRICES
  ∧ series (data_quality_output after_val_range_20) "WARNING"
    = replicate 3 (VStr "Value PRICE=-5.00 is below threshold 20 in PRICES")
  ∧ series (data_quality_output after_val_range_20) "PRICE"
    = [num (-5); num 10; num 0].
Proof.
  assert (read_csv (data_path self0 +:+ "PRICES" +:+ ".csv") = Some PRICES) as H1
    by (vm_compute; reflexivity).
  assert ("PRICE" ∈ columns PRICES) as H2 by compute_done.
  assert ("PRICE" ∉ ["INPUT_COLUMN"; "INPUT_TABLE"; "INPUT_VALUE";
                     "WARNING_TYPE"]) as H3 by compute_done.
  assert (check_val_range_body th20 ("PRICES", "PRICE") self0
          = (Some tt, after_val_range_20)) as H4 by (vm_compute; reflexivity).
  assert (List.filter (below th20 "PRICE") (rows PRICES)
          = price_row1 :: price_rows23) as H5 by (vm_compute; reflexivity).
  assert (binary64 th20) as H6 by small_number.
  assert (binary64_frame PRICES) as H7 by binary64_table.
  destruct (check_val_range_message_quotes_first_row th20 self0
              after_val_range_20 "PRICES" "PRICE" PRICES price_row1
              price_rows23 H1 H2 H3 H4 H5 H6 H7)
    as (shown & kept & Hshown & Hkept & Hrows & _).
  split; [exact H1|]. split; [exact H2|]. split; [exact H3|].
  split; [exact H4|]. split; [exact H5|]. split; [exact H6|].
  split; [exact H7|].
  unfold series. rewrite Hrows.
  assert (kept = []) as -> by (by apply nil_length_inv).
  assert (shown = "-5.00") as -> by (vm_compute in Hshown; congruence).
  split; vm_compute; reflexivity.
Defined.
